(** * Turkish Airlines six-continent flight search: route enumeration,
      flight validation and the resumable search driver

    A shallow embedding of [route_planner.py], [utils.py] and
    [comprehensive_flight_search.py].

    Conventions of the embedding.
    - A Python [str] is represented by its UTF-8 encoding, a [string] of
      bytes.  Equality, ordering, substring search and replacement of valid
      UTF-8 text agree byte-wise with the same operations on code points.
      Case mapping and whitespace stripping are embedded for the ASCII
      range; bytes above 127 are left untouched by [lower], [upper] and
      [strip].
    - Python numbers are embedded as exact values: an [int] is a [Z], a
      finite [float] is the rational it denotes, obtained by rounding to
      binary64 (round to nearest, ties to even); infinities and NaN are
      separate constructors.  The sign of zero is not represented.
    - A [dict] is an association list in insertion order, a [set] a list
      without regard to order. *)

From Stdlib Require Import String Ascii List Bool Arith ZArith QArith Lia.
From Stdlib Require Import Permutation Sorted.
From Stdlib Require OrderedTypeEx.
Import ListNotations.
Close Scope Q_scope.
Open Scope string_scope.
Open Scope list_scope.
Open Scope nat_scope.

(* ------------------------------------------------------------------ *)
(** ** Python strings *)

Module PyStr.

(** [needle in s]. *)
Fixpoint contains (needle s : string) : bool :=
  String.prefix needle s ||
  match s with
  | EmptyString => false
  | String _ s' => contains needle s'
  end.

(** [s.replace(old, new)] for a non-empty [old]: occurrences are replaced
    from left to right and do not overlap.  [skip] counts the bytes of a
    match that are still to be dropped. *)
Fixpoint replace_from (skip : nat) (old new s : string) : string :=
  match s with
  | EmptyString => EmptyString
  | String c s' =>
      match skip with
      | S k => replace_from k old new s'
      | O =>
          if String.prefix old s
          then new ++ replace_from (String.length old - 1) old new s'
          else String c (replace_from O old new s')
      end
  end.

Definition replace (old new s : string) : string := replace_from O old new s.

Definition code (c : ascii) : N := N_of_ascii c.

Definition lower_char (c : ascii) : ascii :=
  if (65 <=? code c)%N && (code c <=? 90)%N then ascii_of_N (code c + 32) else c.

Definition upper_char (c : ascii) : ascii :=
  if (97 <=? code c)%N && (code c <=? 122)%N then ascii_of_N (code c - 32) else c.

Fixpoint map_chars (f : ascii -> ascii) (s : string) : string :=
  match s with
  | EmptyString => EmptyString
  | String c s' => String (f c) (map_chars f s')
  end.

(** [s.lower()] and [s.upper()]. *)
Definition lower : string -> string := map_chars lower_char.
Definition upper : string -> string := map_chars upper_char.

(** [c.isspace()] on the ASCII range: TAB, LF, VT, FF, CR, the four
    separators 0x1c-0x1f and the space. *)
Definition is_space (c : ascii) : bool :=
  ((9 <=? code c)%N && (code c <=? 13)%N) ||
  ((28 <=? code c)%N && (code c <=? 32)%N).

Fixpoint lstrip (s : string) : string :=
  match s with
  | EmptyString => EmptyString
  | String c s' => if is_space c then lstrip s' else s
  end.

Fixpoint rstrip (s : string) : string :=
  match s with
  | EmptyString => EmptyString
  | String c s' =>
      match rstrip s' with
      | EmptyString => if is_space c then EmptyString else String c EmptyString
      | r => String c r
      end
  end.

(** [s.strip()]. *)
Definition strip (s : string) : string := rstrip (lstrip s).

(** [sep.join(parts)]. *)
Fixpoint join (sep : string) (parts : list string) : string :=
  match parts with
  | [] => EmptyString
  | [p] => p
  | p :: rest => p ++ sep ++ join sep rest
  end.

(** [s[:n]], the first [n] characters: a byte [10xxxxxx] continues the
    character before it. *)
Definition is_continuation (c : ascii) : bool :=
  (128 <=? code c)%N && (code c <? 192)%N.

Fixpoint take (n : nat) (s : string) : string :=
  match s with
  | EmptyString => EmptyString
  | String c s' =>
      if is_continuation c then String c (take n s')
      else match n with
           | O => EmptyString
           | S k => String c (take k s')
           end
  end.

End PyStr.

(* ------------------------------------------------------------------ *)
(** ** Python numbers *)

Module PyNum.

Inductive pynum : Type :=
| PyInt (z : Z)
| PyFloat (q : Q)
| PyInf (negative : bool)
| PyNaN.

(** Nearest integer to [n / d], ties to even ([0 <= n], [0 < d]). *)
Definition rne (n d : Z) : Z :=
  let q := (n / d)%Z in
  match (2 * (n mod d) ?= d)%Z with
  | Lt => q
  | Gt => (q + 1)%Z
  | Eq => if Z.even q then q else (q + 1)%Z
  end.

(** The binary64 value nearest to [n / d] for positive [n] and [d]:
    53 bits of precision, exponents down to the subnormal range, overflow
    to infinity. *)
Definition round64_pos (n d : Z) : pynum :=
  let e0 := (Z.log2 n - Z.log2 d)%Z in
  let below := (n * 2 ^ Z.max 0 (- e0) <? d * 2 ^ Z.max 0 e0)%Z in
  let ex := if below then (e0 - 1)%Z else e0 in
  let e := Z.max (ex - 52) (-1074) in
  let m := rne (n * 2 ^ Z.max 0 (- e)) (d * 2 ^ Z.max 0 e) in
  if (0 <=? e)%Z
  then if (2 ^ 1024 <=? m * 2 ^ e)%Z then PyInf false
       else PyFloat (inject_Z (m * 2 ^ e))
  else PyFloat (Qred (Qmake m (Z.to_pos (2 ^ (- e))))).

Definition negate (x : pynum) : pynum :=
  match x with
  | PyInt z => PyInt (- z)
  | PyFloat q => PyFloat (Qred (- q))
  | PyInf s => PyInf (negb s)
  | PyNaN => PyNaN
  end.

Definition round64 (q : Q) : pynum :=
  match Qnum q with
  | Z0 => PyFloat 0
  | Zpos n => round64_pos (Zpos n) (Zpos (Qden q))
  | Zneg n => negate (round64_pos (Zpos n) (Zpos (Qden q)))
  end.

(** *** [float(s)] on ASCII text

    [[sign] (digitpart ["." [digitpart]] | "." digitpart) [exponent]],
    [inf], [infinity] and [nan] in any case, surrounded by whitespace;
    a digitpart is a run of digits with single underscores between
    them.  [None] stands for [ValueError]. *)

Definition digit_of (c : ascii) : option Z :=
  let n := PyStr.code c in
  if (48 <=? n)%N && (n <=? 57)%N then Some (Z.of_N n - 48)%Z else None.

(** Continues a digitpart: [acc] is the value read so far, [cnt] the number
    of digits read by this call chain. *)
Fixpoint digits_tail (acc : Z) (cnt : nat) (s : string) : Z * nat * string :=
  match s with
  | EmptyString => (acc, cnt, s)
  | String c s' =>
      match digit_of c with
      | Some d => digits_tail (10 * acc + d) (S cnt) s'
      | None =>
          if Ascii.eqb c "_"
          then match s' with
               | String c2 s'' =>
                   match digit_of c2 with
                   | Some d => digits_tail (10 * acc + d) (S cnt) s''
                   | None => (acc, cnt, s)
                   end
               | EmptyString => (acc, cnt, s)
               end
          else (acc, cnt, s)
      end
  end.

(** A digitpart appended to the value [acc]; [None] when [s] does not start
    with a digit. *)
Definition digitpart (acc : Z) (s : string) : option (Z * nat * string) :=
  match s with
  | String c s' =>
      match digit_of c with
      | Some d => Some (digits_tail (10 * acc + d) 1 s')
      | None => None
      end
  | EmptyString => None
  end.

(** Mantissa digits, number of fractional digits, rest of the text. *)
Definition number (s : string) : option (Z * nat * string) :=
  match digitpart 0 s with
  | Some (ip, _, String "." r) =>
      match digitpart ip r with
      | Some (m, fc, r') => Some (m, fc, r')
      | None => Some (ip, O, r)
      end
  | Some (ip, _, r) => Some (ip, O, r)
  | None =>
      match s with
      | String "." r => digitpart 0 r
      | _ => None
      end
  end.

(** Optional exponent; the text must end after it. *)
Definition exponent (s : string) : option Z :=
  match s with
  | EmptyString => Some 0%Z
  | String c r =>
      if Ascii.eqb c "e" || Ascii.eqb c "E"
      then
        let '(neg, r1) :=
          match r with
          | String "-" r' => (true, r')
          | String "+" r' => (false, r')
          | _ => (false, r)
          end in
        match digitpart 0 r1 with
        | Some (v, _, EmptyString) => Some (if neg then (- v)%Z else v)
        | _ => None
        end
      else None
  end.

Definition abs_float (s : string) : option pynum :=
  let l := PyStr.lower s in
  if String.eqb l "inf" || String.eqb l "infinity" then Some (PyInf false)
  else if String.eqb l "nan" then Some PyNaN
  else
    match number s with
    | Some (m, fc, r) =>
        match exponent r with
        | Some ex =>
            let k := (ex - Z.of_nat fc)%Z in
            Some (if (0 <=? k)%Z
                  then round64 (inject_Z (m * 10 ^ k))
                  else round64 (Qmake m (Z.to_pos (10 ^ (- k)))))
        | None => None
        end
    | None => None
    end.

Definition py_float (s : string) : option pynum :=
  match PyStr.strip s with
  | String "-" r => option_map negate (abs_float r)
  | String "+" r => abs_float r
  | r => abs_float r
  end.

(** *** Comparison and addition *)

Inductive ext : Type := NegInf | Fin (q : Q) | PosInf.

(** The extended real a number denotes; NaN denotes none. *)
Definition value (x : pynum) : option ext :=
  match x with
  | PyInt z => Some (Fin (inject_Z z))
  | PyFloat q => Some (Fin q)
  | PyInf true => Some NegInf
  | PyInf false => Some PosInf
  | PyNaN => None
  end.

Definition ext_lt (a b : ext) : bool :=
  match a, b with
  | NegInf, NegInf => false
  | NegInf, _ => true
  | Fin _, NegInf => false
  | Fin x, Fin y => match (x ?= y)%Q with Lt => true | _ => false end
  | Fin _, PosInf => true
  | PosInf, _ => false
  end.

(** [a < b]: false as soon as one side is NaN. *)
Definition lt (a b : pynum) : bool :=
  match value a, value b with
  | Some x, Some y => ext_lt x y
  | _, _ => false
  end.

(** [a <= b]. *)
Definition le (a b : pynum) : bool :=
  match value a, value b with
  | Some x, Some y => negb (ext_lt y x)
  | _, _ => false
  end.

Definition is_nan (x : pynum) : bool :=
  match x with PyNaN => true | _ => false end.

(** [float(x)] of a number.  (CPython raises [OverflowError] for an [int]
    of magnitude 2^1024 or more; the embedding returns the infinity.) *)
Definition to_float (x : pynum) : pynum :=
  match x with
  | PyInt z => round64 (inject_Z z)
  | _ => x
  end.

(** [a + b]. *)
Definition add (a b : pynum) : pynum :=
  match a, b with
  | PyInt x, PyInt y => PyInt (x + y)
  | _, _ =>
      match to_float a, to_float b with
      | PyFloat x, PyFloat y => round64 (x + y)
      | PyInf s, PyInf t => if Bool.eqb s t then PyInf s else PyNaN
      | PyInf s, PyFloat _ => PyInf s
      | PyFloat _, PyInf t => PyInf t
      | _, _ => PyNaN
      end
  end.

End PyNum.

(* ------------------------------------------------------------------ *)
(** ** Python lists and dicts *)

Module PyList.

Section Lists.
Context {A : Type}.

(** [list.sort] and [sorted]: the stable sort.  [before y x] says that
    [y] compares strictly less than [x] under the sort key, so an element
    is moved in front of the elements that followed it in the input only
    when it is strictly smaller. *)
Variable before : A -> A -> bool.

Fixpoint insert (x : A) (l : list A) : list A :=
  match l with
  | [] => [x]
  | y :: l' => if before y x then y :: insert x l' else x :: l
  end.

Definition stable_sort (l : list A) : list A := fold_right insert [] l.

(** Neighbours [a], [b] of a sorted list: [b] is not strictly before [a]. *)
Definition in_order (a b : A) : Prop := before b a = false.

(** [itertools.product] of the lists [ls]. *)
Fixpoint product (ls : list (list A)) : list (list A) :=
  match ls with
  | [] => [[]]
  | l :: rest => flat_map (fun x => map (cons x) (product rest)) l
  end.
End Lists.

Section Equality.
Context {A : Type}.
Variable eqb : A -> A -> bool.

(** [l1 == l2], element by element. *)
Fixpoint list_eqb (l1 l2 : list A) : bool :=
  match l1, l2 with
  | [], [] => true
  | x :: l1', y :: l2' => eqb x y && list_eqb l1' l2'
  | _, _ => false
  end.
End Equality.

(** [a < b] and [a == b] on tuples of three strings. *)
Definition triple_ltb (a b : string * string * string) : bool :=
  let '(a1, a2, a3) := a in
  let '(b1, b2, b3) := b in
  String.ltb a1 b1 ||
  (String.eqb a1 b1 && (String.ltb a2 b2 || (String.eqb a2 b2 && String.ltb a3 b3))).

Definition triple_eqb (a b : string * string * string) : bool :=
  let '(a1, a2, a3) := a in
  let '(b1, b2, b3) := b in
  String.eqb a1 b1 && String.eqb a2 b2 && String.eqb a3 b3.

Definition mem (x : string) (l : list string) : bool :=
  existsb (String.eqb x) l.

(** [d.get(k)] on a dict kept as an association list. *)
Fixpoint lookup {V : Type} (k : string) (d : list (string * V)) : option V :=
  match d with
  | [] => None
  | (k', v) :: d' => if String.eqb k k' then Some v else lookup k d'
  end.

(** The elements of [set(l)]. *)
Fixpoint distinct (l : list string) : list string :=
  match l with
  | [] => []
  | x :: l' => if mem x l' then distinct l' else x :: distinct l'
  end.

End PyList.

(* ------------------------------------------------------------------ *)
(** ** utils.py: the reference data *)

Module Utils.

Definition get_eligible_country_list : list (string * list string) :=
  [ ("Europe",
      ["DE"; "AT"; "AZ"; "BE"; "GB"; "BA"; "BG"; "CZ"; "DK"; "EE"; "FI";
       "FR"; "GE"; "HR"; "NL"; "IE"; "ES"; "SE"; "CH"; "IT"; "ME"; "XK";
       "LV"; "LT"; "LU"; "HU"; "MK"; "MT"; "MD"; "NO"; "PL"; "PT"; "RO";
       "RU"; "RS"; "SI"; "GR"]);
    ("North America",
      ["US"; "CA"; "CU"; "MX"; "PA"]);
    ("South America",
      ["AR"; "BR"; "CO"; "CL"; "VE"]);
    ("Asia",
      ["AF"; "BH"; "BD"; "AE"; "CN"; "ID"; "PH"; "KR"; "IN"; "IQ"; "IR";
       "JP"; "QA"; "KZ"; "KG"; "KW"; "LB"; "MV"; "MY"; "MN"; "NP"; "UZ";
       "PK"; "SG"; "LK"; "SY"; "SA"; "TH"; "TM"; "OM"; "JO"; "VN"; "TR"]);
    ("Africa",
      ["AO"; "BJ"; "BF"; "DZ"; "DJ"; "TD"; "CD"; "ER"; "ET"; "MA"; "CI";
       "GA"; "GM"; "GH"; "GN"; "ZA"; "SS"; "CM"; "KE"; "CG"; "LY"; "MG";
       "ML"; "MU"; "EG"; "MR"; "MZ"; "NE"; "NG"; "RW"; "SN"; "SL"; "SO";
       "TZ"; "TN"; "UG"; "ZM"]);
    ("Oceania",
      ["AU"]) ].

Definition REQUIRED_CONTINENTS : list string :=
  ["Asia"; "Europe"; "Africa"; "North America"; "South America";
   "Oceania"].

Definition COUNTRY_MAJOR_CITIES : list (string * list string) :=
  [ ("IN", ["Delhi"; "Mumbai"]); ("AE", ["Dubai"; "Abu Dhabi"]);
    ("SG", ["Singapore"]); ("TH", ["Bangkok"; "Phuket"]);
    ("TR", ["Istanbul"]); ("ID", ["Jakarta"; "Bali"]); ("QA", ["Doha"]);
    ("MY", ["Kuala Lumpur"]); ("BD", ["Dhaka"]); ("LK", ["Colombo"]);
    ("MV", ["Male"]); ("CN", ["Beijing"; "Shanghai"]);
    ("JP", ["Tokyo"; "Osaka"]); ("KR", ["Seoul"]); ("PH", ["Manila"]);
    ("VN", ["Ho Chi Minh City"; "Hanoi"]); ("SA", ["Riyadh"; "Jeddah"]);
    ("KW", ["Kuwait City"]); ("BH", ["Manama"]); ("OM", ["Muscat"]);
    ("LB", ["Beirut"]); ("AF", ["Kabul"]); ("KZ", ["Almaty"]);
    ("UZ", ["Tashkent"]); ("KG", ["Bishkek"]); ("TM", ["Ashgabat"]);
    ("MN", ["Ulaanbaatar"]); ("DE", ["Frankfurt"; "Munich"; "Berlin"]);
    ("FR", ["Paris"; "Lyon"]); ("NL", ["Amsterdam"]);
    ("IT", ["Rome"; "Milan"]); ("ES", ["Madrid"; "Barcelona"]);
    ("GB", ["London"; "Manchester"]);
    ("RU", ["Moscow"; "Saint Petersburg"]); ("AT", ["Vienna"]);
    ("BE", ["Brussels"]); ("CH", ["Zurich"; "Geneva"]);
    ("SE", ["Stockholm"]); ("NO", ["Oslo"]); ("DK", ["Copenhagen"]);
    ("FI", ["Helsinki"]); ("PL", ["Warsaw"; "Krakow"]);
    ("CZ", ["Prague"]); ("HU", ["Budapest"]); ("GR", ["Athens"]);
    ("PT", ["Lisbon"]); ("RO", ["Bucharest"]); ("BG", ["Sofia"]);
    ("HR", ["Zagreb"]); ("RS", ["Belgrade"]); ("BA", ["Sarajevo"]);
    ("ME", ["Podgorica"]); ("SI", ["Ljubljana"]); ("MK", ["Skopje"]);
    ("AZ", ["Baku"]); ("GE", ["Tbilisi"]); ("MD", ["Chisinau"]);
    ("EE", ["Tallinn"]); ("LV", ["Riga"]); ("LT", ["Vilnius"]);
    ("LU", ["Luxembourg"]); ("MT", ["Valletta"]); ("IE", ["Dublin"]);
    ("EG", ["Cairo"; "Alexandria"]); ("KE", ["Nairobi"]);
    ("ZA", ["Johannesburg"; "Cape Town"]);
    ("MA", ["Casablanca"; "Marrakech"]); ("TN", ["Tunis"]);
    ("DZ", ["Algiers"]); ("LY", ["Tripoli"]); ("ET", ["Addis Ababa"]);
    ("GH", ["Accra"]); ("NG", ["Lagos"; "Abuja"]); ("SN", ["Dakar"]);
    ("CI", ["Abidjan"]); ("CM", ["Douala"]); ("CD", ["Kinshasa"]);
    ("AO", ["Luanda"]); ("UG", ["Kampala"]); ("TZ", ["Dar es Salaam"]);
    ("RW", ["Kigali"]); ("MU", ["Port Louis"]);
    ("US", ["New York"; "Los Angeles"; "Chicago"; "Miami"; "San Francisco"; "Washington DC"; "Seattle"; "Boston"]);
    ("CA", ["Toronto"; "Montreal"; "Vancouver"]);
    ("MX", ["Mexico City"; "Cancun"]); ("PA", ["Panama City"]);
    ("BR", ["Sao Paulo"; "Rio de Janeiro"]); ("AR", ["Buenos Aires"]);
    ("CO", ["Bogota"; "Medellin"]); ("CL", ["Santiago"]);
    ("VE", ["Caracas"]); ("AU", ["Melbourne"; "Sydney"]) ].

Definition EASY_VISA_COUNTRIES : list string :=
  ["IN"; "AE"; "QA"; "ID"; "TH"; "MY"; "SG"; "LK"; "MV"; "TR"; "GE";
   "KE"; "EG"; "MU"; "BR"; "AR"; "CU"; "CO"; "BA"; "RS"; "ME"; "MK";
   "MD"; "AU"; "UZ"; "ZA"; "MA"; "AZ"; "CA"; "MX"].

End Utils.

(* ------------------------------------------------------------------ *)
(** ** route_planner.py *)

Module RoutePlanner.

Definition NUM_CONTINENTS : nat := 6.
Definition MAX_ROUTES : nat := 4000.
Definition EASY_VISA_WEIGHT : nat := 10.

(** An entry of a continent's city list. *)
Record CityInfo : Type := mkCityInfo {
  ci_country_code : string;
  ci_city : string;
  ci_easy_visa : bool
}.

Record Stop : Type := mkStop {
  continent : string;
  country_code : string;
  city : string;
  easy_visa : bool
}.

Definition Route : Type := list Stop.

(** [raise ValueError(f"Missing continents: {missing}")]. *)
Inductive error : Type := ValueError (missing : list string).

Definition stop_of (cont : string) (c : CityInfo) : Stop :=
  mkStop cont (ci_country_code c) (ci_city c) (ci_easy_visa c).

Definition calculate_route_score (route : Route) : nat :=
  let easy_visa_count := length (filter easy_visa route) in
  let score := easy_visa_count * EASY_VISA_WEIGHT in
  let countries := PyList.distinct (map country_code route) in
  if length countries <? length route then score + 5 else score.

(** [l.sort(key=calculate_route_score, reverse=True)]. *)
Definition sort_by_score (routes : list Route) : list Route :=
  PyList.stable_sort
    (fun a b => calculate_route_score b <? calculate_route_score a) routes.

(** The deduplication key of [generate_optimal_routes]. *)
Definition route_sig (route : Route) : list (string * string * string) :=
  PyList.stable_sort PyList.triple_ltb
    (map (fun s => (continent s, city s, country_code s)) route).

Definition sig_eqb (a b : list (string * string * string)) : bool :=
  PyList.list_eqb PyList.triple_eqb a b.

Fixpoint dedupe (seen : list (list (string * string * string)))
         (routes : list Route) : list Route :=
  match routes with
  | [] => []
  | r :: rest =>
      if existsb (sig_eqb (route_sig r)) seen
      then dedupe seen rest
      else r :: dedupe (route_sig r :: seen) rest
  end.

Section Enumerator.

(** The reference data of [utils.py], two dicts and a set, and
    [random.shuffle] seeded by [random.seed(attempt)]. *)
Variable eligible_countries : list (string * list string).
Variable major_cities : list (string * list string).
Variable easy_visa_countries : list string.
Variable shuffle : nat -> list string -> list string.

Definition cities_of_country (cc : string) : list CityInfo :=
  if PyList.mem cc easy_visa_countries
  then match PyList.lookup cc major_cities with
       | Some cities => map (fun c => mkCityInfo cc c true) cities
       | None => []
       end
  else [].

Definition get_continent_city_mapping : list (string * list CityInfo) :=
  map (fun '(cont, codes) => (cont, flat_map cities_of_country codes))
      eligible_countries.

Definition cities_in (cont : string) : list CityInfo :=
  match PyList.lookup cont get_continent_city_mapping with
  | Some l => l
  | None => []
  end.

Definition missing_continents (available : list string) : list string :=
  filter (fun c => negb (PyList.mem c available)) Utils.REQUIRED_CONTINENTS.

(** The four selection strategies of the sampling loop; [cities] is not
    empty and [c0] is its head. *)
Definition select_city (attempt : nat) (c0 : CityInfo) (cities : list CityInfo)
  : CityInfo :=
  let pick (l : list CityInfo) (i : nat) := nth i l c0 in
  match attempt mod 4 with
  | 0 => pick cities (attempt mod length cities)
  | 1 =>
      let sorted :=
        PyList.stable_sort (fun a b => String.ltb (ci_city a) (ci_city b)) cities in
      pick sorted (attempt mod length sorted)
  | 2 =>
      let sorted :=
        PyList.stable_sort
          (fun a b => String.ltb (ci_country_code a) (ci_country_code b)) cities in
      pick sorted (attempt mod length sorted)
  | _ =>
      if 1 <? length cities
      then
        let half := length cities / 2 in
        if (attempt mod 2 =? 0) && (0 <? half)
        then pick cities ((attempt / 2) mod half)
        else
          let available_cities := if 0 <? half then skipn half cities else cities in
          pick available_cities (attempt mod length available_cities)
      else pick cities 0
  end.

(** The inner loop over [continents[:NUM_CONTINENTS]]. *)
Fixpoint visit (attempt : nat) (continents used : list string) : Route :=
  match continents with
  | [] => []
  | cont :: rest =>
      if PyList.mem cont used then visit attempt rest used
      else
        match cities_in cont with
        | [] => visit attempt rest used
        | (c0 :: _) as cities =>
            stop_of cont (select_city attempt c0 cities)
            :: visit attempt rest (cont :: used)
        end
  end.

Definition attempt_route (available : list string) (attempt : nat) : Route :=
  visit attempt (firstn NUM_CONTINENTS (shuffle attempt available)) [].

Definition generate_optimal_routes : error + list Route :=
  let continent_cities := get_continent_city_mapping in
  let available_continents := map fst continent_cities in
  if length available_continents <? NUM_CONTINENTS
  then inl (ValueError (missing_continents available_continents))
  else
    let all_routes :=
      filter (fun r => length r =? NUM_CONTINENTS)
             (map (attempt_route available_continents) (seq 0 (MAX_ROUTES * 2))) in
    let unique_routes := dedupe [] all_routes in
    inr (firstn MAX_ROUTES (sort_by_score unique_routes)).

Definition generate_all_possible_combinations : error + list Route :=
  let continent_cities := get_continent_city_mapping in
  let available_continents := map fst continent_cities in
  if length available_continents <? NUM_CONTINENTS
  then inl (ValueError (missing_continents available_continents))
  else
    let city_counts :=
      map (fun c => N.of_nat (length (cities_in c))) available_continents in
    let total_combinations := fold_left N.mul city_counts 1%N in
    if (100000 <? total_combinations)%N
    then generate_optimal_routes
    else
      let continent_city_lists := map cities_in available_continents in
      let continent_order := available_continents in
      let all_routes :=
        map (fun combination =>
               map (fun '(cont, c) => stop_of cont c)
                   (combine continent_order combination))
            (PyList.product continent_city_lists) in
      inr (sort_by_score all_routes).

End Enumerator.

End RoutePlanner.

(* ------------------------------------------------------------------ *)
(** ** comprehensive_flight_search.py *)

Module FlightSearch.

Import PyStr PyNum RoutePlanner.

(** *** Python values that are hashed and written as JSON *)

#[local] Set Warnings "-register-all".
Inductive pyval : Type :=
| VStr (s : string)
| VTuple (items : list pyval)
| VList (items : list pyval).

(** [hash(v)] succeeds: a list is unhashable, a tuple is hashable when its
    items are. *)
Fixpoint hashable (v : pyval) : bool :=
  match v with
  | VStr _ => true
  | VTuple items => forallb hashable items
  | VList _ => false
  end.

(** [json.load] of what [json.dump] wrote for [v]: tuples and lists are
    both written as arrays, and arrays are read back as lists. *)
Fixpoint json_roundtrip (v : pyval) : pyval :=
  match v with
  | VStr s => VStr s
  | VTuple items => VList (map json_roundtrip items)
  | VList items => VList (map json_roundtrip items)
  end.

Fixpoint pyval_eqb (a b : pyval) : bool :=
  match a, b with
  | VStr s, VStr t => String.eqb s t
  | VTuple l, VTuple m => PyList.list_eqb pyval_eqb l m
  | VList l, VList m => PyList.list_eqb pyval_eqb l m
  | _, _ => false
  end.

(** A route signature is a tuple; it is kept as the list of its items. *)
Definition signature : Type := list pyval.

Definition sig_eqb (a b : signature) : bool := PyList.list_eqb pyval_eqb a b.

Definition sig_mem (x : signature) (l : list signature) : bool :=
  existsb (sig_eqb x) l.

(** *** Flight offers *)

(** A dict entry: the key is absent, holds [None], or holds a value. *)
Inductive field (A : Type) : Type :=
| Absent
| IsNone
| Val (a : A).
Arguments Absent {A}.
Arguments IsNone {A}.
Arguments Val {A} a.

(** The scraper reports the stops as a text ("Nonstop", "1 stop"); the
    validator also accepts a list of airport codes. *)
Inductive stops_value : Type :=
| StopsText (s : string)
| StopsList (l : list string).

(** The offer dict built by [GoogleFlights._process], keys in its order. *)
Record Flight : Type := mkFlight {
  f_departure_time : field string;
  f_arrival_time : field string;
  f_airline : field string;
  f_duration : field string;
  f_stops : field stops_value;
  f_emissions : field string;
  f_emission_comparison : field string;
  f_price : field string;
  f_price_type : field string;
  f_route : field (list string)
}.

(** [d.get(key, default)] for a text entry; [None] is Python's [None]. *)
Definition get_or (default : string) (f : field string) : option string :=
  match f with
  | Absent => Some default
  | IsNone => None
  | Val s => Some s
  end.

(** **** [str(flight)]: the [repr] of the dict *)

Definition dquote : ascii := "034"%char.
Definition squote : ascii := "039"%char.
Definition backslash : ascii := "092"%char.

Definition hex_digit (n : N) : ascii :=
  if (n <? 10)%N then ascii_of_N (48 + n) else ascii_of_N (87 + n).

Fixpoint escape (quote : ascii) (s : string) : string :=
  match s with
  | EmptyString => EmptyString
  | String c s' =>
      let rest := escape quote s' in
      if Ascii.eqb c quote || Ascii.eqb c backslash
      then String backslash (String c rest)
      else if Ascii.eqb c "009" then String backslash (String "t" rest)
      else if Ascii.eqb c "010" then String backslash (String "n" rest)
      else if Ascii.eqb c "013" then String backslash (String "r" rest)
      else if (code c <? 32)%N || (code c =? 127)%N
      then String backslash
             (String "x" (String (hex_digit (code c / 16))
                                 (String (hex_digit (code c mod 16)) rest)))
      else String c rest
  end.

Definition repr_str (s : string) : string :=
  let quote :=
    if contains (String squote EmptyString) s
       && negb (contains (String dquote EmptyString) s)
    then dquote else squote in
  String quote (escape quote s ++ String quote EmptyString)%string.

Definition repr_list (l : list string) : string :=
  ("[" ++ join ", " (map repr_str l) ++ "]")%string.

Definition repr_field {A : Type} (r : A -> string) (key : string) (f : field A)
  : list string :=
  match f with
  | Absent => []
  | IsNone => [(repr_str key ++ ": None")%string]
  | Val a => [(repr_str key ++ ": " ++ r a)%string]
  end.

Definition repr_stops (v : stops_value) : string :=
  match v with
  | StopsText s => repr_str s
  | StopsList l => repr_list l
  end.

Definition str_flight (fl : Flight) : string :=
  String.append "{" (String.append (join ", "
    (repr_field repr_str "departure_time" (f_departure_time fl)
     ++ repr_field repr_str "arrival_time" (f_arrival_time fl)
     ++ repr_field repr_str "airline" (f_airline fl)
     ++ repr_field repr_str "duration" (f_duration fl)
     ++ repr_field repr_stops "stops" (f_stops fl)
     ++ repr_field repr_str "emissions" (f_emissions fl)
     ++ repr_field repr_str "emission_comparison" (f_emission_comparison fl)
     ++ repr_field repr_str "price" (f_price fl)
     ++ repr_field repr_str "price_type" (f_price_type fl)
     ++ repr_field repr_list "route" (f_route fl))) "}").

(** **** [filter_turkish_airlines_flights] *)

Definition turkish_airlines_names : list string :=
  ["turkish airlines"; "turkish"; "thy"; "tk"].

(** [airline = flight.get("airline", "")] when it is truthy. *)
Definition airline_of (fl : Flight) : option string :=
  match get_or "" (f_airline fl) with
  | Some a => if String.eqb a "" then None else Some a
  | None => None
  end.

(** ["," in airline or " + " in airline or "/" in airline]. *)
Definition is_codeshare (airline : string) : bool :=
  contains "," airline || contains " + " airline || contains "/" airline.

Definition is_turkish (airline : string) : bool :=
  let airline_lower := strip (lower airline) in
  existsb (fun name => contains name airline_lower) turkish_airlines_names.

Definition all_airports (fl : Flight) : list string :=
  (match f_route fl with
   | Val l => l
   | _ => []
   end)
  ++
  (match f_stops fl with
   | Val (StopsList l) => l
   | _ => []
   end).

Definition has_ist (fl : Flight) : bool :=
  let flight_str := upper (str_flight fl) in
  PyList.mem "IST" (all_airports fl)
  || contains "IST" flight_str
  || contains "ISTANBUL" flight_str.

(** The body of the loop: [true] when the offer is appended to
    [valid_flights], [false] at each [continue]. *)
Definition valid_flight (fl : Flight) : bool :=
  match airline_of fl with
  | None => false
  | Some airline =>
      if is_codeshare airline then false
      else if negb (is_turkish airline) then false
      else if negb (has_ist fl) then false
      else true
  end.

Definition filter_turkish_airlines_flights (flights : list Flight) : list Flight :=
  filter valid_flight flights.

(** **** [parse_price] and the choice of the cheapest offer *)

Definition SENTINEL : pynum := PyInt 999999.

Definition rupee : string := "₹".

(** [cleaned = price_str.replace("₹", "").replace(",", "").strip()]. *)
Definition cleaned (price_str : string) : string :=
  strip (replace "," "" (replace rupee "" price_str)).

Definition parse_price (price_str : option string) : pynum :=
  match price_str with
  | None => SENTINEL
  | Some s =>
      if String.eqb s "" || String.eqb s "N/A" then SENTINEL
      else
        match py_float (cleaned s) with
        | Some v => v
        | None => SENTINEL
        end
  end.

(** The cases in which [parse_price] answers the sentinel instead of a
    parsed number: no text, the empty text, "N/A", or a text that [float]
    refuses. *)
Definition unparsed (price_str : option string) : bool :=
  match price_str with
  | None => true
  | Some s =>
      String.eqb s "" || String.eqb s "N/A"
      || match py_float (cleaned s) with
         | Some _ => false
         | None => true
         end
  end.

(** [min(l, key=key)]: the first element whose key no other key is
    strictly below; [None] stands for the [ValueError] on an empty list. *)
Section Min.
Context {A : Type}.
Variable key : A -> pynum.

Fixpoint min_from (best : A) (rest : list A) : A :=
  match rest with
  | [] => best
  | x :: rest' =>
      if PyNum.lt (key x) (key best) then min_from x rest' else min_from best rest'
  end.

Definition py_min (l : list A) : option A :=
  match l with
  | [] => None
  | x :: rest => Some (min_from x rest)
  end.
End Min.

(** [lambda x: self.parse_price(x.get("price", "₹999,999"))]. *)
Definition price_key (fl : Flight) : pynum :=
  parse_price (get_or "₹999,999" (f_price fl)).

Definition cheapest_of (valid_flights : list Flight) : option Flight :=
  py_min price_key valid_flights.

(** The key of an offer is strictly below the sentinel, or NaN. *)
Definition below_sentinel (fl : Flight) : Prop :=
  PyNum.lt (price_key fl) SENTINEL = true \/ is_nan (price_key fl) = true.

(** **** [city_to_airport_code] *)

Definition airport_mapping : list (string * string) :=
  [ ("Delhi", "DEL"); ("Mumbai", "BOM"); ("Hyderabad", "HYD");
    ("Bangalore", "BLR"); ("Dubai", "DXB"); ("Abu Dhabi", "AUH");
    ("Singapore", "SIN"); ("Bangkok", "BKK"); ("Phuket", "HKT");
    ("Istanbul", "IST"); ("Ankara", "ESB"); ("Jakarta", "CGK");
    ("Bali", "DPS"); ("Doha", "DOH"); ("Kuala Lumpur", "KUL");
    ("Dhaka", "DAC"); ("Colombo", "CMB"); ("Male", "MLE");
    ("Beijing", "PEK"); ("Shanghai", "PVG"); ("Tokyo", "NRT");
    ("Osaka", "KIX"); ("Seoul", "ICN"); ("Manila", "MNL");
    ("Ho Chi Minh City", "SGN"); ("Hanoi", "HAN"); ("Riyadh", "RUH");
    ("Jeddah", "JED"); ("Kuwait City", "KWI"); ("Manama", "BAH");
    ("Muscat", "MCT"); ("Beirut", "BEY"); ("Kabul", "KBL");
    ("Almaty", "ALA"); ("Tashkent", "TAS"); ("Bishkek", "FRU");
    ("Ashgabat", "ASB"); ("Ulaanbaatar", "ULN"); ("Kathmandu", "KTM");
    ("Frankfurt", "FRA"); ("Munich", "MUC"); ("Berlin", "BER");
    ("Paris", "CDG"); ("Lyon", "LYS"); ("Amsterdam", "AMS");
    ("Rome", "FCO"); ("Milan", "MXP"); ("Madrid", "MAD");
    ("Barcelona", "BCN"); ("London", "LHR"); ("Manchester", "MAN");
    ("Moscow", "SVO"); ("Saint Petersburg", "LED"); ("Vienna", "VIE");
    ("Brussels", "BRU"); ("Zurich", "ZUR"); ("Geneva", "GVA");
    ("Stockholm", "ARN"); ("Oslo", "OSL"); ("Copenhagen", "CPH");
    ("Helsinki", "HEL"); ("Warsaw", "WAW"); ("Krakow", "KRK");
    ("Prague", "PRG"); ("Budapest", "BUD"); ("Athens", "ATH");
    ("Lisbon", "LIS"); ("Bucharest", "OTP"); ("Sofia", "SOF");
    ("Zagreb", "ZAG"); ("Belgrade", "BEG"); ("Sarajevo", "SJJ");
    ("Podgorica", "TGD"); ("Ljubljana", "LJU"); ("Skopje", "SKP");
    ("Baku", "GYD"); ("Tbilisi", "TBS"); ("Chisinau", "KIV");
    ("Tallinn", "TLL"); ("Riga", "RIX"); ("Vilnius", "VNO");
    ("Luxembourg", "LUX"); ("Valletta", "MLA"); ("Dublin", "DUB");
    ("Cairo", "CAI"); ("Alexandria", "HBE"); ("Nairobi", "NBO");
    ("Johannesburg", "JNB"); ("Cape Town", "CPT"); ("Casablanca", "CMN");
    ("Marrakech", "RAK"); ("Tunis", "TUN"); ("Algiers", "ALG");
    ("Tripoli", "TIP"); ("Addis Ababa", "ADD"); ("Accra", "ACC");
    ("Lagos", "LOS"); ("Abuja", "ABV"); ("Dakar", "DKR");
    ("Abidjan", "ABJ"); ("Douala", "DLA"); ("Kinshasa", "FIH");
    ("Luanda", "LAD"); ("Kampala", "EBB"); ("Dar es Salaam", "DAR");
    ("Kigali", "KGL"); ("Port Louis", "MRU"); ("Antananarivo", "TNR");
    ("New York", "JFK"); ("Los Angeles", "LAX"); ("Chicago", "ORD");
    ("Miami", "MIA"); ("San Francisco", "SFO"); ("Washington DC", "DCA");
    ("Seattle", "SEA"); ("Boston", "BOS"); ("Toronto", "YYZ");
    ("Montreal", "YUL"); ("Vancouver", "YVR"); ("Mexico City", "MEX");
    ("Cancun", "CUN"); ("Havana", "HAV"); ("Panama City", "PTY");
    ("Sao Paulo", "GRU"); ("Rio de Janeiro", "GIG");
    ("Buenos Aires", "EZE"); ("Bogota", "BOG"); ("Medellin", "MDE");
    ("Santiago", "SCL"); ("Caracas", "CCS"); ("Melbourne", "MEL");
    ("Sydney", "SYD"); ("Perth", "PER") ].

Definition city_to_airport_code (city country_code : string) : string :=
  match PyList.lookup city airport_mapping with
  | Some code => code
  | None => upper (take 3 city)
  end.

(** [tuple(sorted([(city, country_code, continent) for stop in route]))]. *)
Definition route_to_signature (route : Route) : signature :=
  map (fun '(a, b, c) => VTuple [VStr a; VStr b; VStr c])
      (PyList.stable_sort PyList.triple_ltb
         (map (fun stop => (city stop, country_code stop, continent stop)) route)).

(** *** Results and the persisted files *)

Record SegmentResult : Type := mkSegment {
  s_segment : string;
  s_origin : string;
  s_destination : string;
  s_flight : Flight
}.

Definition COMPLETE : string := "complete_with_all_turkish_flights".

(** The result dict of a complete route.  The entries [thread_id],
    [completed_at] and [total_cost_formatted] only feed the report and are
    left out.  A record read back from the results file may lack its
    [total_cost_inr]. *)
Record Result : Type := mkResult {
  r_route_index : nat;
  r_route : Route;
  r_flights : list SegmentResult;
  r_total_cost_inr : option pynum;
  r_status : string
}.

(** A file on disk: not there, there but [json.load] raises, or holding a
    JSON document. *)
Inductive file (A : Type) : Type :=
| Missing
| Unreadable
| Stored (content : A).
Arguments Missing {A}.
Arguments Unreadable {A}.
Arguments Stored {A} content.

(** What [json.load] returns for the progress file: the signatures as
    arrays of arrays, and the count.  The [last_updated] time stamp is not
    represented. *)
Record ProgressData : Type := mkProgress {
  pd_completed_routes : list (list pyval);
  pd_total_completed : nat
}.

(** The document of the results file: a list of records, or valid JSON of
    another shape. *)
Inductive results_json : Type :=
| JList (records : list Result)
| JOther.

(** The optimizer object, the two files it owns, and the log of the
    [scraper.search] calls made so far (origin code, destination code). *)
Record State : Type := mkState {
  max_routes_to_search : nat;
  completed_count : nat;
  failed_count : nat;
  discarded_count : option nat;
  completed_routes : list signature;
  progress_file : file ProgressData;
  results_file : file results_json;
  calls : list (string * string)
}.

(** [getattr(self, 'discarded_count', 0)]. *)
Definition discarded_or_0 (st : State) : nat :=
  match discarded_count st with
  | Some n => n
  | None => 0
  end.

Definition record_call (origin_code dest_code : string) (st : State) : State :=
  mkState (max_routes_to_search st) (completed_count st) (failed_count st)
          (discarded_count st) (completed_routes st) (progress_file st)
          (results_file st) (calls st ++ [(origin_code, dest_code)]).

Definition is_route_completed (route : Route) (st : State) : bool :=
  sig_mem (route_to_signature route) (completed_routes st).

(** [self.completed_routes.add(route_signature)], then the whole set is
    written out. *)
Definition save_progress (route_signature : signature) (st : State) : State :=
  let completed :=
    if sig_mem route_signature (completed_routes st)
    then completed_routes st
    else completed_routes st ++ [route_signature] in
  let progress_data :=
    mkProgress (map (map json_roundtrip) completed) (length completed) in
  mkState (max_routes_to_search st) (completed_count st) (failed_count st)
          (discarded_count st) completed (Stored progress_data)
          (results_file st) (calls st).

(** [x.get("total_cost_inr", 999999)]. *)
Definition cost_key (x : Result) : pynum :=
  match r_total_cost_inr x with
  | Some c => c
  | None => PyInt 999999
  end.

(** [existing_results.sort(key=lambda x: x.get("total_cost_inr", 999999))].
    The stable insertion sort gives the list [list.sort] gives whenever no
    key is NaN; the statements about the order of its result are made under
    that condition. *)
Definition sort_by_cost (l : list Result) : list Result :=
  PyList.stable_sort (fun a b => PyNum.lt (cost_key a) (cost_key b)) l.

(** Two records in the order of the file: the cost of the first is at most
    the cost of the second. *)
Definition cost_le (a b : Result) : Prop := PyNum.le (cost_key a) (cost_key b) = true.

(** The records of the results file, none when it holds no list. *)
Definition stored_records (st : State) : list Result :=
  match results_file st with
  | Stored (JList l) => l
  | _ => []
  end.

Definition write_results (l : list Result) (st : State) : State :=
  mkState (max_routes_to_search st) (completed_count st) (failed_count st)
          (discarded_count st) (completed_routes st) (progress_file st)
          (Stored (JList l)) (calls st).

(** A missing or unreadable file starts from the empty list; a document
    that is not a list has no [append], the error is caught and nothing is
    written. *)
Definition save_result_to_file (result : Result) (st : State) : State :=
  match results_file st with
  | Missing | Unreadable => write_results (sort_by_cost ([] ++ [result])) st
  | Stored (JList existing_results) =>
      write_results (sort_by_cost (existing_results ++ [result])) st
  | Stored JOther => st
  end.

Definition update_progress (success discarded : bool) (st : State) : State :=
  if success then
    mkState (max_routes_to_search st) (completed_count st + 1) (failed_count st)
            (discarded_count st) (completed_routes st) (progress_file st)
            (results_file st) (calls st)
  else if discarded then
    mkState (max_routes_to_search st) (completed_count st) (failed_count st)
            (Some (discarded_or_0 st + 1)) (completed_routes st) (progress_file st)
            (results_file st) (calls st)
  else
    mkState (max_routes_to_search st) (completed_count st) (failed_count st + 1)
            (discarded_count st) (completed_routes st) (progress_file st)
            (results_file st) (calls st).

(** [set(tuple(sig) for sig in progress_data.get('completed_routes', []))]:
    [tuple(sig)] keeps the items of [sig] as they were loaded, and building
    the set hashes every tuple.  A [TypeError] there, like any other error,
    is caught and leaves the empty set. *)
Fixpoint make_set (l : list signature) : list signature :=
  match l with
  | [] => []
  | x :: l' => if sig_mem x l' then make_set l' else x :: make_set l'
  end.

Definition load_existing_progress (f : file ProgressData) : list signature :=
  match f with
  | Missing => []
  | Unreadable => []
  | Stored progress_data =>
      let tuples := pd_completed_routes progress_data in
      if forallb (forallb hashable) tuples then make_set tuples else []
  end.

(** [TurkishAirlinesOptimizer(...)]: a fresh object over the files found
    on disk. *)
Definition new_optimizer (max_routes : nat)
           (pf : file ProgressData) (rf : file results_json) : State :=
  mkState max_routes 0 0 None (load_existing_progress pf) pf rf [].

(** *** The search of one route *)

(** The answer of [scraper.search]: it raises, or returns a dict from
    category names to offer lists. *)
Inductive response : Type :=
| Raises
| Returns (flight_results : list (string * list Flight)).

(** A scraper instance: its answer may depend on how many calls the
    instance has served before. *)
Definition Scraper : Type := nat -> string -> string -> response.

Definition gather_flights (flight_results : list (string * list Flight))
  : list Flight :=
  let all_flights :=
    flat_map (fun key => match PyList.lookup key flight_results with
                         | Some flights => flights
                         | None => []
                         end)
             ["top_flights"; "all_flights"] in
  match all_flights with
  | [] => flat_map snd flight_results
  | _ => all_flights
  end.

(** One turn of the loop [for i in range(len(route) - 1)]: the query of
    the segment from [from] to [to] and what becomes of its answer.  [None]
    is the early [return None]; the inner [except] catches what the client
    call raises.  A usable answer yields the entry appended to
    [route_flights] and the price added to [total_cost]. *)
Definition search_segment (scraper : Scraper) (route : Route) (i : nat)
           (from to : Stop) (st : State) : State * option (SegmentResult * pynum) :=
  let origin_city := city from in
  let origin_code := city_to_airport_code origin_city (country_code from) in
  let dest_city := city to in
  let dest_code := city_to_airport_code dest_city (country_code to) in
  let st1 := record_call origin_code dest_code st in
  match scraper i origin_code dest_code with
  | Raises => (save_progress (route_to_signature route) st1, None)
  | Returns flight_results =>
      match gather_flights flight_results with
      | [] => (save_progress (route_to_signature route) st1, None)
      | all_flights =>
          match cheapest_of (filter_turkish_airlines_flights all_flights) with
          | None => (save_progress (route_to_signature route) st1, None)
          | Some cheapest =>
              let entry :=
                mkSegment (origin_city ++ " → " ++ dest_city)%string
                          origin_code dest_code cheapest in
              let price := parse_price (get_or "₹0" (f_price cheapest)) in
              (st1, Some (entry, price))
          end
      end
  end.

(** The loop from segment [i] on, [stops] being [route[i:]]. *)
Fixpoint search_segments (scraper : Scraper) (route : Route) (i : nat)
         (stops : list Stop) (route_flights : list SegmentResult)
         (total_cost : pynum) (st : State)
  : State * option (list SegmentResult * pynum) :=
  match stops with
  | from :: ((to :: _) as rest) =>
      match search_segment scraper route i from to st with
      | (st1, None) => (st1, None)
      | (st1, Some (entry, price)) =>
          search_segments scraper route (S i) rest (route_flights ++ [entry])
                          (PyNum.add total_cost price) st1
      end
  | _ => (st, Some (route_flights, total_cost))
  end.

(** The codes of the queries of a route, segment by segment. *)
Fixpoint segment_codes (stops : list Stop) : list (string * string) :=
  match stops with
  | from :: ((to :: _) as rest) =>
      (city_to_airport_code (city from) (country_code from),
       city_to_airport_code (city to) (country_code to))
      :: segment_codes rest
  | _ => []
  end.

Definition record_calls (l : list (string * string)) (st : State) : State :=
  fold_left (fun s '(origin_code, dest_code) => record_call origin_code dest_code s) l st.

(** The answer holds no offer at all, or none that passes the validator. *)
Definition no_usable_offers (flight_results : list (string * list Flight)) : bool :=
  match filter_turkish_airlines_flights (gather_flights flight_results) with
  | [] => true
  | _ => false
  end.

(** The client returned, and the segment has no usable offer. *)
Definition discards (r : response) : bool :=
  match r with
  | Raises => false
  | Returns flight_results => no_usable_offers flight_results
  end.

(** The client returned, and the segment has a usable offer. *)
Definition usable (r : response) : bool :=
  match r with
  | Raises => false
  | Returns flight_results => negb (no_usable_offers flight_results)
  end.

(** [total_processed] of [update_progress]. *)
Definition total_processed (st : State) : nat :=
  completed_count st + discarded_or_0 st + failed_count st.

(** The outer [except] of the source guards the statements around the
    inner [try]: reads of stop entries, the airport code lookup, the
    construction of the result and the two save calls, which catch their
    own errors.  None of them raises on a typed route, so that handler has
    no path here. *)
Definition search_route_flights (route : Route) (scraper : Scraper)
           (route_index : nat) (st : State) : State * option Result :=
  match search_segments scraper route 0 route [] (PyInt 0) st with
  | (st1, None) => (st1, None)
  | (st1, Some (route_flights, total_cost)) =>
      let result :=
        mkResult route_index route route_flights (Some total_cost) COMPLETE in
      let st2 := save_result_to_file result st1 in
      let st3 := save_progress (route_to_signature route) st2 in
      (update_progress true false st3, Some result)
  end.

(** [scraper] is the instance [create_scraper] made for this task. *)
Definition worker_search_route (scraper : Scraper) (route : Route)
           (route_index : nat) (st : State) : State * option Result :=
  match search_route_flights route scraper route_index st with
  | (st1, None) => (update_progress false true st1, None)
  | (st1, Some result) => (st1, Some result)
  end.

(** *** The run over all routes *)

(** What [search_all_routes_parallel] hands back. *)
Inductive returned : Type :=
| Results (l : list Result)
| NotAList
| LoadError.

Definition read_results (st : State) (otherwise : list Result) : returned :=
  match results_file st with
  | Missing => Results otherwise
  | Unreadable => LoadError
  | Stored (JList l) => Results l
  | Stored JOther => NotAList
  end.

Definition pending_routes (routes : list Route) (st : State) : list (Route * nat) :=
  let considered := firstn (max_routes_to_search st) routes in
  filter (fun '(route, _) => negb (is_route_completed route st))
         (combine considered (seq 1 (length considered))).

(** The pool, under the schedule that runs the tasks one after the other
    in submission order; [env route_index] is the scraper instance of the
    task. *)
Fixpoint run_workers (env : nat -> Scraper) (pending : list (Route * nat))
         (results : list Result) (st : State) : State * list Result :=
  match pending with
  | [] => (st, results)
  | (route, route_index) :: rest =>
      match worker_search_route (env route_index) route route_index st with
      | (st1, Some result) => run_workers env rest (results ++ [result]) st1
      | (st1, None) => run_workers env rest results st1
      end
  end.

Definition search_all_routes_parallel (env : nat -> Scraper)
           (routes : list Route) (st : State) : State * returned :=
  match pending_routes routes st with
  | [] => (st, read_results st [])
  | pending =>
      let '(st1, results) := run_workers env pending [] st in
      (st1, read_results st1 results)
  end.

(** The choice of [max_routes_to_search] in [main]. *)
Definition main_max_routes (total_routes : nat) : nat :=
  if (40000 <? N.of_nat total_routes)%N then Nat.min 20 total_routes
  else if (10000 <? N.of_nat total_routes)%N then Nat.min 1000 total_routes
  else total_routes.

(** One invocation of the program on the given route list and files. *)
Definition run (env : nat -> Scraper) (routes : list Route)
           (pf : file ProgressData) (rf : file results_json) : State * returned :=
  search_all_routes_parallel env routes
    (new_optimizer (main_max_routes (length routes)) pf rf).

End FlightSearch.

(* ------------------------------------------------------------------ *)
(** ** Concrete inputs used by the examples below *)

Module Examples.

Import PyNum RoutePlanner FlightSearch.

(** An offer as the scraper builds it. *)
Definition offer (airline price : string) (airports : list string) : Flight :=
  mkFlight (Val "10:05 AM") (Val "6:40 PM") (Val airline) (Val "20 hr 35 min")
           (Val (StopsText "1 stop")) (Val "912 kg CO2e") IsNone
           (Val price) IsNone (Val airports).

Definition tk_offer : Flight := offer "Turkish Airlines" "₹45,230" ["DEL"; "IST"; "JFK"].

Definition plus_offer : Flight :=
  offer "Turkish Airlines+Emirates" "₹45,230" ["DEL"; "IST"; "JFK"].

Definition comma_offer : Flight :=
  offer "Turkish Airlines, Emirates" "₹45,230" ["DEL"; "IST"; "JFK"].

Definition kargo_offer : Flight := offer "SmartKargo" "₹45,230" ["DEL"; "IST"; "JFK"].

Definition na_offer : Flight := offer "Turkish Airlines" "N/A" ["DEL"; "IST"; "JFK"].

Definition pricey_offer : Flight :=
  offer "Turkish Airlines" "₹1,500,000" ["DEL"; "IST"; "JFK"].

(** The route of the end-to-end scenario. *)
Definition six_stops : Route :=
  [ mkStop "Asia" "IN" "Delhi" true;
    mkStop "Africa" "EG" "Cairo" true;
    mkStop "Europe" "DE" "Frankfurt" true;
    mkStop "North America" "US" "New York" true;
    mkStop "South America" "BR" "Sao Paulo" true;
    mkStop "Oceania" "AU" "Sydney" true ].

(** Every query finds the one valid offer. *)
Definition always_tk : Scraper :=
  fun _ _ _ => Returns [("best_flights", [tk_offer])].

(** The second query of an instance finds nothing. *)
Definition second_empty : Scraper :=
  fun i _ _ => if i =? 1 then Returns [] else Returns [("best_flights", [tk_offer])].

(** The second query of an instance raises. *)
Definition second_raises : Scraper :=
  fun i _ _ => if i =? 1 then Raises else Returns [("best_flights", [tk_offer])].

Definition fresh : State := new_optimizer 20 Missing Missing.

(** The visa-easy set once Australia, the only country of Oceania, is
    taken out of it. *)
Definition easy_visa_without_australia : list string :=
  filter (fun c => negb (String.eqb c "AU")) Utils.EASY_VISA_COUNTRIES.

(** A stand-in for the seeded shuffle. *)
Definition reversing_shuffle : nat -> list string -> list string :=
  fun _ l => rev l.

(** A first invocation on empty files, and a second one on the files the
    first one left, the flight data being the same. *)
Definition first_run : State * returned :=
  run (fun _ => always_tk) [six_stops] Missing Missing.

Definition second_run : State * returned :=
  run (fun _ => always_tk) [six_stops]
      (progress_file (fst first_run)) (results_file (fst first_run)).

(** A results file with two records out of order, and a new record. *)
Definition record_costing (cost : Z) : Result :=
  mkResult 1 six_stops [] (Some (PyInt cost)) COMPLETE.

Definition unsorted_file : State :=
  new_optimizer 20 Missing (Stored (JList [record_costing 70000; record_costing 20000])).

End Examples.

(* ------------------------------------------------------------------ *)
(** ** google_flights.py: from the result page to the offer dicts *)

Module GoogleFlights.

Import PyStr FlightSearch.

(** One result element of the page, as what the selectors of [_process]
    find under it: [None] where [css_first] finds nothing, the texts of the
    matches where [css] returns a list. *)
Record ResultNode : Type := mkNode {
  n_main : bool;
  n_airline : option string;
  n_times : list string;
  n_duration : option string;
  n_stops : option string;
  n_emissions : option string;
  n_emission_comparison : option string;
  n_price : option string;
  n_price_type : option string;
  n_airports_raw : list string;
  n_stop_airports : list string
}.

(** The page: the text of the category heading and the result elements of
    the category, each [None] when its selector finds nothing. *)
Record Page : Type := mkPage {
  p_category : option string;
  p_category_result : option (list ResultNode)
}.

(** One turn of the loop over the result elements: the element is passed
    over with [continue], an attribute of [None] or an index is missing and
    the call raises, or the offer dict is built. *)
Inductive outcome : Type :=
| Skipped
| Failed
| Built (flight_data : Flight).

(** [text if node else None] as a dict entry. *)
Definition text_or_none (t : option string) : field string :=
  match t with
  | Some s => Val s
  | None => IsNone
  end.

(** [self.airline_filter and self.airline_filter.lower() not in airline.lower()]. *)
Definition filtered_out (airline_filter : option string) (airline : string) : bool :=
  match airline_filter with
  | None => false
  | Some f => if String.eqb f "" then false else negb (contains (lower f) (lower airline))
  end.

Definition process_result (airline_filter : option string) (result : ResultNode)
  : outcome :=
  if negb (n_main result) then Skipped
  else
    match n_airline result with
    | None => Failed
    | Some airline =>
        if filtered_out airline_filter airline then Skipped
        else
          let departure_time :=
            match n_times result with
            | t0 :: _ => Val t0
            | [] => IsNone
            end in
          let arrival_time :=
            match n_times result with
            | _ :: t1 :: _ => Val t1
            | _ => IsNone
            end in
          match n_duration result, n_stops result, n_emissions result,
                n_price result, n_airports_raw result with
          | Some duration, Some stops, Some emissions, Some price, first :: others =>
              let departure_airport := take 3 first in
              let arrival_airport := take 3 (last others first) in
              let route :=
                if String.eqb stops "Nonstop" then [departure_airport; arrival_airport]
                else departure_airport
                     :: map (take 3) (n_stop_airports result) ++ [arrival_airport] in
              Built (mkFlight departure_time arrival_time (Val airline) (Val duration)
                              (Val (StopsText stops)) (Val emissions)
                              (text_or_none (n_emission_comparison result))
                              (Val price)
                              (text_or_none (n_price_type result))
                              (Val route))
          | _, _, _, _, _ => Failed
          end
    end.

(** The loop over the result elements; [None] when a turn raises. *)
Fixpoint process_results (airline_filter : option string) (results : list ResultNode)
  : option (list Flight) :=
  match results with
  | [] => Some []
  | result :: rest =>
      match process_result airline_filter result with
      | Failed => None
      | Skipped => process_results airline_filter rest
      | Built flight_data =>
          match process_results airline_filter rest with
          | Some category_data => Some (flight_data :: category_data)
          | None => None
          end
      end
  end.

(** [_process]: the dict with the one category, keyed by its heading, or the
    empty dict when the page has no heading; [None] when it raises. *)
Definition _process (airline_filter : option string) (page : Page)
  : option (list (string * list Flight)) :=
  match p_category_result page with
  | None => None
  | Some results =>
      match process_results airline_filter results with
      | None => None
      | Some category_data =>
          Some (match p_category page with
                | Some heading => [(replace " " "_" (lower heading), category_data)]
                | None => []
                end)
      end
  end.

(** [search]: [html] is what [_extract] returned, [None] standing for no
    page. *)
Definition search (airline_filter : option string) (html : option Page) : response :=
  match html with
  | None => Returns []
  | Some page =>
      match _process airline_filter page with
      | Some data => Returns data
      | None => Raises
      end
  end.

(** The filter [create_scraper] passes. *)
Definition TURKISH_FILTER : option string := Some "Turkish Airlines".

End GoogleFlights.

(* ------------------------------------------------------------------ *)
(** ** The lists behind [print_summary] *)

Module Report.

Import PyNum RoutePlanner FlightSearch.





End Report.

(* ------------------------------------------------------------------ *)
(** ** More concrete inputs *)

Module MoreExamples.

Import PyNum RoutePlanner FlightSearch GoogleFlights Report Examples.

(** A result element of a one-stop Turkish Airlines flight via Istanbul. *)
Definition tk_node : ResultNode :=
  mkNode true (Some "Turkish Airlines") ["10:05 AM"; "6:40 PM"]
         (Some "20 hr 35 min") (Some "1 stop") (Some "912 kg CO2e") None
         (Some "₹45,230") None
         ["DEL Indira Gandhi International Airport"; "JFK John F. Kennedy"]
         ["IST Istanbul Airport"].

(** A result element of another carrier. *)
Definition other_node : ResultNode :=
  mkNode true (Some "Emirates") ["9:00 AM"; "5:00 PM"]
         (Some "19 hr") (Some "1 stop") (Some "800 kg CO2e") None
         (Some "₹40,000") None
         ["DEL Indira Gandhi International Airport"; "JFK John F. Kennedy"]
         ["DXB Dubai"].

Definition tk_page : Page := mkPage (Some "Top flights") (Some [other_node; tk_node]).

(** The same results on a page without a category heading. *)
Definition headless_page : Page := mkPage None (Some [other_node; tk_node]).

(** An offer whose airports avoid the hub but whose price type mentions a
    price "listed". *)
Definition listed_offer : Flight :=
  mkFlight (Val "10:05 AM") (Val "6:40 PM") (Val "Turkish Airlines") (Val "20 hr")
           (Val (StopsText "1 stop")) (Val "912 kg CO2e") IsNone
           (Val "₹45,230") (Val "Lowest price listed") (Val ["DEL"; "DXB"; "JFK"]).

(** A results file in order, and three records. *)
Definition sorted_file : State :=
  new_optimizer 20 Missing
    (Stored (JList [record_costing 20000; record_costing 50000; record_costing 70000])).


(** Reference data with one country per continent, two of them with
    several cities, and with a continent short. *)
Definition small_countries : list (string * list string) :=
  [ ("Europe", ["GE"]); ("North America", ["CA"]); ("South America", ["AR"]);
    ("Asia", ["IN"]); ("Africa", ["KE"]); ("Oceania", ["AU"]) ].

Definition five_continents : list (string * list string) :=
  [ ("Europe", ["GE"]); ("North America", ["CA"]); ("South America", ["AR"]);
    ("Asia", ["IN"]); ("Africa", ["KE"]) ].

Definition small_routes : list Route :=
  match generate_all_possible_combinations
          small_countries Utils.COUNTRY_MAJOR_CITIES Utils.EASY_VISA_COUNTRIES
          reversing_shuffle with
  | inr routes => routes
  | inl _ => []
  end.

(** A result element without the airline text. *)
Definition broken_node : ResultNode :=
  mkNode true None ["10:05 AM"; "6:40 PM"]
         (Some "20 hr 35 min") (Some "1 stop") (Some "912 kg CO2e") None
         (Some "₹45,230") None
         ["DEL Indira Gandhi International Airport"; "JFK John F. Kennedy"]
         ["IST Istanbul Airport"].

(** An offer of the target carrier via the hub whose price text is "nan",
    a text [float] reads as the number NaN. *)
Definition nan_offer : Flight := offer "Turkish Airlines" "nan" ["DEL"; "IST"; "JFK"].

(** Every query finds that one offer. *)
Definition always_nan : Scraper :=
  fun _ _ _ => Returns [("top_flights", [nan_offer])].

(** A results file with two records in order. *)
Definition two_records_file : State :=
  new_optimizer 20 Missing
    (Stored (JList [record_costing 20000; record_costing 70000])).


End MoreExamples.

(* ------------------------------------------------------------------ *)
(** ** Quantities the statements below speak about *)

Module Derived.

Import PyNum RoutePlanner FlightSearch.

(** The price [search_route_flights] adds to [total_cost] for a stored
    segment: [self.parse_price(cheapest.get("price", "₹0"))]. *)
Definition chosen_price (s : SegmentResult) : pynum :=
  parse_price (get_or "₹0" (f_price (s_flight s))).

(** A stop agrees with the reference data: it is flagged visa-easy, its
    country is in the visa-easy set and listed under its continent, and its
    city is listed under its country. *)
Definition stop_in_reference_data
           (eligible_countries major_cities : list (string * list string))
           (easy_visa_countries : list string) (s : Stop) : Prop :=
  easy_visa s = true
  /\ PyList.mem (country_code s) easy_visa_countries = true
  /\ (exists codes, PyList.lookup (continent s) eligible_countries = Some codes
                    /\ In (country_code s) codes)
  /\ (exists cities, PyList.lookup (country_code s) major_cities = Some cities
                     /\ In (city s) cities).

(** The number a price text writes: its decimal digits, read past the
    thousands separators; [None] when the text holds another character. *)
Fixpoint digits_value (acc : Z) (s : string) : option Z :=
  match s with
  | EmptyString => Some acc
  | String c s' =>
      if Ascii.eqb c ","
      then digits_value acc s'
      else match digit_of c with
           | Some d => digits_value (10 * acc + d) s'
           | None => None
           end
  end.

(** A text of decimal digits only. *)
Fixpoint all_digits (s : string) : bool :=
  match s with
  | EmptyString => true
  | String c s' =>
      match digit_of c with
      | Some _ => all_digits s'
      | None => false
      end
  end.

(** The route built from one city per continent, in the order [keys] of the
    continents. *)
Definition route_of (keys : list string) (combination : list CityInfo) : Route :=
  map (fun '(cont, c) => stop_of cont c) (combine keys combination).

End Derived.

(* ------------------------------------------------------------------ *)
(** ** Facts about strings *)

Section StringFacts.

Import PyStr.

Lemma prefix_app (n t : string) : String.prefix n (n ++ t) = true.
Proof.
  induction n as [|c n IH]; simpl.
  - destruct t; reflexivity.
  - destruct (ascii_dec c c) as [_|ne]; [exact IH | contradiction].
Qed.

Lemma prefix_split (n s : string) :
  String.prefix n s = true -> exists t, s = (n ++ t)%string.
Proof.
  revert s; induction n as [|c n IH]; intros s H.
  - exists s; reflexivity.
  - destruct s as [|d s]; simpl in H; [discriminate|].
    destruct (ascii_dec c d) as [e|ne]; [subst d | discriminate].
    destruct (IH s H) as [t ->].
    exists t; reflexivity.
Qed.

Lemma prefix_contains (n s : string) :
  String.prefix n s = true -> contains n s = true.
Proof.
  intros H; destruct s; simpl in *; rewrite H; reflexivity.
Qed.

Lemma contains_empty (n : string) : n <> EmptyString -> contains n EmptyString = false.
Proof.
  intros H; destruct n; [contradiction | reflexivity].
Qed.

(** A needle that starts with a visible character survives [lstrip]. *)
Lemma contains_lstrip (c : ascii) (n s : string) :
  is_space c = false ->
  contains (String c n) s = true -> contains (String c n) (lstrip s) = true.
Proof.
  intros Hc; induction s as [|d s IH]; intros H.
  - discriminate H.
  - simpl lstrip. destruct (is_space d) eqn:Hd; [|exact H].
    apply IH. simpl in H.
    destruct (ascii_dec c d) as [e|ne].
    + subst d. rewrite Hc in Hd. discriminate.
    + exact H.
Qed.

(** [rstrip] leaves alone a text that ends with a visible character, also
    when more text follows it. *)
Lemma rstrip_app (n t : string) :
  n <> EmptyString -> rstrip n = n -> rstrip (n ++ t) = (n ++ rstrip t)%string.
Proof.
  induction n as [|c n IH]; intros Hne Hfix; [contradiction|].
  destruct n as [|c' n'].
  - simpl in Hfix. destruct (is_space c) eqn:Hc; [discriminate|].
    simpl. destruct (rstrip t); [rewrite Hc|]; reflexivity.
  - assert (Hn : rstrip (String c' n') = String c' n').
    { change (rstrip (String c (String c' n')))
        with (match rstrip (String c' n') with
              | EmptyString => if is_space c then EmptyString else String c EmptyString
              | r => String c r
              end) in Hfix.
      destruct (rstrip (String c' n')) eqn:E.
      - destruct (is_space c); discriminate.
      - injection Hfix as <- <-. reflexivity. }
    change (rstrip (String c (String c' n') ++ t))
      with (match rstrip (String c' n' ++ t) with
            | EmptyString => if is_space c then EmptyString else String c EmptyString
            | r => String c r
            end).
    rewrite IH by (discriminate || exact Hn).
    reflexivity.
Qed.

Lemma contains_rstrip (n s : string) :
  n <> EmptyString -> rstrip n = n ->
  contains n s = true -> contains n (rstrip s) = true.
Proof.
  intros Hne Hfix; induction s as [|d s IH]; intros H.
  - rewrite contains_empty in H by exact Hne. discriminate.
  - destruct (String.prefix n (String d s)) eqn:Hp.
    + destruct (prefix_split _ _ Hp) as [t Ht]. rewrite Ht.
      rewrite rstrip_app by assumption.
      apply prefix_contains, prefix_app.
    + assert (Hs : contains n s = true).
      { simpl in H. simpl in Hp. rewrite Hp in H. exact H. }
      specialize (IH Hs).
      simpl rstrip. destruct (rstrip s) as [|e r] eqn:E.
      * rewrite contains_empty in IH by exact Hne. discriminate.
      * change (contains n (String d (String e r)))
          with (String.prefix n (String d (String e r)) || contains n (String e r)).
        rewrite IH. apply orb_true_r.
Qed.

Lemma contains_strip (c : ascii) (n s : string) :
  is_space c = false -> rstrip (String c n) = String c n ->
  contains (String c n) s = true -> contains (String c n) (strip s) = true.
Proof.
  intros Hc Hfix H. unfold strip.
  apply contains_rstrip; [discriminate | exact Hfix |].
  apply contains_lstrip; assumption.
Qed.

End StringFacts.

(* ------------------------------------------------------------------ *)
(** ** The flight validator *)

Section Validator.

Import PyStr PyNum FlightSearch Examples.

Lemma airline_of_val (fl : Flight) (a : string) :
  f_airline fl = Val a -> a <> EmptyString -> airline_of fl = Some a.
Proof.
  intros H Hne. unfold airline_of. rewrite H. simpl.
  destruct (String.eqb_spec a ""); [contradiction | reflexivity].
Qed.

Lemma valid_flight_not_codeshare (fl : Flight) (a : string) :
  f_airline fl = Val a -> valid_flight fl = true -> is_codeshare a = false.
Proof.
  intros H Hv. unfold valid_flight, airline_of in Hv. rewrite H in Hv. simpl in Hv.
  destruct (String.eqb a ""); [discriminate|].
  destruct (is_codeshare a); [discriminate | reflexivity].
Qed.

Lemma is_turkish_of_alias (a name : string) (c : ascii) (n : string) :
  name = String c n -> is_space c = false -> rstrip name = name ->
  In name turkish_airlines_names ->
  contains name (lower a) = true -> is_turkish a = true.
Proof.
  intros -> Hc Hfix Hin H. unfold is_turkish.
  apply existsb_exists. exists (String c n). split; [exact Hin|].
  apply contains_strip; assumption.
Qed.

(** C3, as stated, fails: a plus sign without spaces around it is not one
    of the markers the validator looks for.  The offer below names two
    carriers joined by "+" and is kept. *)
Lemma C3_plus_sign_offer_is_kept :
  f_airline plus_offer = Val "Turkish Airlines+Emirates"
  /\ contains "+" "Turkish Airlines+Emirates" = true
  /\ filter_turkish_airlines_flights [plus_offer] = [plus_offer].
Proof. repeat split; reflexivity. Qed.

(** C3, amended: an offer whose airline text contains a comma, the
    sequence space-plus-space, or a slash is never among the offers the
    validator returns, whatever its other entries are. *)
Theorem C3_codeshare_markers_rejected :
  forall (flights : list Flight) (fl : Flight) (a : string),
    f_airline fl = Val a ->
    contains "," a = true \/ contains " + " a = true \/ contains "/" a = true ->
    ~ In fl (filter_turkish_airlines_flights flights).
Proof.
  intros flights fl a Ha Hm Hin.
  apply filter_In in Hin. destruct Hin as [_ Hv].
  pose proof (valid_flight_not_codeshare fl a Ha Hv) as Hc.
  unfold is_codeshare in Hc.
  apply orb_false_elim in Hc. destruct Hc as [Hc H3].
  apply orb_false_elim in Hc. destruct Hc as [H1 H2].
  destruct Hm as [Hm|[Hm|Hm]]; congruence.
Qed.

Lemma C3_comma_offer_rejected :
  f_airline comma_offer = Val "Turkish Airlines, Emirates"
  /\ ~ In comma_offer (filter_turkish_airlines_flights [comma_offer; tk_offer]).
Proof.
  split; [reflexivity|].
  apply (C3_codeshare_markers_rejected [comma_offer; tk_offer] comma_offer
           "Turkish Airlines, Emirates"); [reflexivity | left; reflexivity].
Defined.

(** C10: the airline check is a substring test.  An airline text without
    codeshare markers whose lower-cased form contains "tk", "thy" or
    "turkish" passes as the target carrier, so the offer is kept exactly
    when its airports or text mention the hub; "SmartKargo" is such a
    text. *)
Theorem C10_alias_matches_by_substring :
  forall (fl : Flight) (a : string),
    f_airline fl = Val a ->
    is_codeshare a = false ->
    contains "tk" (lower a) = true \/ contains "thy" (lower a) = true
    \/ contains "turkish" (lower a) = true ->
    is_turkish a = true /\ valid_flight fl = has_ist fl.
Proof.
  intros fl a Ha Hc Hm.
  assert (Ht : is_turkish a = true).
  { destruct Hm as [Hm|[Hm|Hm]].
    - eapply (is_turkish_of_alias a "tk"); try reflexivity; [simpl; tauto | exact Hm].
    - eapply (is_turkish_of_alias a "thy"); try reflexivity; [simpl; tauto | exact Hm].
    - eapply (is_turkish_of_alias a "turkish"); try reflexivity; [simpl; tauto | exact Hm]. }
  split; [exact Ht|].
  assert (Hne : a <> EmptyString).
  { intros ->. destruct Hm as [Hm|[Hm|Hm]]; discriminate Hm. }
  unfold valid_flight. rewrite (airline_of_val fl a Ha Hne), Hc, Ht. simpl.
  destruct (has_ist fl); reflexivity.
Qed.

Lemma C10_smartkargo_passes :
  (is_turkish "SmartKargo" = true /\ valid_flight kargo_offer = has_ist kargo_offer)
  /\ filter_turkish_airlines_flights [kargo_offer] = [kargo_offer].
Proof.
  split; [|reflexivity].
  apply (C10_alias_matches_by_substring kargo_offer "SmartKargo");
    [reflexivity | reflexivity | left; reflexivity].
Defined.

End Validator.

(* ------------------------------------------------------------------ *)
(** ** Order of Python numbers *)

Section NumberOrder.

Import PyNum.

Lemma ext_lt_fin (x y : Q) : ext_lt (Fin x) (Fin y) = true <-> (x < y)%Q.
Proof.
  simpl. rewrite Qlt_alt. destruct (x ?= y)%Q; split; congruence.
Qed.

Lemma ext_lt_fin_false (x y : Q) : ext_lt (Fin x) (Fin y) = false <-> (y <= x)%Q.
Proof.
  split; intros H.
  - apply Qnot_lt_le. intros Hlt. apply ext_lt_fin in Hlt. congruence.
  - destruct (ext_lt (Fin x) (Fin y)) eqn:E; [|reflexivity].
    apply ext_lt_fin in E. exfalso. exact (Qlt_not_le _ _ E H).
Qed.

Lemma ext_lt_trans (a b c : ext) :
  ext_lt a b = true -> ext_lt b c = true -> ext_lt a c = true.
Proof.
  destruct a as [|x|], b as [|y|], c as [|z|]; try (simpl; congruence).
  rewrite !ext_lt_fin. apply Qlt_trans.
Qed.

Lemma ext_lt_asym (a b : ext) : ext_lt a b = true -> ext_lt b a = false.
Proof.
  destruct a as [|x|], b as [|y|]; try (simpl; congruence).
  rewrite ext_lt_fin, ext_lt_fin_false. apply Qlt_le_weak.
Qed.

(** [not (b < a)] and [not (c < b)] give [not (c < a)]. *)
Lemma ext_not_lt_trans (a b c : ext) :
  ext_lt b a = false -> ext_lt c b = false -> ext_lt c a = false.
Proof.
  destruct a as [|x|], b as [|y|], c as [|z|]; try (simpl; congruence).
  rewrite !ext_lt_fin_false. apply Qle_trans.
Qed.

Lemma ext_le_lt_trans (a b c : ext) :
  ext_lt b a = false -> ext_lt b c = true -> ext_lt a c = true.
Proof.
  destruct a as [|x|], b as [|y|], c as [|z|]; try (simpl; congruence).
  rewrite ext_lt_fin_false, !ext_lt_fin. apply Qle_lt_trans.
Qed.

Lemma value_nan (x : pynum) : value x = None <-> is_nan x = true.
Proof.
  destruct x as [z|q|[|]|]; simpl; split; congruence.
Qed.

Lemma lt_values (a b : pynum) :
  lt a b = true -> exists x y, value a = Some x /\ value b = Some y /\ ext_lt x y = true.
Proof.
  unfold lt. destruct (value a) as [x|], (value b) as [y|]; try discriminate.
  intros H. exists x, y. auto.
Qed.

Lemma lt_not_nan (a b : pynum) :
  lt a b = true -> is_nan a = false /\ is_nan b = false.
Proof.
  intros H. destruct (lt_values a b H) as (x & y & Ha & Hb & _).
  destruct a as [| | |], b as [| | |]; simpl in *; try discriminate; auto.
Qed.

Lemma lt_trans (a b c : pynum) : lt a b = true -> lt b c = true -> lt a c = true.
Proof.
  unfold lt. destruct (value a), (value b), (value c); try discriminate.
  apply ext_lt_trans.
Qed.

Lemma lt_asym (a b : pynum) : lt a b = true -> lt b a = false.
Proof.
  unfold lt. destruct (value a), (value b); try discriminate.
  apply ext_lt_asym.
Qed.

(** When [a < b] fails, [b] is NaN, or [a] is NaN, or [b <= a]. *)
Lemma not_lt_le (a b : pynum) :
  is_nan a = false -> is_nan b = false -> lt a b = false -> le b a = true.
Proof.
  unfold lt, le. intros Ha Hb.
  destruct (value a) eqn:Ea; [|apply value_nan in Ea; congruence].
  destruct (value b) eqn:Eb; [|apply value_nan in Eb; congruence].
  intros ->. reflexivity.
Qed.

Lemma le_trans (a b c : pynum) : le a b = true -> le b c = true -> le a c = true.
Proof.
  unfold le. destruct (value a), (value b), (value c); try discriminate.
  rewrite !negb_true_iff. intros H1 H2. exact (ext_not_lt_trans _ _ _ H1 H2).
Qed.

Lemma le_lt_trans (a b c : pynum) : le a b = true -> lt b c = true -> lt a c = true.
Proof.
  unfold le, lt. destruct (value a), (value b), (value c); try discriminate.
  rewrite negb_true_iff. apply ext_le_lt_trans.
Qed.

End NumberOrder.

(* ------------------------------------------------------------------ *)
(** ** The stable sort *)

Section SortFacts.

Context {A : Type}.
Variable before : A -> A -> bool.

Lemma insert_perm (x : A) (l : list A) :
  Permutation (PyList.insert before x l) (x :: l).
Proof.
  induction l as [|y l IH]; simpl.
  - apply Permutation_refl.
  - destruct (before y x).
    + apply perm_trans with (y :: x :: l).
      * apply perm_skip, IH.
      * apply perm_swap.
    + apply Permutation_refl.
Qed.

Lemma stable_sort_perm (l : list A) : Permutation (PyList.stable_sort before l) l.
Proof.
  induction l as [|x l IH]; simpl.
  - apply perm_nil.
  - apply perm_trans with (x :: PyList.stable_sort before l).
    + apply insert_perm.
    + apply perm_skip, IH.
Qed.

Lemma stable_sort_in (l : list A) (x : A) :
  In x (PyList.stable_sort before l) <-> In x l.
Proof.
  split; apply Permutation_in;
    [apply stable_sort_perm | apply Permutation_sym, stable_sort_perm].
Qed.

Lemma stable_sort_length (l : list A) :
  length (PyList.stable_sort before l) = length l.
Proof. apply Permutation_length, stable_sort_perm. Qed.

Hypothesis before_asym : forall a b, before a b = true -> before b a = false.

Lemma insert_sorted (x : A) (l : list A) :
  Sorted (PyList.in_order before) l -> Sorted (PyList.in_order before) (PyList.insert before x l).
Proof.
  induction l as [|y l IH]; intros Hs; simpl.
  - repeat constructor.
  - destruct (before y x) eqn:E.
    + inversion Hs as [|? ? Hs' Hhd]; subst.
      constructor; [apply IH, Hs'|].
      destruct l as [|z l]; simpl.
      * constructor. apply before_asym, E.
      * destruct (before z x).
        -- inversion Hhd; subst. constructor. assumption.
        -- constructor. apply before_asym, E.
    + constructor; [exact Hs|]. constructor. exact E.
Qed.

Lemma stable_sort_sorted (l : list A) : Sorted (PyList.in_order before) (PyList.stable_sort before l).
Proof.
  induction l as [|x l IH]; simpl.
  - constructor.
  - apply insert_sorted, IH.
Qed.

End SortFacts.

(* ------------------------------------------------------------------ *)
(** ** Price parsing and the cheapest offer *)

Section Prices.

Import PyStr PyNum FlightSearch Examples.

Lemma unparsed_sentinel (p : option string) :
  unparsed p = true -> parse_price p = SENTINEL.
Proof.
  destruct p as [s|]; simpl; [|reflexivity].
  destruct (String.eqb s "" || String.eqb s "N/A"); [reflexivity|].
  destruct (py_float (cleaned s)); [discriminate | reflexivity].
Qed.

Lemma below_sentinel_parsed (fl : Flight) :
  below_sentinel fl -> unparsed (get_or "₹999,999" (f_price fl)) = false.
Proof.
  intros H. destruct (unparsed (get_or "₹999,999" (f_price fl))) eqn:E; [|reflexivity].
  apply unparsed_sentinel in E. unfold below_sentinel, price_key in H.
  rewrite E in H. destruct H as [H|H]; discriminate H.
Qed.

Lemma min_from_in (best : Flight) (rest : list Flight) :
  In (min_from price_key best rest) (best :: rest).
Proof.
  revert best; induction rest as [|x rest IH]; intros best; simpl.
  - left; reflexivity.
  - destruct (PyNum.lt (price_key x) (price_key best)).
    + right. apply IH.
    + destruct (IH best) as [H|H]; [left; exact H | right; right; exact H].
Qed.

Lemma min_from_below_sentinel (rest : list Flight) :
  forall best,
    below_sentinel best
    \/ (exists fl, In fl rest /\ PyNum.lt (price_key fl) SENTINEL = true) ->
    below_sentinel (min_from price_key best rest).
Proof.
  induction rest as [|x rest IH]; intros best H; simpl.
  - destruct H as [H|(fl & [] & _)]. exact H.
  - destruct (PyNum.lt (price_key x) (price_key best)) eqn:E.
    + apply IH. destruct H as [[H|H]|(fl & [<-|Hin] & Hlt)].
      * left; left. exact (lt_trans _ _ _ E H).
      * destruct (lt_not_nan _ _ E) as [_ Hb]. congruence.
      * left; left. exact Hlt.
      * right. exists fl. auto.
    + apply IH. destruct H as [H|(fl & [<-|Hin] & Hlt)].
      * left; exact H.
      * left. destruct (is_nan (price_key best)) eqn:Hn; [right; exact Hn|].
        left. destruct (lt_not_nan _ _ Hlt) as [Hx _].
        exact (le_lt_trans _ _ _ (not_lt_le _ _ Hx Hn E) Hlt).
      * right. exists fl. auto.
Qed.

(** C4, as stated, fails: the sentinel is the finite number 999999, and a
    price that parses to more than it loses to an offer whose price text is
    "N/A".  Both offers below pass the validator. *)
Lemma C4_sentinel_beats_higher_price :
  filter_turkish_airlines_flights [pricey_offer; na_offer] = [pricey_offer; na_offer]
  /\ price_key pricey_offer = PyFloat 1500000
  /\ unparsed (get_or "₹999,999" (f_price na_offer)) = true
  /\ cheapest_of [pricey_offer; na_offer] = Some na_offer.
Proof. repeat split; vm_compute; reflexivity. Qed.

(** C4, amended: the price text "₹45,230" parses to 45230.0; an absent,
    empty, "N/A" or unparseable text gives the sentinel 999999; and when some
    surviving offer has a price strictly below 999999, the offer chosen as
    cheapest is one of the surviving offers whose price is strictly below
    999999 or NaN, hence never one that carries the sentinel. *)
Theorem C4_price_parsing_and_cheapest :
  parse_price (Some "₹45,230") = PyFloat 45230
  /\ parse_price (Some "N/A") = SENTINEL
  /\ parse_price (Some "") = SENTINEL
  /\ parse_price None = SENTINEL
  /\ (forall s, py_float (cleaned s) = None -> parse_price (Some s) = SENTINEL)
  /\ (forall (valid_flights : list Flight) (fl : Flight),
        In fl valid_flights ->
        PyNum.lt (price_key fl) SENTINEL = true ->
        exists cheapest,
          cheapest_of valid_flights = Some cheapest
          /\ In cheapest valid_flights
          /\ (PyNum.lt (price_key cheapest) SENTINEL = true
              \/ is_nan (price_key cheapest) = true)
          /\ unparsed (get_or "₹999,999" (f_price cheapest)) = false).
Proof.
  split; [vm_compute; reflexivity|].
  split; [reflexivity|]. split; [reflexivity|]. split; [reflexivity|].
  split.
  - intros s H. apply unparsed_sentinel. simpl. rewrite H. apply orb_true_r.
  - intros valid_flights fl Hin Hlt.
    destruct valid_flights as [|x rest]; [destruct Hin|].
    exists (min_from price_key x rest).
    assert (Hb : below_sentinel (min_from price_key x rest)).
    { apply min_from_below_sentinel. destruct Hin as [<-|Hin].
      - left; left; exact Hlt.
      - right. exists fl. auto. }
    split; [reflexivity|]. split; [apply min_from_in|].
    split; [exact Hb | apply below_sentinel_parsed, Hb].
Qed.

Lemma C4_real_price_beats_na :
  exists cheapest,
    cheapest_of [na_offer; tk_offer] = Some cheapest
    /\ In cheapest [na_offer; tk_offer]
    /\ (PyNum.lt (price_key cheapest) SENTINEL = true
        \/ is_nan (price_key cheapest) = true)
    /\ unparsed (get_or "₹999,999" (f_price cheapest)) = false.
Proof.
  apply (proj2 (proj2 (proj2 (proj2 (proj2 C4_price_parsing_and_cheapest))))
           [na_offer; tk_offer] tk_offer).
  - right; left; reflexivity.
  - vm_compute; reflexivity.
Defined.

End Prices.

(* ------------------------------------------------------------------ *)
(** ** The results file *)

Section ResultsFile.

Import PyNum FlightSearch Examples MoreExamples.

Lemma cost_le_trans (a b c : Result) : cost_le a b -> cost_le b c -> cost_le a c.
Proof. unfold cost_le. apply le_trans. Qed.

Lemma sort_by_cost_sorted (l : list Result) :
  (forall x, In x l -> is_nan (cost_key x) = false) ->
  StronglySorted cost_le (sort_by_cost l).
Proof.
  intros Hnan.
  apply Sorted_StronglySorted; [exact cost_le_trans|].
  assert (Hs : Sorted (PyList.in_order (fun a b => PyNum.lt (cost_key a) (cost_key b)))
                      (sort_by_cost l)).
  { apply stable_sort_sorted. intros a b. apply lt_asym. }
  assert (Hin : forall x, In x (sort_by_cost l) -> is_nan (cost_key x) = false).
  { intros x Hx. apply Hnan. unfold sort_by_cost in Hx.
    apply stable_sort_in in Hx. exact Hx. }
  induction Hs as [|a l' Hs IH Hhd]; constructor.
  - apply IH. intros x Hx. apply Hin. right; exact Hx.
  - destruct Hhd as [|b l'' Hab]; constructor.
    unfold PyList.in_order in Hab. unfold cost_le.
    apply not_lt_le; [apply Hin; right; left; reflexivity
                     | apply Hin; left; reflexivity | exact Hab].
Qed.

(** The three cases in which the file is written. *)
Ltac writes_sorted Hnan :=
  unfold write_results; cbn [results_file]; split;
  [ intros written H; injection H as <-; exact (sort_by_cost_sorted _ Hnan)
  | intros _; eexists; split;
    [ reflexivity
    | exact (stable_sort_perm (fun a b => PyNum.lt (cost_key a) (cost_key b)) _) ] ].

(** C8, as amended: as long as no total cost among the stored records and
    the new one is NaN, whatever list [save_result_to_file] writes is in
    nondecreasing order of total cost, and it does write, the old records
    together with the new one, unless the file holds JSON that is not a
    list.  An absent cost counts as 999999.  Without the condition the
    order can fail, see the counterexample below. *)
Theorem C8_results_file_sorted_after_append :
  forall (result : Result) (st : State),
    (forall x, In x (stored_records st ++ [result]) -> is_nan (cost_key x) = false) ->
    (forall written,
        results_file (save_result_to_file result st) = Stored (JList written) ->
        StronglySorted cost_le written)
    /\ (results_file st <> Stored JOther ->
        exists written,
          results_file (save_result_to_file result st) = Stored (JList written)
          /\ Permutation written (stored_records st ++ [result])).
Proof.
  intros result st Hnan.
  unfold save_result_to_file, stored_records in *.
  destruct (results_file st) as [| |[existing|]] eqn:E;
    [writes_sorted Hnan | writes_sorted Hnan | writes_sorted Hnan |].
  split.
  - intros written H. rewrite E in H. discriminate H.
  - intros H. contradiction.
Qed.

Lemma C8_append_to_unsorted_file :
  (forall written,
      results_file (save_result_to_file (record_costing 50000) unsorted_file)
      = Stored (JList written) ->
      StronglySorted cost_le written)
  /\ (results_file unsorted_file <> Stored JOther ->
      exists written,
        results_file (save_result_to_file (record_costing 50000) unsorted_file)
        = Stored (JList written)
        /\ Permutation written (stored_records unsorted_file ++ [record_costing 50000])).
Proof.
  apply (C8_results_file_sorted_after_append (record_costing 50000) unsorted_file).
  intros x Hx. simpl in Hx.
  destruct Hx as [<-|[<-|[<-|[]]]]; reflexivity.
Defined.

(** C8, counterexample to the claim for any file contents and any result: a
    worker whose offers carry the price text "nan" totals the route to NaN
    and appends its record to a file holding the costs 20000 and 70000; the
    next append, of a record costing 50000, writes the costs 20000, 70000,
    NaN, 50000 in this order, the record costing 70000 before the one
    costing 50000.  No comparison with NaN is true, so [list.sort] takes
    each of the two lists for an ascending run and leaves it as it is. *)
Lemma C8_nan_cost_leaves_the_file_unsorted :
  let worker := worker_search_route always_nan six_stops 3 two_records_file in
  let written :=
    stored_records (save_result_to_file (record_costing 50000) (fst worker)) in
  option_map r_total_cost_inr (snd worker) = Some (Some PyNaN)
  /\ map cost_key (stored_records (fst worker)) = [PyInt 20000; PyInt 70000; PyNaN]
  /\ map cost_key written = [PyInt 20000; PyInt 70000; PyNaN; PyInt 50000]
  /\ PyNum.lt (PyInt 50000) (PyInt 70000) = true
  /\ ~ StronglySorted cost_le written.
Proof.
  cbv zeta.
  split; [vm_compute; reflexivity|].
  split; [vm_compute; reflexivity|].
  split; [vm_compute; reflexivity|].
  split; [vm_compute; reflexivity|].
  intros H.
  assert (E : map cost_key
                (stored_records
                   (save_result_to_file (record_costing 50000)
                      (fst (worker_search_route always_nan six_stops 3 two_records_file))))
              = [PyInt 20000; PyInt 70000; PyNaN; PyInt 50000])
    by (vm_compute; reflexivity).
  destruct (stored_records _) as [|r1 [|r2 [|r3 [|r4 [|r5 l]]]]]; try discriminate E.
  injection E as E1 E2 E3 E4.
  apply StronglySorted_inv in H. destruct H as [H _].
  apply StronglySorted_inv in H. destruct H as [_ H].
  apply Forall_inv_tail in H. apply Forall_inv in H.
  unfold cost_le in H. rewrite E2, E4 in H. vm_compute in H. discriminate H.
Qed.

End ResultsFile.

(* ------------------------------------------------------------------ *)
(** ** The search of one route *)

Section RouteSearch.

Import PyNum RoutePlanner FlightSearch Examples.

#[local] Opaque city_to_airport_code route_to_signature.

Fixpoint pyval_eqb_refl (v : pyval) : pyval_eqb v v = true.
Proof.
  destruct v as [s|items|items]; simpl.
  - apply String.eqb_refl.
  - induction items as [|x items IH]; simpl; [reflexivity|].
    rewrite pyval_eqb_refl, IH. reflexivity.
  - induction items as [|x items IH]; simpl; [reflexivity|].
    rewrite pyval_eqb_refl, IH. reflexivity.
Qed.

Lemma sig_eqb_refl (x : signature) : sig_eqb x x = true.
Proof.
  induction x as [|v x IH]; simpl; [reflexivity|].
  rewrite pyval_eqb_refl. exact IH.
Qed.

Lemma sig_mem_app (x : signature) (l : list signature) : sig_mem x (l ++ [x]) = true.
Proof.
  unfold sig_mem. rewrite existsb_app. simpl.
  rewrite sig_eqb_refl. rewrite orb_true_r. reflexivity.
Qed.

Lemma save_progress_records (x : signature) (st : State) :
  sig_mem x (completed_routes (save_progress x st)) = true.
Proof.
  unfold save_progress; simpl.
  destruct (sig_mem x (completed_routes st)) eqn:E; [exact E | apply sig_mem_app].
Qed.

Lemma record_calls_cons (o d : string) (l : list (string * string)) (st : State) :
  record_calls ((o, d) :: l) st = record_calls l (record_call o d st).
Proof. reflexivity. Qed.

Lemma record_calls_calls (l : list (string * string)) :
  forall st, calls (record_calls l st) = calls st ++ l.
Proof.
  induction l as [|[o d] l IH]; intros st.
  - symmetry. apply app_nil_r.
  - rewrite record_calls_cons, IH. simpl. rewrite <- app_assoc. reflexivity.
Qed.

(** Logging calls touches nothing but the log. *)
Lemma record_calls_frame (l : list (string * string)) :
  forall st,
    completed_count (record_calls l st) = completed_count st
    /\ failed_count (record_calls l st) = failed_count st
    /\ discarded_count (record_calls l st) = discarded_count st
    /\ completed_routes (record_calls l st) = completed_routes st
    /\ results_file (record_calls l st) = results_file st.
Proof.
  induction l as [|[o d] l IH]; intros st.
  - repeat split.
  - rewrite record_calls_cons.
    destruct (IH (record_call o d st)) as (H1 & H2 & H3 & H4 & H5).
    rewrite H1, H2, H3, H4, H5. repeat split.
Qed.

Lemma usable_step (flight_results : list (string * list Flight)) :
  no_usable_offers flight_results = false ->
  exists x all cheapest,
    gather_flights flight_results = x :: all
    /\ cheapest_of (filter_turkish_airlines_flights (x :: all)) = Some cheapest.
Proof.
  unfold no_usable_offers. intros H.
  destruct (gather_flights flight_results) as [|x all] eqn:G; [discriminate|].
  destruct (filter_turkish_airlines_flights (x :: all)) as [|y l] eqn:F; [discriminate|].
  exists x, all, (min_from price_key y l). split; [reflexivity|].
  rewrite F. reflexivity.
Qed.

Lemma unusable_step (flight_results : list (string * list Flight)) :
  no_usable_offers flight_results = true ->
  gather_flights flight_results = []
  \/ exists x all,
      gather_flights flight_results = x :: all
      /\ cheapest_of (filter_turkish_airlines_flights (x :: all)) = None.
Proof.
  unfold no_usable_offers. intros H.
  destruct (gather_flights flight_results) as [|x all] eqn:G; [left; reflexivity|].
  right. exists x, all. split; [reflexivity|].
  destruct (filter_turkish_airlines_flights (x :: all)) eqn:F; [reflexivity | discriminate].
Qed.

Lemma search_segments_cons (scraper : Scraper) (route : Route) (i : nat)
      (from to : Stop) (rest : list Stop) route_flights total_cost st :
  search_segments scraper route i (from :: to :: rest) route_flights total_cost st
  = match search_segment scraper route i from to st with
    | (st1, None) => (st1, None)
    | (st1, Some (entry, price)) =>
        search_segments scraper route (S i) (to :: rest) (route_flights ++ [entry])
                        (PyNum.add total_cost price) st1
    end.
Proof. reflexivity. Qed.

Lemma search_segment_usable (scraper : Scraper) (route : Route) (i : nat)
      (from to : Stop) (st : State) :
  usable (scraper i (city_to_airport_code (city from) (country_code from))
                    (city_to_airport_code (city to) (country_code to))) = true ->
  exists entry price,
    search_segment scraper route i from to st
    = (record_call (city_to_airport_code (city from) (country_code from))
                   (city_to_airport_code (city to) (country_code to)) st,
       Some (entry, price)).
Proof.
  unfold search_segment. intros H.
  destruct (scraper i _ _) as [|fr]; [discriminate H|].
  simpl in H. apply negb_true_iff in H.
  destruct (usable_step fr H) as (x & all & cheapest & G & C).
  rewrite G, C. eexists; eexists; reflexivity.
Qed.

Lemma search_segment_unusable (scraper : Scraper) (route : Route) (i : nat)
      (from to : Stop) (st : State) :
  usable (scraper i (city_to_airport_code (city from) (country_code from))
                    (city_to_airport_code (city to) (country_code to))) = false ->
  search_segment scraper route i from to st
  = (save_progress (route_to_signature route)
       (record_call (city_to_airport_code (city from) (country_code from))
                    (city_to_airport_code (city to) (country_code to)) st), None).
Proof.
  unfold search_segment. intros H.
  destruct (scraper i _ _) as [|fr]; [reflexivity|].
  simpl in H. apply negb_false_iff in H.
  destruct (unusable_step fr H) as [G|(x & all & G & C)]; rewrite G;
    [reflexivity | rewrite C; reflexivity].
Qed.

(** The loop ends at the first segment without a usable answer: the calls
    up to and including that segment are logged, the signature is saved and
    [None] is returned. *)
Lemma search_segments_stop (scraper : Scraper) (route : Route) :
  forall (stops : list Stop) (i j : nat) route_flights total_cost st o d,
    nth_error (segment_codes stops) j = Some (o, d) ->
    (forall k ok dk, k < j -> nth_error (segment_codes stops) k = Some (ok, dk) ->
                     usable (scraper (i + k) ok dk) = true) ->
    usable (scraper (i + j) o d) = false ->
    search_segments scraper route i stops route_flights total_cost st
    = (save_progress (route_to_signature route)
         (record_calls (firstn (S j) (segment_codes stops)) st), None).
Proof.
  induction stops as [|from stops IH]; intros i j rf total st o d Hj Hok Hbad.
  - destruct j; discriminate Hj.
  - destruct stops as [|to rest]; [destruct j; discriminate Hj|].
    rewrite search_segments_cons.
    destruct j as [|j].
    + injection Hj as <- <-. rewrite Nat.add_0_r in Hbad.
      rewrite (search_segment_unusable _ _ _ _ _ _ Hbad). reflexivity.
    + pose proof (Hok 0 _ _ (Nat.lt_0_succ j) eq_refl) as H0.
      rewrite Nat.add_0_r in H0.
      destruct (search_segment_usable scraper route i from to st H0)
        as (entry & price & ->).
      rewrite (IH (S i) j _ _ _ o d).
      * reflexivity.
      * exact Hj.
      * intros k ok dk Hk Hn. rewrite Nat.add_succ_l, <- Nat.add_succ_r.
        apply Hok; [apply -> Nat.succ_lt_mono; exact Hk | exact Hn].
      * rewrite Nat.add_succ_l, <- Nat.add_succ_r. exact Hbad.
Qed.

(** The same, seen from the worker. *)
Lemma worker_stop (scraper : Scraper) (route : Route) (route_index i : nat)
      (st : State) (o d : string) :
  nth_error (segment_codes route) i = Some (o, d) ->
  (forall k ok dk, k < i -> nth_error (segment_codes route) k = Some (ok, dk) ->
                   usable (scraper k ok dk) = true) ->
  usable (scraper i o d) = false ->
  worker_search_route scraper route route_index st
  = (update_progress false true
       (save_progress (route_to_signature route)
          (record_calls (firstn (S i) (segment_codes route)) st)), None).
Proof.
  intros Hi Hok Hbad. unfold worker_search_route, search_route_flights.
  rewrite (search_segments_stop scraper route route 0 i [] (PyInt 0) st o d Hi).
  - reflexivity.
  - intros k ok dk Hk Hn. simpl. apply Hok; assumption.
  - exact Hbad.
Qed.

(** What the state looks like after such a stop. *)
Lemma stopped_state (route : Route) (i : nat) (st : State) (o d : string) :
  nth_error (segment_codes route) i = Some (o, d) ->
  let st' :=
    update_progress false true
      (save_progress (route_to_signature route)
         (record_calls (firstn (S i) (segment_codes route)) st)) in
  calls st' = calls st ++ firstn (i + 1) (segment_codes route)
  /\ length (calls st') = length (calls st) + (i + 1)
  /\ discarded_count st' = Some (discarded_or_0 st + 1)
  /\ completed_count st' = completed_count st
  /\ failed_count st' = failed_count st
  /\ is_route_completed route st' = true
  /\ results_file st' = results_file st.
Proof.
  intros Hi st'.
  destruct (record_calls_frame (firstn (S i) (segment_codes route)) st)
    as (H1 & H2 & H3 & H4 & H5).
  pose proof (record_calls_calls (firstn (S i) (segment_codes route)) st) as Hc.
  assert (Hlen : length (firstn (S i) (segment_codes route)) = S i).
  { apply firstn_length_le. apply Nat.le_succ_l. apply nth_error_Some. congruence. }
  subst st'. unfold update_progress; cbn -[save_progress record_calls firstn].
  unfold discarded_or_0.
  change (discarded_count (save_progress ?x ?s)) with (discarded_count s).
  change (completed_count (save_progress ?x ?s)) with (completed_count s).
  change (failed_count (save_progress ?x ?s)) with (failed_count s).
  change (calls (save_progress ?x ?s)) with (calls s).
  change (results_file (save_progress ?x ?s)) with (results_file s).
  rewrite H1, H2, H3, H5, Hc, Nat.add_1_r.
  repeat split.
  - rewrite length_app, Hlen. reflexivity.
  - unfold is_route_completed. cbn [completed_routes].
    apply save_progress_records.
Qed.

(** C1: when segment [i] is the first one without a usable offer, the
    client having answered it with no offer or with none that survives the
    validator, the worker makes exactly the [i + 1] calls of the segments up
    to it and none after, counts the route as discarded, records its
    signature as resolved, and adds nothing to the results file. *)
Theorem C1_first_failing_segment_discards_route :
  forall (scraper : Scraper) (route : Route) (route_index i : nat)
         (st : State) (o d : string),
    nth_error (segment_codes route) i = Some (o, d) ->
    (forall k ok dk, k < i -> nth_error (segment_codes route) k = Some (ok, dk) ->
                     usable (scraper k ok dk) = true) ->
    discards (scraper i o d) = true ->
    exists st',
      worker_search_route scraper route route_index st = (st', None)
      /\ calls st' = calls st ++ firstn (i + 1) (segment_codes route)
      /\ length (calls st') = length (calls st) + (i + 1)
      /\ discarded_count st' = Some (discarded_or_0 st + 1)
      /\ completed_count st' = completed_count st
      /\ failed_count st' = failed_count st
      /\ is_route_completed route st' = true
      /\ results_file st' = results_file st.
Proof.
  intros scraper route route_index i st o d Hi Hok Hbad.
  assert (Hu : usable (scraper i o d) = false).
  { destruct (scraper i o d); [reflexivity|]. simpl in *. rewrite Hbad. reflexivity. }
  eexists. split; [exact (worker_stop scraper route route_index i st o d Hi Hok Hu)|].
  exact (stopped_state route i st o d Hi).
Qed.

Lemma C1_six_stops_second_segment_empty :
  exists st',
    worker_search_route second_empty six_stops 1 fresh = (st', None)
    /\ calls st' = [("DEL", "CAI"); ("CAI", "FRA")]
    /\ length (calls st') = 2
    /\ discarded_count st' = Some 1
    /\ completed_count st' = 0
    /\ failed_count st' = 0
    /\ is_route_completed six_stops st' = true
    /\ results_file st' = Missing.
Proof.
  apply (C1_first_failing_segment_discards_route second_empty six_stops 1 1 fresh
           "CAI" "FRA").
  - reflexivity.
  - intros k ok dk Hk Hn.
    destruct k as [|k]; [reflexivity | inversion Hk as [|? Hk']; inversion Hk'].
  - reflexivity.
Defined.

(** C2, as stated, fails: a query that raises leaves the worker in the very
    state an empty answer leaves it in.  The route is counted as discarded
    and the failed counter stays at zero. *)
Lemma C2_raising_query_counted_as_discarded :
  worker_search_route second_raises six_stops 1 fresh
  = worker_search_route second_empty six_stops 1 fresh
  /\ discarded_count (fst (worker_search_route second_raises six_stops 1 fresh)) = Some 1
  /\ failed_count (fst (worker_search_route second_raises six_stops 1 fresh)) = 0.
Proof. repeat split; vm_compute; reflexivity. Qed.

(** C2, amended: when the query of segment [i] is the first one without a
    usable offer because the client raises, the worker stops after these
    [i + 1] calls and records the signature as resolved, and it counts the
    route as discarded, leaving the failed counter alone: the state it
    reaches is the one any scraper reaches that answers the earlier segments
    alike and finds no usable offer for segment [i]. *)
Theorem C2_raising_query_ends_route_as_discarded :
  forall (scraper : Scraper) (route : Route) (route_index i : nat)
         (st : State) (o d : string),
    nth_error (segment_codes route) i = Some (o, d) ->
    (forall k ok dk, k < i -> nth_error (segment_codes route) k = Some (ok, dk) ->
                     usable (scraper k ok dk) = true) ->
    scraper i o d = Raises ->
    exists st',
      worker_search_route scraper route route_index st = (st', None)
      /\ calls st' = calls st ++ firstn (i + 1) (segment_codes route)
      /\ length (calls st') = length (calls st) + (i + 1)
      /\ discarded_count st' = Some (discarded_or_0 st + 1)
      /\ completed_count st' = completed_count st
      /\ failed_count st' = failed_count st
      /\ is_route_completed route st' = true
      /\ results_file st' = results_file st
      /\ (forall other : Scraper,
             (forall k ok dk, k < i -> other k ok dk = scraper k ok dk) ->
             discards (other i o d) = true ->
             worker_search_route other route route_index st = (st', None)).
Proof.
  intros scraper route route_index i st o d Hi Hok Hraise.
  assert (Hu : usable (scraper i o d) = false) by (rewrite Hraise; reflexivity).
  eexists. split; [exact (worker_stop scraper route route_index i st o d Hi Hok Hu)|].
  destruct (stopped_state route i st o d Hi) as (H1 & H2 & H3 & H4 & H5 & H6 & H7).
  repeat (split; [assumption|]).
  intros other Hsame Hbad.
  apply (worker_stop other route route_index i st o d Hi).
  - intros k ok dk Hk Hn. rewrite Hsame by exact Hk. apply Hok; assumption.
  - destruct (other i o d); [reflexivity|]. simpl in *. rewrite Hbad. reflexivity.
Qed.

Lemma C2_six_stops_second_segment_raises :
  exists st',
    worker_search_route second_raises six_stops 1 fresh = (st', None)
    /\ calls st' = [("DEL", "CAI"); ("CAI", "FRA")]
    /\ length (calls st') = 2
    /\ discarded_count st' = Some 1
    /\ completed_count st' = 0
    /\ failed_count st' = 0
    /\ is_route_completed six_stops st' = true
    /\ results_file st' = Missing
    /\ (forall other : Scraper,
           (forall k ok dk, k < 1 -> other k ok dk = second_raises k ok dk) ->
           discards (other 1 "CAI" "FRA") = true ->
           worker_search_route other six_stops 1 fresh = (st', None)).
Proof.
  apply (C2_raising_query_ends_route_as_discarded second_raises six_stops 1 1 fresh
           "CAI" "FRA").
  - reflexivity.
  - intros k ok dk Hk Hn.
    destruct k as [|k]; [reflexivity | inversion Hk as [|? Hk']; inversion Hk'].
  - reflexivity.
Defined.

(** The loop changes no counter. *)
Lemma search_segment_counters (scraper : Scraper) (route : Route) (i : nat)
      (from to : Stop) (st : State) :
  let st1 := fst (search_segment scraper route i from to st) in
  completed_count st1 = completed_count st
  /\ discarded_count st1 = discarded_count st
  /\ failed_count st1 = failed_count st.
Proof.
  unfold search_segment.
  destruct (scraper i _ _) as [|fr]; [repeat split|].
  destruct (gather_flights fr) as [|x all]; [repeat split|].
  destruct (cheapest_of _); repeat split.
Qed.

Lemma search_segments_counters (scraper : Scraper) (route : Route) :
  forall (stops : list Stop) (i : nat) route_flights total_cost st,
    let st1 := fst (search_segments scraper route i stops route_flights total_cost st) in
    completed_count st1 = completed_count st
    /\ discarded_count st1 = discarded_count st
    /\ failed_count st1 = failed_count st.
Proof.
  induction stops as [|from stops IH]; intros i rf total st; [repeat split|].
  destruct stops as [|to rest]; [repeat split|].
  rewrite search_segments_cons.
  pose proof (search_segment_counters scraper route i from to st) as Hs.
  destruct (search_segment scraper route i from to st) as [st1 [[entry price]|]].
  - simpl in Hs. destruct Hs as (H1 & H2 & H3).
    specialize (IH (S i) (rf ++ [entry]) (add total price) st1).
    simpl in IH. rewrite <- H1, <- H2, <- H3. exact IH.
  - exact Hs.
Qed.

Lemma save_result_counters (result : Result) (st : State) :
  completed_count (save_result_to_file result st) = completed_count st
  /\ discarded_count (save_result_to_file result st) = discarded_count st
  /\ failed_count (save_result_to_file result st) = failed_count st.
Proof.
  unfold save_result_to_file.
  destruct (results_file st) as [| |[l|]]; repeat split.
Qed.

Lemma worker_counters (scraper : Scraper) (route : Route) (route_index : nat)
      (st : State) :
  let st' := fst (worker_search_route scraper route route_index st) in
  match snd (worker_search_route scraper route route_index st) with
  | Some _ =>
      completed_count st' = completed_count st + 1
      /\ discarded_or_0 st' = discarded_or_0 st
      /\ failed_count st' = failed_count st
  | None =>
      completed_count st' = completed_count st
      /\ discarded_or_0 st' = discarded_or_0 st + 1
      /\ failed_count st' = failed_count st
  end.
Proof.
  unfold worker_search_route, search_route_flights.
  pose proof (search_segments_counters scraper route route 0 [] (PyInt 0) st) as Hs.
  destruct (search_segments scraper route 0 route [] (PyInt 0) st)
    as [st1 [[route_flights total_cost]|]];
    simpl in Hs; destruct Hs as (H1 & H2 & H3).
  - cbn [fst snd].
    destruct (save_result_counters
                (mkResult route_index route route_flights (Some total_cost) COMPLETE) st1)
      as (R1 & R2 & R3).
    unfold update_progress, discarded_or_0; cbn -[save_result_to_file].
    rewrite R1, R2, R3, H1, H2, H3. repeat split.
  - cbn [fst snd]. unfold update_progress, discarded_or_0; simpl.
    rewrite H1, H3. unfold discarded_or_0. rewrite H2. repeat split.
Qed.

(** C6: a route handled by a worker moves exactly one of the three counters
    up by one and leaves the other two alone, the completed counter when the
    route yields a result and the discarded counter when it does not; the
    pool thus counts every pending route once. *)
Theorem C6_one_counter_update_per_route :
  (forall (scraper : Scraper) (route : Route) (route_index : nat) (st : State),
      let st' := fst (worker_search_route scraper route route_index st) in
      match snd (worker_search_route scraper route route_index st) with
      | Some _ =>
          completed_count st' = completed_count st + 1
          /\ discarded_or_0 st' = discarded_or_0 st
          /\ failed_count st' = failed_count st
      | None =>
          completed_count st' = completed_count st
          /\ discarded_or_0 st' = discarded_or_0 st + 1
          /\ failed_count st' = failed_count st
      end)
  /\ (forall (env : nat -> Scraper) (pending : list (Route * nat))
             (results : list Result) (st : State),
         total_processed (fst (run_workers env pending results st))
         = total_processed st + length pending).
Proof.
  split; [exact worker_counters|].
  intros env pending. induction pending as [|[route route_index] rest IH];
    intros results st.
  - simpl. symmetry. apply Nat.add_0_r.
  - simpl run_workers.
    pose proof (worker_counters (env route_index) route route_index st) as Hw.
    destruct (worker_search_route (env route_index) route route_index st)
      as [st1 [result|]]; simpl in Hw; destruct Hw as (H1 & H2 & H3);
      rewrite IH; unfold total_processed; rewrite H1, H2, H3; simpl; lia.
Qed.

End RouteSearch.

(* ------------------------------------------------------------------ *)
(** ** Resuming from the progress file *)

Section Resume.

Import PyNum RoutePlanner FlightSearch Examples.

Lemma forallb_false {A : Type} (f : A -> bool) (l : list A) (x : A) :
  In x l -> f x = false -> forallb f l = false.
Proof.
  intros Hin Hx. destruct (forallb f l) eqn:E; [|reflexivity].
  rewrite forallb_forall in E. rewrite (E x Hin) in Hx. discriminate.
Qed.

Fixpoint pyval_eqb_eq (a b : pyval) : pyval_eqb a b = true -> a = b.
Proof.
  destruct a as [s|l|l], b as [t|m|m]; simpl; try discriminate.
  - intros H. apply String.eqb_eq in H. congruence.
  - intros H. f_equal. revert m H.
    induction l as [|x l IH]; intros [|y m] H; simpl in H; try discriminate.
    + reflexivity.
    + apply andb_true_iff in H. destruct H as [H1 H2].
      f_equal; [exact (pyval_eqb_eq x y H1) | exact (IH m H2)].
  - intros H. f_equal. revert m H.
    induction l as [|x l IH]; intros [|y m] H; simpl in H; try discriminate.
    + reflexivity.
    + apply andb_true_iff in H. destruct H as [H1 H2].
      f_equal; [exact (pyval_eqb_eq x y H1) | exact (IH m H2)].
Qed.

Lemma sig_eqb_eq (x : signature) : forall y, sig_eqb x y = true -> x = y.
Proof.
  induction x as [|v x IH]; intros [|w y] He; simpl in He; try discriminate.
  - reflexivity.
  - apply andb_true_iff in He. destruct He as [H1 H2].
    f_equal; [exact (pyval_eqb_eq v w H1) | exact (IH y H2)].
Qed.

Lemma sig_mem_in (x : signature) (l : list signature) : sig_mem x l = true -> In x l.
Proof.
  unfold sig_mem. intros H. apply existsb_exists in H.
  destruct H as (y & Hin & He).
  rewrite (sig_eqb_eq x y He). exact Hin.
Qed.

(** The signature of a route with a stop starts with a tuple, which the
    file gives back as a list. *)
Lemma signature_unhashable_after_load (route : Route) :
  route <> [] ->
  forallb hashable (map json_roundtrip (route_to_signature route)) = false.
Proof.
  intros Hne. unfold route_to_signature.
  pose proof (stable_sort_length PyList.triple_ltb
                (map (fun stop => (city stop, country_code stop, continent stop)) route))
    as Hlen.
  destruct (PyList.stable_sort PyList.triple_ltb _) as [|[[a b] c] l].
  - rewrite length_map in Hlen. destruct route; [contradiction | discriminate].
  - reflexivity.
Qed.

Lemma load_after_save (route : Route) (st : State) :
  route <> [] ->
  load_existing_progress (progress_file (save_progress (route_to_signature route) st)) = [].
Proof.
  intros Hne. unfold save_progress. cbn [progress_file load_existing_progress
                                           pd_completed_routes].
  rewrite (forallb_false _ _ (map json_roundtrip (route_to_signature route))).
  - reflexivity.
  - apply in_map.
    destruct (sig_mem (route_to_signature route) (completed_routes st)) eqn:E.
    + apply sig_mem_in, E.
    + apply in_or_app. right. left. reflexivity.
  - apply signature_unhashable_after_load, Hne.
Qed.

(** *** Within one process the in-memory set does make a second pass idle *)

Lemma filter_none {A : Type} (f : A -> bool) (l : list A) :
  (forall x, In x l -> f x = false) -> filter f l = [].
Proof.
  induction l as [|x l IH]; intros H; [reflexivity|].
  simpl. rewrite (H x (or_introl eq_refl)). apply IH.
  intros y Hy. apply H. right. exact Hy.
Qed.

Lemma save_progress_keeps (x y : signature) (st : State) :
  sig_mem y (completed_routes st) = true ->
  sig_mem y (completed_routes (save_progress x st)) = true.
Proof.
  intros H. unfold save_progress; simpl.
  destruct (sig_mem x (completed_routes st)); [exact H|].
  unfold sig_mem in *. rewrite existsb_app, H. reflexivity.
Qed.

Lemma search_segment_keeps (scraper : Scraper) (route : Route) (i : nat)
      (from to : Stop) (st : State) (y : signature) :
  sig_mem y (completed_routes st) = true ->
  sig_mem y (completed_routes (fst (search_segment scraper route i from to st))) = true.
Proof.
  intros H. unfold search_segment.
  destruct (scraper i _ _) as [|fr]; [apply save_progress_keeps, H|].
  destruct (gather_flights fr) as [|x all]; [apply save_progress_keeps, H|].
  destruct (cheapest_of _); [exact H | apply save_progress_keeps, H].
Qed.

Lemma search_segment_none (scraper : Scraper) (route : Route) (i : nat)
      (from to : Stop) (st : State) :
  snd (search_segment scraper route i from to st) = None ->
  is_route_completed route (fst (search_segment scraper route i from to st)) = true.
Proof.
  unfold search_segment, is_route_completed.
  destruct (scraper i _ _) as [|fr]; [intros _; apply save_progress_records|].
  destruct (gather_flights fr) as [|x all]; [intros _; apply save_progress_records|].
  destruct (cheapest_of _); [discriminate | intros _; apply save_progress_records].
Qed.

Lemma search_segments_keeps (scraper : Scraper) (route : Route) (y : signature) :
  forall (stops : list Stop) (i : nat) route_flights total_cost st,
    sig_mem y (completed_routes st) = true ->
    sig_mem y (completed_routes
                 (fst (search_segments scraper route i stops route_flights total_cost st)))
    = true.
Proof.
  induction stops as [|from stops IH]; intros i rf total st H; [exact H|].
  destruct stops as [|to rest]; [exact H|].
  rewrite search_segments_cons.
  pose proof (search_segment_keeps scraper route i from to st y H) as Hs.
  destruct (search_segment scraper route i from to st) as [st1 [[entry price]|]].
  - apply IH. exact Hs.
  - exact Hs.
Qed.

Lemma search_segments_none (scraper : Scraper) (route : Route) :
  forall (stops : list Stop) (i : nat) route_flights total_cost st,
    snd (search_segments scraper route i stops route_flights total_cost st) = None ->
    is_route_completed route
      (fst (search_segments scraper route i stops route_flights total_cost st)) = true.
Proof.
  induction stops as [|from stops IH]; intros i rf total st; [discriminate|].
  destruct stops as [|to rest]; [discriminate|].
  rewrite search_segments_cons.
  pose proof (search_segment_none scraper route i from to st) as Hs.
  destruct (search_segment scraper route i from to st) as [st1 [[entry price]|]].
  - apply IH.
  - intros _. apply Hs. reflexivity.
Qed.

Lemma update_progress_routes (success discarded : bool) (st : State) :
  completed_routes (update_progress success discarded st) = completed_routes st.
Proof. unfold update_progress. destruct success, discarded; reflexivity. Qed.

Lemma save_result_routes (result : Result) (st : State) :
  completed_routes (save_result_to_file result st) = completed_routes st.
Proof.
  unfold save_result_to_file. destruct (results_file st) as [| |[l|]]; reflexivity.
Qed.

(** Every path through the worker leaves the route recorded, and forgets
    none that was recorded before. *)
Lemma worker_records (scraper : Scraper) (route : Route) (route_index : nat)
      (st : State) :
  is_route_completed route (fst (worker_search_route scraper route route_index st)) = true
  /\ forall y, sig_mem y (completed_routes st) = true ->
               sig_mem y (completed_routes
                            (fst (worker_search_route scraper route route_index st)))
               = true.
Proof.
  unfold worker_search_route, search_route_flights.
  pose proof (search_segments_none scraper route route 0 [] (PyInt 0) st) as Hn.
  pose proof (fun y => search_segments_keeps scraper route y route 0 [] (PyInt 0) st) as Hk.
  destruct (search_segments scraper route 0 route [] (PyInt 0) st)
    as [st1 [[route_flights total_cost]|]]; cbn [fst snd] in *.
  - split.
    + unfold is_route_completed. rewrite update_progress_routes.
      apply save_progress_records.
    + intros y Hy. rewrite update_progress_routes.
      apply save_progress_keeps. rewrite save_result_routes. apply Hk, Hy.
  - split.
    + unfold is_route_completed in *. rewrite update_progress_routes.
      apply Hn. reflexivity.
    + intros y Hy. rewrite update_progress_routes. apply Hk, Hy.
Qed.

Lemma run_workers_records (env : nat -> Scraper) (pending : list (Route * nat)) :
  forall results st,
    (forall route route_index, In (route, route_index) pending ->
        is_route_completed route (fst (run_workers env pending results st)) = true)
    /\ (forall y, sig_mem y (completed_routes st) = true ->
                  sig_mem y (completed_routes (fst (run_workers env pending results st)))
                  = true).
Proof.
  induction pending as [|[r idx] rest IH]; intros results st.
  - split; [intros ? ? []|]. intros y Hy. exact Hy.
  - simpl run_workers.
    destruct (worker_records (env idx) r idx st) as [Hr Hk].
    destruct (worker_search_route (env idx) r idx st) as [st1 [result|]];
      cbn [fst] in *.
    + destruct (IH (results ++ [result]) st1) as [IH1 IH2]. split.
      * intros route route_index [E|Hin].
        -- injection E as <- <-. apply IH2. exact Hr.
        -- apply (IH1 route route_index Hin).
      * intros y Hy. apply IH2, Hk, Hy.
    + destruct (IH results st1) as [IH1 IH2]. split.
      * intros route route_index [E|Hin].
        -- injection E as <- <-. apply IH2. exact Hr.
        -- apply (IH1 route route_index Hin).
      * intros y Hy. apply IH2, Hk, Hy.
Qed.

Lemma run_workers_limit (env : nat -> Scraper) (pending : list (Route * nat)) :
  forall results st,
    max_routes_to_search (fst (run_workers env pending results st))
    = max_routes_to_search st.
Proof.
  assert (Hseg : forall scraper route stops i rf total st,
             max_routes_to_search (fst (search_segments scraper route i stops rf total st))
             = max_routes_to_search st).
  { intros scraper route. induction stops as [|from stops IH]; intros i rf total st;
      [reflexivity|].
    destruct stops as [|to rest]; [reflexivity|].
    rewrite search_segments_cons.
    assert (H1 : max_routes_to_search (fst (search_segment scraper route i from to st))
                 = max_routes_to_search st).
    { unfold search_segment. destruct (scraper i _ _) as [|fr]; [reflexivity|].
      destruct (gather_flights fr); [reflexivity|].
      destruct (cheapest_of _); reflexivity. }
    destruct (search_segment scraper route i from to st) as [st1 [[entry price]|]];
      cbn [fst] in *; [rewrite IH|]; exact H1. }
  induction pending as [|[r idx] rest IH]; intros results st; [reflexivity|].
  simpl run_workers.
  assert (Hw : max_routes_to_search (fst (worker_search_route (env idx) r idx st))
               = max_routes_to_search st).
  { unfold worker_search_route, search_route_flights.
    specialize (Hseg (env idx) r r 0 [] (PyInt 0) st).
    destruct (search_segments (env idx) r 0 r [] (PyInt 0) st)
      as [st1 [[route_flights total_cost]|]]; cbn [fst] in *.
    - unfold update_progress, save_progress, save_result_to_file; cbn.
      destruct (results_file st1) as [| |[l|]]; exact Hseg.
    - exact Hseg. }
  destruct (worker_search_route (env idx) r idx st) as [st1 [result|]];
    cbn [fst] in *; rewrite IH; exact Hw.
Qed.

(** A second pass of the same optimizer object over the same routes finds
    nothing pending: it makes no query and returns the results file. *)
Lemma second_pass_in_memory_is_idle (env env' : nat -> Scraper)
      (routes : list Route) (st : State) :
  let st1 := fst (search_all_routes_parallel env routes st) in
  search_all_routes_parallel env' routes st1 = (st1, read_results st1 []).
Proof.
  intros st1.
  assert (Hdone : forall route,
             In route (firstn (max_routes_to_search st) routes) ->
             is_route_completed route st1 = true).
  { intros route Hin. subst st1. unfold search_all_routes_parallel.
    destruct (pending_routes routes st) as [|p pending] eqn:E.
    - cbn [fst]. destruct (is_route_completed route st) eqn:C; [reflexivity|].
      exfalso.
      destruct (In_nth _ _ route Hin) as (n & Hn & Hnth).
      assert (Hp : In (route, S n) (pending_routes routes st)).
      { unfold pending_routes. apply filter_In. split; [|rewrite C; reflexivity].
        rewrite <- Hnth at 1.
        replace (S n) with (nth n (seq 1 (length (firstn (max_routes_to_search st) routes)))
                                0) by (rewrite seq_nth by exact Hn; reflexivity).
        rewrite <- combine_nth by (rewrite length_seq; reflexivity).
        apply nth_In. rewrite length_combine, length_seq, Nat.min_id. exact Hn. }
      rewrite E in Hp. destruct Hp.
    - rewrite <- E.
      destruct (run_workers env (pending_routes routes st) [] st) as [st2 results] eqn:R.
      cbn [fst].
      destruct (run_workers_records env (pending_routes routes st) [] st) as [H1 H2].
      rewrite R in H1, H2. cbn [fst] in H1, H2.
      destruct (is_route_completed route st) eqn:C; [apply H2, C|].
      destruct (In_nth _ _ route Hin) as (n & Hn & Hnth).
      apply (H1 route (S n)).
      unfold pending_routes. apply filter_In. split; [|rewrite C; reflexivity].
      rewrite <- Hnth at 1.
      replace (S n) with (nth n (seq 1 (length (firstn (max_routes_to_search st) routes)))
                              0) by (rewrite seq_nth by exact Hn; reflexivity).
      rewrite <- combine_nth by (rewrite length_seq; reflexivity).
      apply nth_In. rewrite length_combine, length_seq, Nat.min_id. exact Hn. }
  assert (Hmax : max_routes_to_search st1 = max_routes_to_search st).
  { subst st1. unfold search_all_routes_parallel.
    destruct (pending_routes routes st) as [|p pending] eqn:E; [reflexivity|].
    pose proof (run_workers_limit env (p :: pending) [] st) as Hl.
    destruct (run_workers env (p :: pending) [] st) as [st2 results]. exact Hl. }
  unfold search_all_routes_parallel.
  assert (Hnone : pending_routes routes st1 = []).
  { unfold pending_routes. rewrite Hmax. apply filter_none.
    intros [r idx] Hin. apply in_combine_l in Hin.
    rewrite (Hdone r Hin). reflexivity. }
  rewrite Hnone. reflexivity.
Qed.

(** C9 fails on the code.  The progress file gives the signatures back as
    tuples of lists, which cannot be hashed, so a new optimizer object starts
    from the empty set.  On the six-stop route with an unchanged scraper the
    first invocation makes five queries, records the route and stores one
    result; the second invocation, started on the files of the first, does
    not find the route recorded, repeats the same five queries and stores
    the same record a second time. *)
Theorem C9_second_run_starts_over :
  length (calls (fst first_run)) = 5
  /\ is_route_completed six_stops (fst first_run) = true
  /\ length (stored_records (fst first_run)) = 1
  /\ load_existing_progress (progress_file (fst first_run)) = []
  /\ is_route_completed six_stops
       (new_optimizer 1 (progress_file (fst first_run)) (results_file (fst first_run)))
     = false
  /\ calls (fst second_run) = calls (fst first_run)
  /\ length (stored_records (fst second_run)) = 2.
Proof. repeat split; vm_compute; reflexivity. Qed.

End Resume.

(* ------------------------------------------------------------------ *)
(** ** The route enumerator *)

Section Enumeration.

Import RoutePlanner Examples.

Variable eligible_countries : list (string * list string).
Variable major_cities : list (string * list string).
Variable easy_visa_countries : list string.
Variable shuffle : nat -> list string -> list string.

Abbreviation mapping :=
  (get_continent_city_mapping eligible_countries major_cities easy_visa_countries).
Abbreviation cities := (cities_in eligible_countries major_cities easy_visa_countries).

Lemma mapping_keys : map fst mapping = map fst eligible_countries.
Proof.
  unfold get_continent_city_mapping. rewrite map_map.
  apply map_ext. intros [cont codes]. reflexivity.
Qed.

Lemma product_length {A : Type} (ls : list (list A)) :
  forall comb, In comb (PyList.product ls) -> length comb = length ls.
Proof.
  induction ls as [|l ls IH]; intros comb H; simpl in H.
  - destruct H as [<-|[]]. reflexivity.
  - apply in_flat_map in H. destruct H as (x & _ & H).
    apply in_map_iff in H. destruct H as (c & <- & Hc).
    simpl. f_equal. apply IH, Hc.
Qed.

Lemma product_with_empty {A : Type} (ls : list (list A)) :
  In [] ls -> PyList.product ls = [].
Proof.
  induction ls as [|l ls IH]; intros H; [destruct H|].
  destruct H as [->|H]; [reflexivity|].
  simpl. rewrite (IH H). induction l as [|x l IHl]; [reflexivity | exact IHl].
Qed.

Lemma fold_mul_from_zero (l : list N) : fold_left N.mul l 0%N = 0%N.
Proof. induction l as [|x l IH]; [reflexivity | exact IH]. Qed.

Lemma fold_mul_with_zero (l : list N) :
  forall a, In 0%N l -> fold_left N.mul l a = 0%N.
Proof.
  induction l as [|x l IH]; intros a H; [destruct H|].
  destruct H as [->|H]; simpl.
  - rewrite N.mul_0_r. apply fold_mul_from_zero.
  - apply IH, H.
Qed.

Lemma combine_continents (order : list string) (comb : list CityInfo) :
  length comb = length order ->
  map continent (map (fun '(cont, c) => stop_of cont c) (combine order comb)) = order.
Proof.
  revert comb; induction order as [|cont order IH]; intros [|c comb] H;
    try discriminate; [reflexivity|].
  simpl. f_equal. apply IH. injection H as H. exact H.
Qed.

Lemma visit_length (attempt : nat) (continents : list string) :
  forall used,
    length (visit eligible_countries major_cities easy_visa_countries
                  attempt continents used) <= length continents.
Proof.
  induction continents as [|cont rest IH]; intros used; simpl; [apply le_n|].
  destruct (PyList.mem cont used); [apply Nat.le_le_succ_r, IH|].
  destruct (cities cont) as [|c0 l]; [apply Nat.le_le_succ_r, IH|].
  simpl. apply le_n_S, IH.
Qed.

(** A route with as many stops as continents were offered visits them all,
    in the order offered. *)
Lemma visit_full (attempt : nat) (continents : list string) :
  forall used,
    length (visit eligible_countries major_cities easy_visa_countries
                  attempt continents used) = length continents ->
    map continent (visit eligible_countries major_cities easy_visa_countries
                         attempt continents used) = continents.
Proof.
  induction continents as [|cont rest IH]; intros used; simpl; [reflexivity|].
  destruct (PyList.mem cont used).
  - intros H. pose proof (visit_length attempt rest used) as Hle.
    rewrite H in Hle. exfalso. exact (Nat.nle_succ_diag_l _ Hle).
  - destruct (cities cont) as [|c0 l].
    + intros H. pose proof (visit_length attempt rest used) as Hle.
      rewrite H in Hle. exfalso. exact (Nat.nle_succ_diag_l _ Hle).
    + simpl. intros H. injection H as H. f_equal. apply IH, H.
Qed.

Lemma dedupe_subset (routes : list Route) :
  forall seen route, In route (dedupe seen routes) -> In route routes.
Proof.
  induction routes as [|r rest IH]; intros seen route H; simpl in H; [exact H|].
  destruct (existsb _ seen).
  - right. exact (IH _ _ H).
  - destruct H as [<-|H]; [left; reflexivity | right; exact (IH _ _ H)].
Qed.

Lemma in_firstn {A : Type} (n : nat) (l : list A) (x : A) : In x (firstn n l) -> In x l.
Proof.
  intros H. rewrite <- (firstn_skipn n l). apply in_or_app. left. exact H.
Qed.

Hypothesis shuffle_permutes : forall seed l, Permutation (shuffle seed l) l.
Hypothesis six_continents :
  Permutation (map fst eligible_countries) Utils.REQUIRED_CONTINENTS.

Lemma available_length : length (map fst mapping) = NUM_CONTINENTS.
Proof.
  rewrite mapping_keys, (Permutation_length six_continents). reflexivity.
Qed.

Lemma sampled_routes_cover :
  exists routes,
    generate_optimal_routes eligible_countries major_cities easy_visa_countries shuffle
    = inr routes
    /\ forall route, In route routes ->
                     Permutation (map continent route) Utils.REQUIRED_CONTINENTS
                     /\ length route = NUM_CONTINENTS.
Proof.
  unfold generate_optimal_routes. rewrite available_length.
  rewrite Nat.ltb_irrefl. eexists. split; [reflexivity|].
  intros route H.
  apply in_firstn in H. unfold sort_by_score in H. apply stable_sort_in in H.
  apply dedupe_subset in H. apply filter_In in H. destruct H as [H Hlen].
  apply Nat.eqb_eq in Hlen. split; [|exact Hlen].
  apply in_map_iff in H. destruct H as (attempt & <- & _).
  unfold attempt_route in *.
  assert (Hs : length (shuffle attempt (map fst mapping)) = NUM_CONTINENTS).
  { rewrite (Permutation_length (shuffle_permutes _ _)). apply available_length. }
  rewrite firstn_all2 in * by (rewrite Hs; apply le_n).
  rewrite visit_full by (rewrite Hlen, Hs; reflexivity).
  apply perm_trans with (map fst mapping); [apply shuffle_permutes|].
  rewrite mapping_keys. exact six_continents.
Qed.

Lemma all_routes_cover :
  exists routes,
    generate_all_possible_combinations
      eligible_countries major_cities easy_visa_countries shuffle = inr routes
    /\ forall route, In route routes ->
                     Permutation (map continent route) Utils.REQUIRED_CONTINENTS
                     /\ length route = NUM_CONTINENTS.
Proof.
  unfold generate_all_possible_combinations. rewrite available_length.
  rewrite Nat.ltb_irrefl.
  destruct (100000 <? _)%N; [exact sampled_routes_cover|].
  eexists. split; [reflexivity|].
  intros route H. unfold sort_by_score in H. apply stable_sort_in in H.
  apply in_map_iff in H. destruct H as (comb & <- & H).
  apply product_length in H. rewrite length_map in H.
  split.
  - rewrite combine_continents by exact H.
    rewrite mapping_keys. exact six_continents.
  - rewrite length_map, length_combine, H, Nat.min_id. apply available_length.
Qed.

End Enumeration.

Section EnumeratorClaims.

Import RoutePlanner Examples.

(** C7: when the continents of the reference data are the six required
    ones, as they are in [utils.py], both the generator of all combinations
    and the sampling generator return a route list, and every route in it
    has six stops whose continents are the six required continents, each
    once. *)
Theorem C7_routes_visit_each_continent_once :
  forall (eligible_countries major_cities : list (string * list string))
         (easy_visa_countries : list string)
         (shuffle : nat -> list string -> list string),
    (forall seed l, Permutation (shuffle seed l) l) ->
    Permutation (map fst eligible_countries) Utils.REQUIRED_CONTINENTS ->
    (exists routes,
        generate_all_possible_combinations
          eligible_countries major_cities easy_visa_countries shuffle = inr routes
        /\ forall route, In route routes ->
                         Permutation (map continent route) Utils.REQUIRED_CONTINENTS
                         /\ length route = NUM_CONTINENTS)
    /\ (exists routes,
           generate_optimal_routes
             eligible_countries major_cities easy_visa_countries shuffle = inr routes
           /\ forall route, In route routes ->
                            Permutation (map continent route) Utils.REQUIRED_CONTINENTS
                            /\ length route = NUM_CONTINENTS).
Proof.
  intros eligible_countries major_cities easy_visa_countries shuffle Hs Hk.
  split.
  - exact (all_routes_cover _ _ _ _ Hs Hk).
  - exact (sampled_routes_cover _ _ _ _ Hs Hk).
Qed.

Lemma required_continents_of_utils :
  Permutation (map fst Utils.get_eligible_country_list) Utils.REQUIRED_CONTINENTS.
Proof.
  apply NoDup_Permutation.
  - repeat (constructor; [simpl; intuition discriminate|]). constructor.
  - repeat (constructor; [simpl; intuition discriminate|]). constructor.
  - intros x. simpl. intuition.
Qed.

Lemma C7_routes_of_the_reference_data :
  (exists routes,
      generate_all_possible_combinations
        Utils.get_eligible_country_list Utils.COUNTRY_MAJOR_CITIES
        Utils.EASY_VISA_COUNTRIES reversing_shuffle = inr routes
      /\ forall route, In route routes ->
                       Permutation (map continent route) Utils.REQUIRED_CONTINENTS
                       /\ length route = NUM_CONTINENTS)
  /\ (exists routes,
         generate_optimal_routes
           Utils.get_eligible_country_list Utils.COUNTRY_MAJOR_CITIES
           Utils.EASY_VISA_COUNTRIES reversing_shuffle = inr routes
         /\ forall route, In route routes ->
                          Permutation (map continent route) Utils.REQUIRED_CONTINENTS
                          /\ length route = NUM_CONTINENTS).
Proof.
  apply (C7_routes_visit_each_continent_once
           Utils.get_eligible_country_list Utils.COUNTRY_MAJOR_CITIES
           Utils.EASY_VISA_COUNTRIES reversing_shuffle).
  - intros seed l. apply Permutation_sym, Permutation_rev.
  - exact required_continents_of_utils.
Defined.

(** C5 fails on the code.  The guard counts the keys of the continent
    mapping, and the mapping has a key for every continent of the reference
    data even when its city list comes out empty: with six or more
    continents of which one has no eligible city, nothing is raised and the
    enumerator returns the empty route list. *)
Theorem C5_continent_without_cities_raises_nothing :
  forall (eligible_countries major_cities : list (string * list string))
         (easy_visa_countries : list string)
         (shuffle : nat -> list string -> list string) (cont : string),
    NUM_CONTINENTS <= length eligible_countries ->
    In cont (map fst eligible_countries) ->
    cities_in eligible_countries major_cities easy_visa_countries cont = [] ->
    generate_all_possible_combinations
      eligible_countries major_cities easy_visa_countries shuffle = inr [].
Proof.
  intros eligible_countries major_cities easy_visa_countries shuffle cont Hlen Hin Hc.
  unfold generate_all_possible_combinations.
  rewrite mapping_keys, length_map.
  destruct (Nat.ltb_spec (length eligible_countries) NUM_CONTINENTS) as [Hlt|_].
  - exfalso. exact (Nat.lt_irrefl _ (Nat.lt_le_trans _ _ _ Hlt Hlen)).
  - rewrite fold_mul_with_zero.
    + simpl. rewrite product_with_empty; [reflexivity|].
      apply in_map_iff. exists cont. split; [exact Hc | exact Hin].
    + apply in_map_iff. exists cont. split; [rewrite Hc; reflexivity | exact Hin].
Qed.

Lemma C5_no_city_in_oceania :
  cities_in Utils.get_eligible_country_list Utils.COUNTRY_MAJOR_CITIES
            easy_visa_without_australia "Oceania" = []
  /\ generate_all_possible_combinations
       Utils.get_eligible_country_list Utils.COUNTRY_MAJOR_CITIES
       easy_visa_without_australia reversing_shuffle = inr [].
Proof.
  split; [reflexivity|].
  apply (C5_continent_without_cities_raises_nothing
           Utils.get_eligible_country_list Utils.COUNTRY_MAJOR_CITIES
           easy_visa_without_australia reversing_shuffle "Oceania").
  - simpl. repeat constructor.
  - simpl. tauto.
  - reflexivity.
Defined.

End EnumeratorClaims.

(* ------------------------------------------------------------------ *)
(** ** Sorting under a total order *)

Section SortTotal.

Context {A : Type}.
Variable before : A -> A -> bool.

Hypothesis before_trans :
  forall a b c, before a b = true -> before b c = true -> before a c = true.
Hypothesis before_asym : forall a b, before a b = true -> before b a = false.
Hypothesis before_total :
  forall a b, before a b = false -> before b a = false -> a = b.

Lemma insert_insert (x y : A) (l : list A) :
  PyList.insert before x (PyList.insert before y l)
  = PyList.insert before y (PyList.insert before x l).
Proof.
  induction l as [|z l IH]; simpl.
  - destruct (before y x) eqn:Eyx, (before x y) eqn:Exy; try reflexivity.
    + rewrite (before_asym _ _ Eyx) in Exy. discriminate.
    + rewrite (before_total _ _ Exy Eyx). reflexivity.
  - destruct (before z y) eqn:Ezy, (before z x) eqn:Ezx; simpl;
      rewrite ?Ezy, ?Ezx.
    + f_equal. exact IH.
    + assert (Exy : before x y = true).
      { destruct (before x z) eqn:Exz.
        - exact (before_trans _ _ _ Exz Ezy).
        - rewrite (before_total _ _ Exz Ezx). exact Ezy. }
      rewrite Exy. simpl. rewrite ?Ezy. reflexivity.
    + assert (Eyx : before y x = true).
      { destruct (before y z) eqn:Eyz.
        - exact (before_trans _ _ _ Eyz Ezx).
        - rewrite (before_total _ _ Eyz Ezy). exact Ezx. }
      rewrite Eyx. simpl. rewrite ?Ezx. reflexivity.
    + destruct (before y x) eqn:Eyx, (before x y) eqn:Exy; simpl;
        rewrite ?Ezy, ?Ezx; try reflexivity.
      * rewrite (before_asym _ _ Eyx) in Exy. discriminate.
      * rewrite (before_total _ _ Exy Eyx). reflexivity.
Qed.

(** Under a total order the sorted list depends on the elements only, not
    on the order they came in. *)
Lemma stable_sort_permutation (l1 l2 : list A) :
  Permutation l1 l2 -> PyList.stable_sort before l1 = PyList.stable_sort before l2.
Proof.
  induction 1 as [|x l1 l2 _ IH|x y l|l1 l2 l3 _ IH1 _ IH2]; simpl.
  - reflexivity.
  - rewrite IH. reflexivity.
  - apply insert_insert.
  - rewrite IH1. exact IH2.
Qed.

End SortTotal.

(* ------------------------------------------------------------------ *)
(** ** The order of strings and of triples *)

Section StringOrder.

Lemma ltb_lt (a b : string) :
  String.ltb a b = true <-> OrderedTypeEx.String_as_OT.lt a b.
Proof.
  unfold String.ltb. rewrite <- OrderedTypeEx.String_as_OT.cmp_lt.
  unfold OrderedTypeEx.String_as_OT.cmp.
  destruct (String.compare a b); split; congruence.
Qed.

Lemma ltb_trans (a b c : string) :
  String.ltb a b = true -> String.ltb b c = true -> String.ltb a c = true.
Proof.
  rewrite !ltb_lt. apply OrderedTypeEx.String_as_OT.lt_trans.
Qed.

Lemma ltb_irrefl (a : string) : String.ltb a a = false.
Proof.
  destruct (String.ltb a a) eqn:E; [|reflexivity].
  apply ltb_lt in E. exfalso.
  exact (OrderedTypeEx.String_as_OT.lt_not_eq _ _ E eq_refl).
Qed.

Lemma ltb_asym (a b : string) : String.ltb a b = true -> String.ltb b a = false.
Proof.
  intros H. destruct (String.ltb b a) eqn:E; [|reflexivity].
  pose proof (ltb_trans _ _ _ H E) as Haa. rewrite ltb_irrefl in Haa. discriminate.
Qed.

Lemma ltb_total (a b : string) :
  String.ltb a b = false -> String.ltb b a = false -> a = b.
Proof.
  unfold String.ltb. rewrite (String.compare_antisym b a).
  destruct (String.compare a b) eqn:E; simpl; try discriminate.
  intros _ _. apply String.compare_eq_iff, E.
Qed.

Lemma triple_ltb_trans (a b c : string * string * string) :
  PyList.triple_ltb a b = true -> PyList.triple_ltb b c = true ->
  PyList.triple_ltb a c = true.
Proof.
  destruct a as [[a1 a2] a3], b as [[b1 b2] b3], c as [[c1 c2] c3].
  unfold PyList.triple_ltb.
  intros H1 H2.
  apply orb_true_iff in H1. apply orb_true_iff in H2. apply orb_true_iff.
  destruct H1 as [H1|H1], H2 as [H2|H2].
  - left. exact (ltb_trans _ _ _ H1 H2).
  - apply andb_true_iff in H2. destruct H2 as [E _].
    apply String.eqb_eq in E. subst. left. exact H1.
  - apply andb_true_iff in H1. destruct H1 as [E _].
    apply String.eqb_eq in E. subst. left. exact H2.
  - apply andb_true_iff in H1. destruct H1 as [E1 H1].
    apply andb_true_iff in H2. destruct H2 as [E2 H2].
    apply String.eqb_eq in E1. apply String.eqb_eq in E2. subst.
    right. rewrite String.eqb_refl. simpl.
    apply orb_true_iff in H1. apply orb_true_iff in H2. apply orb_true_iff.
    destruct H1 as [H1|H1], H2 as [H2|H2].
    + left. exact (ltb_trans _ _ _ H1 H2).
    + apply andb_true_iff in H2. destruct H2 as [E _].
      apply String.eqb_eq in E. subst. left. exact H1.
    + apply andb_true_iff in H1. destruct H1 as [E _].
      apply String.eqb_eq in E. subst. left. exact H2.
    + apply andb_true_iff in H1. destruct H1 as [E1 H1].
      apply andb_true_iff in H2. destruct H2 as [E2 H2].
      apply String.eqb_eq in E1. apply String.eqb_eq in E2. subst.
      right. rewrite String.eqb_refl. simpl. exact (ltb_trans _ _ _ H1 H2).
Qed.

Lemma triple_ltb_irrefl (a : string * string * string) : PyList.triple_ltb a a = false.
Proof.
  destruct a as [[a1 a2] a3]. unfold PyList.triple_ltb.
  rewrite !ltb_irrefl, !String.eqb_refl. reflexivity.
Qed.

Lemma triple_ltb_asym (a b : string * string * string) :
  PyList.triple_ltb a b = true -> PyList.triple_ltb b a = false.
Proof.
  intros H. destruct (PyList.triple_ltb b a) eqn:E; [|reflexivity].
  pose proof (triple_ltb_trans _ _ _ H E) as Haa.
  rewrite triple_ltb_irrefl in Haa. discriminate.
Qed.

Lemma triple_ltb_total (a b : string * string * string) :
  PyList.triple_ltb a b = false -> PyList.triple_ltb b a = false -> a = b.
Proof.
  destruct a as [[a1 a2] a3], b as [[b1 b2] b3]. unfold PyList.triple_ltb.
  intros H1 H2.
  apply orb_false_iff in H1. destruct H1 as [L1 H1].
  apply orb_false_iff in H2. destruct H2 as [L2 H2].
  pose proof (ltb_total _ _ L1 L2) as ->.
  rewrite String.eqb_refl in H1, H2. simpl in H1, H2.
  apply orb_false_iff in H1. destruct H1 as [M1 H1].
  apply orb_false_iff in H2. destruct H2 as [M2 H2].
  pose proof (ltb_total _ _ M1 M2) as ->.
  rewrite String.eqb_refl in H1, H2. simpl in H1, H2.
  pose proof (ltb_total _ _ H1 H2) as ->. reflexivity.
Qed.

End StringOrder.

(* ------------------------------------------------------------------ *)
(** ** Signatures and the resume key *)

Section Signatures.

Import PyNum RoutePlanner FlightSearch Examples.

Lemma signature_of_permutation (route1 route2 : Route) :
  Permutation route1 route2 -> route_to_signature route1 = route_to_signature route2.
Proof.
  intros H. unfold route_to_signature. f_equal.
  apply (stable_sort_permutation PyList.triple_ltb
           triple_ltb_trans triple_ltb_asym triple_ltb_total).
  apply Permutation_map. exact H.
Qed.

(** X1: the signature of a route does not depend on the order of its stops:
    two routes that visit the same stops in any order have the same
    signature, hence the same answer from [is_route_completed]. *)
Theorem X1_signature_ignores_stop_order :
  forall (route1 route2 : Route) (st : State),
    Permutation route1 route2 ->
    route_to_signature route1 = route_to_signature route2
    /\ is_route_completed route1 st = is_route_completed route2 st.
Proof.
  intros route1 route2 st H.
  pose proof (signature_of_permutation route1 route2 H) as E.
  split; [exact E|]. unfold is_route_completed. rewrite E. reflexivity.
Qed.

Lemma X1_reversed_six_stops :
  route_to_signature six_stops = route_to_signature (rev six_stops)
  /\ is_route_completed six_stops fresh = is_route_completed (rev six_stops) fresh.
Proof.
  apply (X1_signature_ignores_stop_order six_stops (rev six_stops) fresh).
  apply Permutation_rev.
Defined.

End Signatures.

(* ------------------------------------------------------------------ *)
(** ** More on the search of one route *)

Section RouteSearchMore.

Import PyNum RoutePlanner FlightSearch Examples Derived.

#[local] Opaque city_to_airport_code route_to_signature.

Lemma segment_codes_length (stops : list Stop) :
  length (segment_codes stops) = length stops - 1.
Proof.
  induction stops as [|from stops IH]; [reflexivity|].
  destruct stops as [|to rest]; [reflexivity|].
  change (segment_codes (from :: to :: rest))
    with ((city_to_airport_code (city from) (country_code from),
           city_to_airport_code (city to) (country_code to))
          :: segment_codes (to :: rest)).
  cbn [length] in *. rewrite IH. lia.
Qed.

Lemma cheapest_is_valid (all_flights : list Flight) (cheapest : Flight) :
  cheapest_of (filter_turkish_airlines_flights all_flights) = Some cheapest ->
  In cheapest all_flights /\ valid_flight cheapest = true.
Proof.
  unfold cheapest_of, py_min.
  destruct (filter_turkish_airlines_flights all_flights) as [|x l] eqn:F; [discriminate|].
  intros H. injection H as <-.
  pose proof (min_from_in x l) as Hin. rewrite <- F in Hin.
  apply filter_In in Hin. exact Hin.
Qed.

(** A usable answer, in full: the entry names the codes of the segment and
    holds an offer that passed the validator. *)
Lemma search_segment_entry (scraper : Scraper) (route : Route) (i : nat)
      (from to : Stop) (st : State) :
  usable (scraper i (city_to_airport_code (city from) (country_code from))
                    (city_to_airport_code (city to) (country_code to))) = true ->
  exists entry,
    search_segment scraper route i from to st
    = (record_call (city_to_airport_code (city from) (country_code from))
                   (city_to_airport_code (city to) (country_code to)) st,
       Some (entry, chosen_price entry))
    /\ s_origin entry = city_to_airport_code (city from) (country_code from)
    /\ s_destination entry = city_to_airport_code (city to) (country_code to)
    /\ valid_flight (s_flight entry) = true.
Proof.
  unfold search_segment. intros H.
  destruct (scraper i _ _) as [|fr]; [discriminate H|].
  simpl in H. apply negb_true_iff in H.
  destruct (usable_step fr H) as (x & all & cheapest & G & C).
  rewrite G, C.
  exists (mkSegment (city from ++ " → " ++ city to)%string
                    (city_to_airport_code (city from) (country_code from))
                    (city_to_airport_code (city to) (country_code to)) cheapest).
  split; [reflexivity|].
  repeat split. exact (proj2 (cheapest_is_valid _ _ C)).
Qed.

Lemma search_segments_complete (scraper : Scraper) (route : Route) :
  forall (stops : list Stop) (i : nat) route_flights total_cost st,
    (forall k o d, nth_error (segment_codes stops) k = Some (o, d) ->
                   usable (scraper (i + k) o d) = true) ->
    exists entries,
      search_segments scraper route i stops route_flights total_cost st
      = (record_calls (segment_codes stops) st,
         Some (route_flights ++ entries,
               fold_left PyNum.add (map chosen_price entries) total_cost))
      /\ map (fun s => (s_origin s, s_destination s)) entries = segment_codes stops
      /\ Forall (fun s => valid_flight (s_flight s) = true) entries.
Proof.
  induction stops as [|from stops IH]; intros i rf total st Hok.
  - exists []. rewrite app_nil_r. repeat split. constructor.
  - destruct stops as [|to rest].
    + exists []. rewrite app_nil_r. repeat split. constructor.
    + rewrite search_segments_cons.
      pose proof (Hok 0 _ _ eq_refl) as H0. rewrite Nat.add_0_r in H0.
      destruct (search_segment_entry scraper route i from to st H0)
        as (entry & -> & Ho & Hd & Hv).
      destruct (IH (S i) (rf ++ [entry]) (PyNum.add total (chosen_price entry))
                   (record_call (city_to_airport_code (city from) (country_code from))
                      (city_to_airport_code (city to) (country_code to)) st))
        as (entries & -> & Hm & Hf).
      { intros k o d Hk. rewrite Nat.add_succ_l, <- Nat.add_succ_r.
        apply Hok. exact Hk. }
      exists (entry :: entries). rewrite <- app_assoc. split; [reflexivity|].
      split.
      * change (segment_codes (from :: to :: rest))
          with ((city_to_airport_code (city from) (country_code from),
                 city_to_airport_code (city to) (country_code to))
                :: segment_codes (to :: rest)).
        simpl map. rewrite Ho, Hd, Hm. reflexivity.
      * constructor; assumption.
Qed.

Lemma save_result_appends (result : Result) (st : State) :
  results_file st <> Stored JOther -> In result (stored_records (save_result_to_file result st)).
Proof.
  intros H. unfold save_result_to_file, stored_records, write_results.
  destruct (results_file st) as [| |[existing|]] eqn:E; cbn [results_file].
  - apply stable_sort_in. left. reflexivity.
  - apply stable_sort_in. left. reflexivity.
  - apply stable_sort_in. apply in_or_app. right. left. reflexivity.
  - contradiction.
Qed.

Lemma save_result_calls (result : Result) (st : State) :
  calls (save_result_to_file result st) = calls st.
Proof.
  unfold save_result_to_file. destruct (results_file st) as [| |[l|]]; reflexivity.
Qed.

(** X2: when every segment of a route has a usable offer, the worker makes
    the queries of all segments in order, returns a result whose flights are
    the segments in route order, each with an offer that passed the
    validator, whose total cost is the sum of the chosen prices taken from
    left to right starting at 0, counts the route as completed, records its
    signature, and stores the result unless the results file holds JSON that
    is not a list. *)
Theorem X2_complete_route :
  forall (scraper : Scraper) (route : Route) (route_index : nat) (st : State),
    (forall k o d, nth_error (segment_codes route) k = Some (o, d) ->
                   usable (scraper k o d) = true) ->
    exists st' result,
      worker_search_route scraper route route_index st = (st', Some result)
      /\ calls st' = calls st ++ segment_codes route
      /\ r_route result = route
      /\ r_status result = COMPLETE
      /\ map (fun s => (s_origin s, s_destination s)) (r_flights result)
         = segment_codes route
      /\ length (r_flights result) = length route - 1
      /\ Forall (fun s => valid_flight (s_flight s) = true) (r_flights result)
      /\ r_total_cost_inr result
         = Some (fold_left PyNum.add (map chosen_price (r_flights result)) (PyInt 0))
      /\ completed_count st' = completed_count st + 1
      /\ discarded_count st' = discarded_count st
      /\ failed_count st' = failed_count st
      /\ is_route_completed route st' = true
      /\ (results_file st <> Stored JOther -> In result (stored_records st')).
Proof.
  intros scraper route route_index st Hok.
  destruct (search_segments_complete scraper route route 0 [] (PyInt 0) st Hok)
    as (entries & Hs & Hm & Hv).
  unfold worker_search_route, search_route_flights. rewrite Hs. cbn [app].
  eexists. eexists. split; [reflexivity|].
  destruct (record_calls_frame (segment_codes route) st) as (F1 & F2 & F3 & F4 & F5).
  pose proof (save_result_counters
                (mkResult route_index route entries
                          (Some (fold_left PyNum.add (map chosen_price entries) (PyInt 0)))
                          COMPLETE)
                (record_calls (segment_codes route) st)) as (R1 & R2 & R3).
  unfold update_progress; cbn -[save_result_to_file save_progress record_calls].
  change (calls (save_progress ?x ?s)) with (calls s).
  change (completed_count (save_progress ?x ?s)) with (completed_count s).
  change (discarded_count (save_progress ?x ?s)) with (discarded_count s).
  change (failed_count (save_progress ?x ?s)) with (failed_count s).
  rewrite save_result_calls, record_calls_calls, R1, R2, R3, F1, F2, F3.
  repeat split; try assumption.
  - rewrite <- (length_map (fun s => (s_origin s, s_destination s))), Hm.
    apply segment_codes_length.
  - unfold is_route_completed. cbn [completed_routes]. apply save_progress_records.
  - intros Hf. unfold stored_records. cbn [results_file].
    change (results_file (save_progress ?x ?s)) with (results_file s).
    apply (save_result_appends _ (record_calls (segment_codes route) st)).
    rewrite F5. exact Hf.
Qed.

Lemma X2_six_stops_all_found :
  exists st' result,
    worker_search_route always_tk six_stops 1 fresh = (st', Some result)
    /\ calls st' = calls fresh ++ segment_codes six_stops
    /\ r_route result = six_stops
    /\ r_status result = COMPLETE
    /\ map (fun s => (s_origin s, s_destination s)) (r_flights result)
       = segment_codes six_stops
    /\ length (r_flights result) = length six_stops - 1
    /\ Forall (fun s => valid_flight (s_flight s) = true) (r_flights result)
    /\ r_total_cost_inr result
       = Some (fold_left PyNum.add (map chosen_price (r_flights result)) (PyInt 0))
    /\ completed_count st' = completed_count fresh + 1
    /\ discarded_count st' = discarded_count fresh
    /\ failed_count st' = failed_count fresh
    /\ is_route_completed six_stops st' = true
    /\ (results_file fresh <> Stored JOther -> In result (stored_records st')).
Proof.
  apply (X2_complete_route always_tk six_stops 1 fresh).
  intros k o d _. reflexivity.
Defined.

(** The segments of a route all have a usable answer, or one of them is
    the first that has none. *)
Lemma first_failing (P : nat -> string -> string -> bool)
      (codes : list (string * string)) :
  (forall k o d, nth_error codes k = Some (o, d) -> P k o d = true)
  \/ exists j o d,
      nth_error codes j = Some (o, d)
      /\ P j o d = false
      /\ forall k ok dk, k < j -> nth_error codes k = Some (ok, dk) -> P k ok dk = true.
Proof.
  revert P. induction codes as [|[o d] codes IH]; intros P.
  - left. intros [|k] o d H; discriminate H.
  - destruct (P 0 o d) eqn:E0.
    + destruct (IH (fun k => P (S k))) as [Hall | (j & oj & dj & Hj & Hbad & Hbefore)].
      * left. intros [|k] ok dk H.
        -- injection H as <- <-. exact E0.
        -- exact (Hall k ok dk H).
      * right. exists (S j), oj, dj. split; [exact Hj|]. split; [exact Hbad|].
        intros [|k] ok dk Hk H.
        -- injection H as <- <-. exact E0.
        -- apply (Hbefore k ok dk); [lia | exact H].
    + right. exists 0, o, d. split; [reflexivity|]. split; [exact E0|].
      intros k ok dk Hk. lia.
Qed.

(** X3: whatever the scraper answers, the queries a worker makes for a route
    are the queries of its first [k] segments, in route order and each once.
    Either every segment has a usable answer, all [len(route) - 1] segments
    are queried and a result is returned; or the last query made is that of
    the first segment without a usable answer (the client raised, or
    returned no offer that passes the validator), no segment after it is
    queried, and nothing is returned. *)
Theorem X3_calls_are_a_prefix_of_the_segments :
  forall (scraper : Scraper) (route : Route) (route_index : nat) (st : State),
    exists k,
      k <= length route - 1
      /\ calls (fst (worker_search_route scraper route route_index st))
         = calls st ++ firstn k (segment_codes route)
      /\ ((k = length route - 1
           /\ (forall j o d, nth_error (segment_codes route) j = Some (o, d) ->
                             usable (scraper j o d) = true)
           /\ exists result,
               snd (worker_search_route scraper route route_index st) = Some result)
          \/ (exists j o d,
                k = S j
                /\ nth_error (segment_codes route) j = Some (o, d)
                /\ usable (scraper j o d) = false
                /\ (forall j' o' d',
                       j' < j -> nth_error (segment_codes route) j' = Some (o', d') ->
                       usable (scraper j' o' d') = true)
                /\ snd (worker_search_route scraper route route_index st) = None)).
Proof.
  intros scraper route route_index st.
  destruct (first_failing (fun k o d => usable (scraper k o d)) (segment_codes route))
    as [Hall | (j & o & d & Hj & Hbad & Hbefore)].
  - exists (length route - 1). split; [apply le_n|].
    destruct (search_segments_complete scraper route route 0 [] (PyInt 0) st)
      as (entries & Hs & _ & _).
    { intros k ok dk Hk. simpl. exact (Hall k ok dk Hk). }
    unfold worker_search_route, search_route_flights. rewrite Hs. cbn [app fst snd].
    split.
    + unfold update_progress; cbn -[save_result_to_file save_progress record_calls].
      change (calls (save_progress ?x ?s)) with (calls s).
      rewrite save_result_calls, record_calls_calls.
      rewrite <- segment_codes_length, firstn_all. reflexivity.
    + left. split; [reflexivity|]. split; [exact Hall|]. eexists. reflexivity.
  - exists (S j).
    assert (Hlt : j < length (segment_codes route))
      by (apply nth_error_Some; congruence).
    rewrite segment_codes_length in Hlt.
    split; [lia|].
    rewrite (worker_stop scraper route route_index j st o d Hj Hbefore Hbad).
    cbn [fst snd]. split.
    + destruct (stopped_state route j st o d Hj) as (Hc & _).
      rewrite Hc, Nat.add_1_r. reflexivity.
    + right. exists j, o, d. repeat split; assumption.
Qed.

(** X4: a route of fewer than two stops has no segment: the worker makes no
    query, returns it as a complete route without flights at total cost 0,
    counts it as completed and records its signature. *)
Theorem X4_route_without_segments_is_complete :
  forall (scraper : Scraper) (route : Route) (route_index : nat) (st : State),
    length route <= 1 ->
    exists st',
      worker_search_route scraper route route_index st
      = (st', Some (mkResult route_index route [] (Some (PyInt 0)) COMPLETE))
      /\ calls st' = calls st
      /\ completed_count st' = completed_count st + 1
      /\ is_route_completed route st' = true.
Proof.
  intros scraper route route_index st H.
  exists (update_progress true false
            (save_progress (route_to_signature route)
               (save_result_to_file
                  (mkResult route_index route [] (Some (PyInt 0)) COMPLETE) st))).
  split.
  - destruct route as [|a [|b rest]]; [reflexivity | reflexivity|].
    simpl in H. exfalso. exact (Nat.nle_succ_0 _ (le_S_n _ _ H)).
  - unfold update_progress; cbn -[save_result_to_file save_progress].
    change (calls (save_progress ?x ?s)) with (calls s).
    change (completed_count (save_progress ?x ?s)) with (completed_count s).
    rewrite save_result_calls.
    rewrite (proj1 (save_result_counters _ st)).
    repeat split.
    unfold is_route_completed. cbn [completed_routes]. apply save_progress_records.
Qed.

Lemma X4_single_stop_route :
  exists st',
    worker_search_route always_tk [mkStop "Asia" "IN" "Delhi" true] 1 fresh
    = (st', Some (mkResult 1 [mkStop "Asia" "IN" "Delhi" true] [] (Some (PyInt 0))
                           COMPLETE))
    /\ calls st' = calls fresh
    /\ completed_count st' = completed_count fresh + 1
    /\ is_route_completed [mkStop "Asia" "IN" "Delhi" true] st' = true.
Proof.
  apply (X4_route_without_segments_is_complete
           always_tk [mkStop "Asia" "IN" "Delhi" true] 1 fresh).
  apply le_n.
Defined.

(** X5: the tasks handed to the pool are the routes among the first
    [max_routes_to_search] of the list that are not recorded as completed,
    each with its 1-based position in the list, also when routes before it
    are skipped. *)
Theorem X5_pending_routes_are_the_unresolved_first_routes :
  forall (routes : list Route) (st : State) (route : Route) (route_index : nat),
    In (route, route_index) (pending_routes routes st)
    <-> (1 <= route_index <= max_routes_to_search st
         /\ nth_error routes (route_index - 1) = Some route
         /\ is_route_completed route st = false).
Proof.
  intros routes st route route_index. unfold pending_routes.
  rewrite filter_In, negb_true_iff.
  set (considered := firstn (max_routes_to_search st) routes).
  assert (Hc : In (route, route_index) (combine considered (seq 1 (length considered)))
               <-> 1 <= route_index <= max_routes_to_search st
                   /\ nth_error routes (route_index - 1) = Some route).
  { split.
    - intros Hin.
      destruct (In_nth _ _ (route, route_index) Hin) as (n & Hn & Hnth).
      rewrite length_combine, length_seq, Nat.min_id in Hn.
      rewrite combine_nth in Hnth by (rewrite length_seq; reflexivity).
      injection Hnth as H1 H2.
      rewrite seq_nth in H2 by exact Hn. subst route_index.
      assert (Hle : length considered <= max_routes_to_search st)
        by (unfold considered; apply firstn_le_length).
      split; [lia|].
      replace (1 + n - 1) with n by lia.
      assert (Hn' := Hn). unfold considered in Hn'. rewrite length_firstn in Hn'.
      rewrite <- (firstn_skipn (max_routes_to_search st) routes).
      rewrite nth_error_app1 by (rewrite length_firstn; exact Hn').
      fold considered. rewrite <- H1. apply nth_error_nth'. exact Hn.
    - intros [[H1 H2] Hn].
      assert (Hlt : route_index - 1 < length considered).
      { unfold considered. rewrite length_firstn.
        apply Nat.min_glb_lt; [lia|]. apply nth_error_Some. congruence. }
      assert (Hr : nth (route_index - 1) considered route = route).
      { unfold considered.
        rewrite <- (firstn_skipn (max_routes_to_search st) routes) in Hn.
        rewrite nth_error_app1 in Hn by exact Hlt.
        apply nth_error_nth. exact Hn. }
      replace (route, route_index)
        with (nth (route_index - 1) (combine considered (seq 1 (length considered)))
                  (route, 0)).
      + apply nth_In. rewrite length_combine, length_seq, Nat.min_id. exact Hlt.
      + rewrite combine_nth by (rewrite length_seq; reflexivity).
        rewrite Hr, seq_nth by exact Hlt. f_equal. lia. }
  rewrite Hc. tauto.
Qed.

End RouteSearchMore.

(* ------------------------------------------------------------------ *)
(** ** More on the progress record *)

Section ProgressMore.

Import PyNum RoutePlanner FlightSearch Examples.

(** The progress file a worker leaves mirrors the set in memory. *)
Lemma worker_progress_file (scraper : Scraper) (route : Route) (route_index : nat)
      (st : State) :
  exists progress_data,
    progress_file (fst (worker_search_route scraper route route_index st))
    = Stored progress_data
    /\ pd_completed_routes progress_data
       = map (map json_roundtrip)
             (completed_routes (fst (worker_search_route scraper route route_index st)))
    /\ pd_total_completed progress_data
       = length (completed_routes (fst (worker_search_route scraper route route_index st))).
Proof.
  unfold worker_search_route, search_route_flights.
  assert (Hseg : forall stops i rf total s,
             snd (search_segments scraper route i stops rf total s) = None ->
             exists pd,
               progress_file (fst (search_segments scraper route i stops rf total s))
               = Stored pd
               /\ pd_completed_routes pd
                  = map (map json_roundtrip)
                        (completed_routes
                           (fst (search_segments scraper route i stops rf total s)))
               /\ pd_total_completed pd
                  = length (completed_routes
                              (fst (search_segments scraper route i stops rf total s)))).
  { induction stops as [|from stops IH]; intros i rf total s; [discriminate|].
    destruct stops as [|to rest]; [discriminate|].
    rewrite search_segments_cons.
    assert (Hone : snd (search_segment scraper route i from to s) = None ->
                   exists pd,
                     progress_file (fst (search_segment scraper route i from to s))
                     = Stored pd
                     /\ pd_completed_routes pd
                        = map (map json_roundtrip)
                              (completed_routes
                                 (fst (search_segment scraper route i from to s)))
                     /\ pd_total_completed pd
                        = length (completed_routes
                                    (fst (search_segment scraper route i from to s)))).
    { unfold search_segment.
      destruct (scraper i _ _) as [|fr];
        [intros _; eexists; repeat split|].
      destruct (gather_flights fr); [intros _; eexists; repeat split|].
      destruct (cheapest_of _); [discriminate | intros _; eexists; repeat split]. }
    destruct (search_segment scraper route i from to s) as [s1 [[entry price]|]].
    - apply IH.
    - intros _. apply Hone. reflexivity. }
  specialize (Hseg route 0 [] (PyInt 0) st).
  destruct (search_segments scraper route 0 route [] (PyInt 0) st)
    as [st1 [[route_flights total_cost]|]]; cbn [fst snd] in *.
  - eexists. repeat split.
  - destruct (Hseg eq_refl) as (pd & P1 & P2 & P3).
    exists pd. unfold update_progress; cbn. repeat split; assumption.
Qed.

(** X6: whatever the scraper answers, a worker leaves its route recorded as
    completed, every signature recorded before is still recorded, and the
    progress file it leaves lists the signatures of the set in memory with
    their count: the progress record only grows. *)
Theorem X6_worker_records_route_and_keeps_the_others :
  forall (scraper : Scraper) (route : Route) (route_index : nat) (st : State),
    let st' := fst (worker_search_route scraper route route_index st) in
    is_route_completed route st' = true
    /\ (forall other, is_route_completed other st = true ->
                      is_route_completed other st' = true)
    /\ exists progress_data,
        progress_file st' = Stored progress_data
        /\ pd_completed_routes progress_data
           = map (map json_roundtrip) (completed_routes st')
        /\ pd_total_completed progress_data = length (completed_routes st').
Proof.
  intros scraper route route_index st st'.
  destruct (worker_records scraper route route_index st) as [H1 H2].
  split; [exact H1|]. split; [intros other; apply H2|].
  apply worker_progress_file.
Qed.

(** X8: a route processed by a worker is skipped afterwards in whatever
    order its stops are listed: no reordering of it is among the pending
    tasks of the same optimizer object. *)
Theorem X8_reordered_route_is_skipped :
  forall (scraper : Scraper) (route reordered : Route) (route_index : nat)
         (st : State) (routes : list Route) (position : nat),
    Permutation route reordered ->
    ~ In (reordered, position)
         (pending_routes routes (fst (worker_search_route scraper route route_index st))).
Proof.
  intros scraper route reordered route_index st routes position Hp Hin.
  unfold pending_routes in Hin. apply filter_In in Hin. destruct Hin as [_ Hn].
  apply negb_true_iff in Hn.
  unfold is_route_completed in Hn.
  rewrite <- (signature_of_permutation route reordered Hp) in Hn.
  pose proof (proj1 (worker_records scraper route route_index st)) as Hr.
  unfold is_route_completed in Hr. congruence.
Qed.

Lemma X8_reversed_six_stops_skipped :
  ~ In (rev six_stops, 1)
       (pending_routes [rev six_stops]
          (fst (worker_search_route second_empty six_stops 1 fresh))).
Proof.
  apply (X8_reordered_route_is_skipped second_empty six_stops (rev six_stops) 1 fresh
           [rev six_stops] 1).
  apply Permutation_rev.
Defined.

(** X9: what a new optimizer object loads from the progress file a worker
    left, after any route with at least one stop, is the empty set: the
    signatures come back as tuples of lists and building the set fails. *)
Theorem X9_progress_file_loads_as_empty_set :
  forall (scraper : Scraper) (route : Route) (route_index : nat) (st : State),
    route <> [] ->
    load_existing_progress
      (progress_file (fst (worker_search_route scraper route route_index st))) = [].
Proof.
  intros scraper route route_index st Hne.
  destruct (worker_progress_file scraper route route_index st) as (pd & -> & P & _).
  unfold load_existing_progress. rewrite P.
  rewrite (forallb_false _ _ (map json_roundtrip (route_to_signature route))).
  - reflexivity.
  - apply in_map. apply sig_mem_in.
    exact (proj1 (worker_records scraper route route_index st)).
  - apply signature_unhashable_after_load, Hne.
Qed.

Lemma X9_after_a_discarded_route :
  load_existing_progress
    (progress_file (fst (worker_search_route second_empty six_stops 1 fresh))) = [].
Proof.
  apply (X9_progress_file_loads_as_empty_set second_empty six_stops 1 fresh).
  discriminate.
Defined.

Lemma in_sig_mem (x : signature) (l : list signature) : In x l -> sig_mem x l = true.
Proof.
  intros H. unfold sig_mem. apply existsb_exists. exists x.
  split; [exact H | apply sig_eqb_refl].
Qed.

(** X10: [save_progress] treats the recorded signatures as a set: a
    signature already recorded is not added again, a new one is added at
    the end, and a record without repetitions stays without repetitions. *)
Theorem X10_save_progress_keeps_a_set :
  forall (route_signature : signature) (st : State),
    (In route_signature (completed_routes st) ->
     completed_routes (save_progress route_signature st) = completed_routes st)
    /\ (~ In route_signature (completed_routes st) ->
        completed_routes (save_progress route_signature st)
        = completed_routes st ++ [route_signature])
    /\ (NoDup (completed_routes st) ->
        NoDup (completed_routes (save_progress route_signature st))).
Proof.
  intros x st. unfold save_progress; cbn [completed_routes].
  destruct (sig_mem x (completed_routes st)) eqn:E.
  - split; [reflexivity|]. split; [|tauto].
    intros H. exfalso. apply H. apply sig_mem_in, E.
  - split; [|split; [reflexivity|]].
    + intros H. rewrite (in_sig_mem _ _ H) in E. discriminate.
    + intros H. apply NoDup_app; [exact H | repeat constructor; intros [] |].
      intros y Hy [<-|[]]. rewrite (in_sig_mem _ _ Hy) in E. discriminate.
Qed.

Lemma X10_signature_saved_twice :
  completed_routes (save_progress (route_to_signature six_stops)
                      (save_progress (route_to_signature six_stops) fresh))
  = completed_routes (save_progress (route_to_signature six_stops) fresh).
Proof.
  apply (proj1 (X10_save_progress_keeps_a_set
                  (route_to_signature six_stops)
                  (save_progress (route_to_signature six_stops) fresh))).
  vm_compute. left. reflexivity.
Defined.

Lemma run_workers_processed (env : nat -> Scraper) (pending : list (Route * nat)) :
  forall results st,
    total_processed (fst (run_workers env pending results st))
    = total_processed st + length pending.
Proof.
  induction pending as [|[route route_index] rest IH]; intros results st.
  - simpl. symmetry. apply Nat.add_0_r.
  - simpl run_workers.
    pose proof (worker_counters (env route_index) route route_index st) as Hw.
    destruct (worker_search_route (env route_index) route route_index st)
      as [st1 [result|]]; simpl in Hw; destruct Hw as (H1 & H2 & H3);
      rewrite IH; unfold total_processed; rewrite H1, H2, H3; simpl; lia.
Qed.

(** X7: a second pass of the same optimizer object over the same routes
    finds nothing pending, whatever the scrapers would answer: it makes no
    query, changes nothing and returns what the results file holds. *)
Theorem X7_second_pass_of_the_same_object_is_idle :
  forall (env env' : nat -> Scraper) (routes : list Route) (st : State),
    let st1 := fst (search_all_routes_parallel env routes st) in
    pending_routes routes st1 = []
    /\ search_all_routes_parallel env' routes st1 = (st1, read_results st1 []).
Proof.
  intros env env' routes st st1.
  pose proof (second_pass_in_memory_is_idle env env' routes st) as H.
  cbv zeta in H. fold st1 in H. split; [|exact H].
  unfold search_all_routes_parallel in H.
  destruct (pending_routes routes st1) as [|p pending] eqn:E; [reflexivity|].
  exfalso.
  pose proof (run_workers_processed env' (p :: pending) [] st1) as Hrun.
  destruct (run_workers env' (p :: pending) [] st1) as [st2 results].
  injection H as H _. cbn [fst] in Hrun. rewrite H in Hrun. simpl in Hrun. lia.
Qed.

End ProgressMore.

(* ------------------------------------------------------------------ *)
(** ** The cheapest offer *)

Section Cheapest.

Import PyStr PyNum FlightSearch Examples MoreExamples.

Lemma ext_lt_le_trans (a b c : ext) :
  ext_lt a b = true -> ext_lt c b = false -> ext_lt a c = true.
Proof.
  destruct a as [|x|], b as [|y|], c as [|z|]; try (simpl; congruence).
  rewrite ext_lt_fin_false, !ext_lt_fin. apply Qlt_le_trans.
Qed.

Lemma lt_le_trans (a b c : pynum) :
  PyNum.lt a b = true -> PyNum.le b c = true -> PyNum.lt a c = true.
Proof.
  unfold PyNum.le, PyNum.lt. destruct (value a), (value b), (value c); try discriminate.
  rewrite negb_true_iff. apply ext_lt_le_trans.
Qed.

Lemma le_refl (a : pynum) : is_nan a = false -> PyNum.le a a = true.
Proof.
  intros H. apply not_lt_le; try exact H.
  destruct (PyNum.lt a a) eqn:E; [|reflexivity].
  rewrite (lt_asym _ _ E) in E. discriminate.
Qed.

(** Where [min] stops: the offers before the chosen one cost strictly more,
    the offers after it cost at least as much. *)
Lemma min_from_position (rest : list Flight) :
  forall best,
    (forall x, In x (best :: rest) -> is_nan (price_key x) = false) ->
    exists l1 l2,
      best :: rest = l1 ++ min_from price_key best rest :: l2
      /\ (forall x, In x l1 ->
                    PyNum.lt (price_key (min_from price_key best rest)) (price_key x) = true)
      /\ (forall x, In x l2 ->
                    PyNum.le (price_key (min_from price_key best rest)) (price_key x) = true).
Proof.
  induction rest as [|x rest IH]; intros best Hnan.
  - exists [], []. repeat split; intros ? [].
  - simpl min_from. destruct (PyNum.lt (price_key x) (price_key best)) eqn:E.
    + destruct (IH x) as (l1 & l2 & Hd & H1 & H2).
      { intros y Hy. apply Hnan. right. exact Hy. }
      exists (best :: l1), l2. split; [simpl; f_equal; exact Hd|].
      split; [|exact H2].
      intros y [<-|Hy]; [|apply H1, Hy].
      destruct l1 as [|z l1].
      * injection Hd as Hx _. rewrite <- Hx. exact E.
      * injection Hd as Hz _. subst z.
        exact (lt_trans _ _ _ (H1 x (or_introl eq_refl)) E).
    + destruct (IH best) as (l1 & l2 & Hd & H1 & H2).
      { intros y [<-|Hy]; apply Hnan; [left; reflexivity | right; right; exact Hy]. }
      assert (Hle : PyNum.le (price_key best) (price_key x) = true).
      { apply not_lt_le; [apply Hnan; right; left; reflexivity
                         | apply Hnan; left; reflexivity | exact E]. }
      destruct l1 as [|z l1].
      * injection Hd as Hb Hr.
        exists [], (x :: l2).
        split; [simpl; f_equal; [exact Hb | f_equal; exact Hr]|].
        split; [intros ? []|].
        intros y [<-|Hy]; [rewrite <- Hb; exact Hle | apply H2, Hy].
      * injection Hd as Hz Hr. subst z.
        exists (best :: x :: l1), l2.
        split; [simpl; do 2 f_equal; exact Hr|].
        split; [|exact H2].
        intros y [<-|[<-|Hy]].
        -- apply H1. left. reflexivity.
        -- exact (lt_le_trans _ _ _ (H1 best (or_introl eq_refl)) Hle).
        -- apply H1. right. exact Hy.
Qed.

(** X11: among offers whose prices are not NaN, the offer chosen as cheapest
    is one of them, no offer costs less, and among offers of the same least
    price it is the first: every offer listed before it costs strictly
    more.  An empty list has no cheapest offer. *)
Theorem X11_cheapest_is_first_minimum :
  cheapest_of [] = None
  /\ forall (valid_flights : list Flight),
      valid_flights <> [] ->
      (forall x, In x valid_flights -> is_nan (price_key x) = false) ->
      exists cheapest before after,
        cheapest_of valid_flights = Some cheapest
        /\ valid_flights = before ++ cheapest :: after
        /\ (forall x, In x valid_flights ->
                      PyNum.le (price_key cheapest) (price_key x) = true)
        /\ (forall x, In x before ->
                      PyNum.lt (price_key cheapest) (price_key x) = true).
Proof.
  split; [reflexivity|].
  intros valid_flights Hne Hnan.
  destruct valid_flights as [|best rest]; [contradiction|].
  destruct (min_from_position rest best Hnan) as (l1 & l2 & Hd & H1 & H2).
  exists (min_from price_key best rest), l1, l2.
  split; [reflexivity|]. split; [exact Hd|]. split; [|exact H1].
  intros x Hx. rewrite Hd in Hx. apply in_app_or in Hx.
  destruct Hx as [Hx|[<-|Hx]].
  - pose proof (H1 x Hx) as Hlt.
    destruct (lt_not_nan _ _ Hlt) as [Ha Hb].
    apply not_lt_le; [exact Hb | exact Ha | apply lt_asym, Hlt].
  - apply le_refl. apply Hnan. rewrite Hd. apply in_or_app. right. left. reflexivity.
  - apply H2, Hx.
Qed.

Lemma X11_cheapest_of_three :
  exists cheapest before after,
    cheapest_of [pricey_offer; tk_offer; plus_offer] = Some cheapest
    /\ [pricey_offer; tk_offer; plus_offer] = before ++ cheapest :: after
    /\ (forall x, In x [pricey_offer; tk_offer; plus_offer] ->
                  PyNum.le (price_key cheapest) (price_key x) = true)
    /\ (forall x, In x before ->
                  PyNum.lt (price_key cheapest) (price_key x) = true).
Proof.
  apply (proj2 X11_cheapest_is_first_minimum [pricey_offer; tk_offer; plus_offer]).
  - discriminate.
  - intros x [<-|[<-|[<-|[]]]]; vm_compute; reflexivity.
Defined.

End Cheapest.

(* ------------------------------------------------------------------ *)
(** ** The hub check of the validator *)

Section HubCheck.

Import PyStr PyNum FlightSearch Examples MoreExamples.

Lemma append_assoc (a b c : string) : ((a ++ b) ++ c = a ++ (b ++ c))%string.
Proof. induction a as [|x a IH]; simpl; [reflexivity | rewrite IH; reflexivity]. Qed.

Lemma contains_cons (n : string) (c : ascii) (s : string) :
  contains n s = true -> contains n (String c s) = true.
Proof.
  intros H. change (contains n (String c s))
    with (String.prefix n (String c s) || contains n s).
  rewrite H. apply orb_true_r.
Qed.

Lemma contains_app_r (n a b : string) :
  contains n b = true -> contains n (a ++ b) = true.
Proof.
  intros H. induction a as [|x a IH]; simpl; [exact H|].
  apply contains_cons, IH.
Qed.

Lemma contains_app_l (n a b : string) :
  contains n a = true -> contains n (a ++ b) = true.
Proof.
  induction a as [|x a IH]; intros H.
  - destruct n; [|discriminate H]. destruct b; reflexivity.
  - destruct (String.prefix n (String x a)) eqn:P.
    + destruct (prefix_split _ _ P) as [t Ht]. rewrite Ht, append_assoc.
      apply prefix_contains, prefix_app.
    + assert (Ha : contains n a = true).
      { simpl in H. simpl in P. rewrite P in H. exact H. }
      simpl String.append. apply contains_cons, IH, Ha.
Qed.

Lemma contains_join (n sep e : string) (l : list string) :
  In e l -> contains n e = true -> contains n (join sep l) = true.
Proof.
  intros Hin He. induction l as [|p l IH]; [destruct Hin|].
  destruct l as [|p' l].
  - destruct Hin as [-> | []]. exact He.
  - change (join sep (p :: p' :: l)) with (p ++ sep ++ join sep (p' :: l))%string.
    destruct Hin as [-> | Hin].
    + apply contains_app_l, He.
    + apply contains_app_r, contains_app_r, IH, Hin.
Qed.

Lemma upper_app (a b : string) : upper (a ++ b) = (upper a ++ upper b)%string.
Proof.
  unfold upper. induction a as [|x a IH]; simpl; [reflexivity | rewrite IH; reflexivity].
Qed.

Lemma upper_char_is (c : ascii) (C : ascii) :
  (C = "I" \/ C = "S" \/ C = "T")%char ->
  upper_char c = C -> c = C \/ c = lower_char C.
Proof.
  intros [-> | [-> | ->]];
    destruct c as [[] [] [] [] [] [] [] []]; vm_compute; intros H;
      try discriminate H; auto.
Qed.

(** The letters of the hub code are not touched by the escapes of [repr]. *)
Lemma escape_hub_letters (quote c1 c2 c3 : ascii) (s : string) :
  quote = squote \/ quote = dquote ->
  upper_char c1 = "I"%char -> upper_char c2 = "S"%char -> upper_char c3 = "T"%char ->
  escape quote (String c1 (String c2 (String c3 s)))
  = String c1 (String c2 (String c3 (escape quote s))).
Proof.
  intros Hq H1 H2 H3.
  destruct (upper_char_is c1 "I" (or_introl eq_refl) H1) as [-> | ->];
    destruct (upper_char_is c2 "S" (or_intror (or_introl eq_refl)) H2) as [-> | ->];
    destruct (upper_char_is c3 "T" (or_intror (or_intror eq_refl)) H3) as [-> | ->];
    destruct Hq as [-> | ->]; reflexivity.
Qed.

Lemma escape_cons (quote c : ascii) (s : string) :
  exists pre, escape quote (String c s) = (pre ++ escape quote s)%string.
Proof.
  simpl.
  destruct (Ascii.eqb c quote || Ascii.eqb c backslash);
    [exists (String backslash (String c EmptyString)); reflexivity|].
  destruct (Ascii.eqb c "009");
    [exists (String backslash (String "t" EmptyString)); reflexivity|].
  destruct (Ascii.eqb c "010");
    [exists (String backslash (String "n" EmptyString)); reflexivity|].
  destruct (Ascii.eqb c "013");
    [exists (String backslash (String "r" EmptyString)); reflexivity|].
  destruct ((code c <? 32)%N || (code c =? 127)%N).
  - exists (String backslash
              (String "x" (String (hex_digit (code c / 16))
                                  (String (hex_digit (code c mod 16)) EmptyString)))).
    reflexivity.
  - exists (String c EmptyString). reflexivity.
Qed.

Lemma prefix_cons (a b : ascii) (n s : string) :
  String.prefix (String a n) (String b s) = true <-> a = b /\ String.prefix n s = true.
Proof.
  change (String.prefix (String a n) (String b s))
    with (if ascii_dec a b then String.prefix n s else false).
  destruct (ascii_dec a b) as [e|ne]; split.
  - intros H. split; assumption.
  - intros [_ H]. exact H.
  - discriminate.
  - intros [e _]. contradiction.
Qed.

Lemma prefix_empty (s : string) : String.prefix EmptyString s = true.
Proof. destruct s; reflexivity. Qed.

Lemma upper_cons (c : ascii) (s : string) :
  upper (String c s) = String (upper_char c) (upper s).
Proof. reflexivity. Qed.

Lemma contains_hub_escape (quote : ascii) (s : string) :
  quote = squote \/ quote = dquote ->
  contains "IST" (upper s) = true -> contains "IST" (upper (escape quote s)) = true.
Proof.
  intros Hq. induction s as [|c s IH]; intros H; [discriminate H|].
  destruct (String.prefix "IST" (upper (String c s))) eqn:P.
  - rewrite upper_cons in P. apply prefix_cons in P. destruct P as [E1 P].
    destruct s as [|c2 s]; [discriminate P|].
    rewrite upper_cons in P. apply prefix_cons in P. destruct P as [E2 P].
    destruct s as [|c3 s]; [discriminate P|].
    rewrite upper_cons in P. apply prefix_cons in P. destruct P as [E3 _].
    rewrite (escape_hub_letters quote c c2 c3 s Hq (eq_sym E1) (eq_sym E2) (eq_sym E3)).
    apply prefix_contains. rewrite !upper_cons, <- E1, <- E2, <- E3.
    apply prefix_cons. split; [reflexivity|].
    apply prefix_cons. split; [reflexivity|].
    apply prefix_cons. split; [reflexivity|]. apply prefix_empty.
  - assert (Hs : contains "IST" (upper s) = true).
    { change (contains "IST" (upper (String c s)))
        with (String.prefix "IST" (upper (String c s)) || contains "IST" (upper s)) in H.
      rewrite P in H. exact H. }
    destruct (escape_cons quote c s) as [pre ->].
    rewrite upper_app. apply contains_app_r, IH, Hs.
Qed.

Lemma contains_hub_repr (s : string) :
  contains "IST" (upper s) = true -> contains "IST" (upper (repr_str s)) = true.
Proof.
  intros H. unfold repr_str.
  set (quote := if contains (String squote EmptyString) s
                   && negb (contains (String dquote EmptyString) s)
                then dquote else squote).
  assert (Hq : quote = squote \/ quote = dquote)
    by (subst quote; destruct (_ && _); auto).
  change (String quote (escape quote s ++ String quote EmptyString)%string)
    with (String quote EmptyString ++ (escape quote s ++ String quote EmptyString))%string.
  rewrite !upper_app. apply contains_app_r, contains_app_l.
  apply contains_hub_escape; assumption.
Qed.

Lemma upper_join (sep : string) (l : list string) :
  upper (join sep l) = join (upper sep) (map upper l).
Proof.
  induction l as [|p l IH]; [reflexivity|].
  destruct l as [|p' l]; [reflexivity|].
  change (join sep (p :: p' :: l)) with (p ++ sep ++ join sep (p' :: l))%string.
  rewrite !upper_app, IH. reflexivity.
Qed.

(** An entry of the dict whose text mentions the hub makes the text of the
    whole dict mention it. *)
Lemma hub_in_entry (fl : Flight) (key s : string) :
  In (repr_str key ++ ": " ++ repr_str s)%string
     (repr_field repr_str "departure_time" (f_departure_time fl)
      ++ repr_field repr_str "arrival_time" (f_arrival_time fl)
      ++ repr_field repr_str "airline" (f_airline fl)
      ++ repr_field repr_str "duration" (f_duration fl)
      ++ repr_field repr_stops "stops" (f_stops fl)
      ++ repr_field repr_str "emissions" (f_emissions fl)
      ++ repr_field repr_str "emission_comparison" (f_emission_comparison fl)
      ++ repr_field repr_str "price" (f_price fl)
      ++ repr_field repr_str "price_type" (f_price_type fl)
      ++ repr_field repr_list "route" (f_route fl)) ->
  contains "IST" (upper s) = true ->
  contains "IST" (upper (str_flight fl)) = true.
Proof.
  intros Hin Hs. unfold str_flight.
  change (String.append "{" ?x) with ("{" ++ x)%string.
  rewrite upper_app. apply contains_app_r.
  change (String.append ?x "}") with (x ++ "}")%string.
  rewrite upper_app. apply contains_app_l.
  rewrite upper_join.
  apply (contains_join _ _ (upper (repr_str key ++ ": " ++ repr_str s)%string)).
  - apply in_map, Hin.
  - rewrite !upper_app. apply contains_app_r, contains_app_r, contains_hub_repr, Hs.
Qed.

(** X12: an offer is kept when its airline text is non-empty, has no
    codeshare marker and contains an alias of the target carrier, and the
    hub code "IST" is an element of its airport list or of its stop list;
    an offer whose airline entry is missing, [None] or empty is never kept. *)
Theorem X12_offer_via_hub_is_kept :
  (forall (flights : list Flight) (fl : Flight) (a : string),
      In fl flights ->
      f_airline fl = Val a ->
      is_codeshare a = false ->
      is_turkish a = true ->
      PyList.mem "IST" (all_airports fl) = true ->
      In fl (filter_turkish_airlines_flights flights))
  /\ (forall (flights : list Flight) (fl : Flight),
         f_airline fl = Absent \/ f_airline fl = IsNone \/ f_airline fl = Val "" ->
         ~ In fl (filter_turkish_airlines_flights flights)).
Proof.
  split.
  - intros flights fl a Hin Ha Hc Ht Hm.
    apply filter_In. split; [exact Hin|].
    assert (Hne : a <> EmptyString) by (intros ->; discriminate Ht).
    unfold valid_flight. rewrite (airline_of_val fl a Ha Hne), Hc, Ht.
    unfold has_ist. rewrite Hm. reflexivity.
  - intros flights fl H Hin. apply filter_In in Hin. destruct Hin as [_ Hv].
    unfold valid_flight, airline_of in Hv.
    destruct H as [H|[H|H]]; rewrite H in Hv; discriminate Hv.
Qed.

Lemma X12_bare_code_via_hub :
  In (offer "TK" "₹45,230" ["DEL"; "IST"; "JFK"])
     (filter_turkish_airlines_flights
        [comma_offer; offer "TK" "₹45,230" ["DEL"; "IST"; "JFK"]]).
Proof.
  apply (proj1 X12_offer_via_hub_is_kept
               [comma_offer; offer "TK" "₹45,230" ["DEL"; "IST"; "JFK"]]
               (offer "TK" "₹45,230" ["DEL"; "IST"; "JFK"]) "TK").
  - right; left; reflexivity.
  - reflexivity.
  - reflexivity.
  - reflexivity.
  - reflexivity.
Defined.

(** X13: the hub check also reads the text of the whole offer.  An offer of
    the target carrier passes it, whatever its airports are, as soon as one
    of its text entries (times, airline, duration, stops text, emissions,
    emission comparison, price, price type) contains the letters "ist" in
    any mix of cases, as in "Lowest price listed". *)
Theorem X13_hub_letters_in_any_text_pass_the_hub_check :
  forall (fl : Flight) (a s : string),
    f_airline fl = Val a ->
    is_codeshare a = false ->
    is_turkish a = true ->
    contains "IST" (upper s) = true ->
    f_departure_time fl = Val s \/ f_arrival_time fl = Val s \/ f_airline fl = Val s
    \/ f_duration fl = Val s \/ f_stops fl = Val (StopsText s)
    \/ f_emissions fl = Val s \/ f_emission_comparison fl = Val s
    \/ f_price fl = Val s \/ f_price_type fl = Val s ->
    has_ist fl = true /\ valid_flight fl = true.
Proof.
  intros fl a s Ha Hc Ht Hs Hf.
  assert (Hhub : has_ist fl = true).
  { unfold has_ist.
    assert (Hstr : contains "IST" (upper (str_flight fl)) = true).
    { destruct Hf as [H|[H|[H|[H|[H|[H|[H|[H|H]]]]]]]].
      - apply (hub_in_entry fl "departure_time" s); [|exact Hs].
        rewrite H. cbn [repr_field]. rewrite !in_app_iff. simpl. tauto.
      - apply (hub_in_entry fl "arrival_time" s); [|exact Hs].
        rewrite H. cbn [repr_field]. rewrite !in_app_iff. simpl. tauto.
      - apply (hub_in_entry fl "airline" s); [|exact Hs].
        rewrite H. cbn [repr_field]. rewrite !in_app_iff. simpl. tauto.
      - apply (hub_in_entry fl "duration" s); [|exact Hs].
        rewrite H. cbn [repr_field]. rewrite !in_app_iff. simpl. tauto.
      - apply (hub_in_entry fl "stops" s); [|exact Hs].
        rewrite H. cbn [repr_field repr_stops]. rewrite !in_app_iff. simpl. tauto.
      - apply (hub_in_entry fl "emissions" s); [|exact Hs].
        rewrite H. cbn [repr_field]. rewrite !in_app_iff. simpl. tauto.
      - apply (hub_in_entry fl "emission_comparison" s); [|exact Hs].
        rewrite H. cbn [repr_field]. rewrite !in_app_iff. simpl. tauto.
      - apply (hub_in_entry fl "price" s); [|exact Hs].
        rewrite H. cbn [repr_field]. rewrite !in_app_iff. simpl. tauto.
      - apply (hub_in_entry fl "price_type" s); [|exact Hs].
        rewrite H. cbn [repr_field]. rewrite !in_app_iff. simpl. tauto. }
    rewrite Hstr. rewrite orb_true_r. reflexivity. }
  split; [exact Hhub|].
  assert (Hne : a <> EmptyString) by (intros ->; discriminate Ht).
  unfold valid_flight. rewrite (airline_of_val fl a Ha Hne), Hc, Ht, Hhub. reflexivity.
Qed.

Lemma X13_listed_price_passes :
  PyList.mem "IST" (all_airports listed_offer) = false
  /\ (has_ist listed_offer = true /\ valid_flight listed_offer = true).
Proof.
  split; [reflexivity|].
  apply (X13_hub_letters_in_any_text_pass_the_hub_check
           listed_offer "Turkish Airlines" "Lowest price listed").
  - reflexivity.
  - reflexivity.
  - reflexivity.
  - reflexivity.
  - repeat right. reflexivity.
Defined.

End HubCheck.

(* ------------------------------------------------------------------ *)
(** ** Appending to a results file that is in order *)

Section AppendInOrder.

Import PyNum RoutePlanner FlightSearch Examples MoreExamples.

Lemma le_not_lt (a b : pynum) : PyNum.le a b = true -> PyNum.lt b a = false.
Proof.
  unfold PyNum.le, PyNum.lt. destruct (value a), (value b); try discriminate.
  apply negb_true_iff.
Qed.

Abbreviation cost_before := (fun a b : Result => PyNum.lt (cost_key a) (cost_key b)).

Lemma insert_in_front (x : Result) (l : list Result) :
  (forall y, In y l -> cost_le x y) ->
  PyList.insert cost_before x l = x :: l.
Proof.
  intros H. destruct l as [|y l]; [reflexivity|].
  simpl. rewrite (le_not_lt _ _ (H y (or_introl eq_refl))). reflexivity.
Qed.

(** Sorting an ordered list followed by one more record only finds the
    place of that record. *)
Lemma sort_append_in_order (result : Result) (existing : list Result) :
  StronglySorted cost_le existing ->
  is_nan (cost_key result) = false ->
  (forall x, In x existing -> is_nan (cost_key x) = false) ->
  exists l1 l2,
    existing = l1 ++ l2
    /\ sort_by_cost (existing ++ [result]) = l1 ++ result :: l2
    /\ (forall x, In x l1 -> cost_le x result)
    /\ (forall x, In x l2 -> PyNum.lt (cost_key result) (cost_key x) = true).
Proof.
  intros Hs Hr Hnan. unfold sort_by_cost, PyList.stable_sort.
  rewrite fold_right_app. simpl fold_right at 2.
  induction Hs as [|x l Hs IH Hx].
  - exists [], []. repeat split; intros ? [].
  - destruct IH as (l1 & l2 & Hd & Hsort & H1 & H2).
    { intros y Hy. apply Hnan. right. exact Hy. }
    simpl fold_right. rewrite Hsort.
    rewrite Forall_forall in Hx.
    destruct l1 as [|y l1].
    + simpl app in *. subst l2.
      simpl PyList.insert.
      destruct (PyNum.lt (cost_key result) (cost_key x)) eqn:E.
      * exists [], (x :: l). split; [reflexivity|].
        split; [rewrite (insert_in_front x l Hx); reflexivity|].
        split; [intros ? []|].
        intros z [<-|Hz]; [exact E | apply H2, Hz].
      * exists [x], l. split; [reflexivity|]. split; [reflexivity|].
        split; [|exact H2].
        intros z [<-|[]]. unfold cost_le.
        apply not_lt_le; [exact Hr | apply Hnan; left; reflexivity | exact E].
    + exists (x :: y :: l1), l2. split; [rewrite Hd; reflexivity|].
      assert (Hxy : cost_le x y).
      { apply Hx. rewrite Hd. left. reflexivity. }
      split.
      * change ((y :: l1) ++ result :: l2) with (y :: (l1 ++ result :: l2)).
        simpl PyList.insert. rewrite (le_not_lt _ _ Hxy). reflexivity.
      * split; [|exact H2].
        intros z [<-|Hz]; [|apply H1, Hz].
        exact (cost_le_trans _ _ _ Hxy (H1 y (or_introl eq_refl))).
Qed.

(** X14: when the results file holds records in nondecreasing order of
    cost, an append leaves them in their order and puts the new record
    behind the records that cost no more than it and before those that cost
    more.  Costs are numbers other than NaN. *)
Theorem X14_append_keeps_the_order_of_the_file :
  forall (result : Result) (existing : list Result) (st : State),
    results_file st = Stored (JList existing) ->
    StronglySorted cost_le existing ->
    is_nan (cost_key result) = false ->
    (forall x, In x existing -> is_nan (cost_key x) = false) ->
    exists l1 l2,
      existing = l1 ++ l2
      /\ results_file (save_result_to_file result st) = Stored (JList (l1 ++ result :: l2))
      /\ (forall x, In x l1 -> cost_le x result)
      /\ (forall x, In x l2 -> PyNum.lt (cost_key result) (cost_key x) = true).
Proof.
  intros result existing st Hf Hs Hr Hnan.
  destruct (sort_append_in_order result existing Hs Hr Hnan)
    as (l1 & l2 & Hd & Hsort & H1 & H2).
  exists l1, l2. split; [exact Hd|]. split; [|split; assumption].
  unfold save_result_to_file. rewrite Hf. unfold write_results. cbn [results_file].
  rewrite Hsort. reflexivity.
Qed.

Lemma X14_append_between_two_records :
  exists l1 l2,
    [record_costing 20000; record_costing 50000; record_costing 70000] = l1 ++ l2
    /\ results_file (save_result_to_file (record_costing 50000) sorted_file)
       = Stored (JList (l1 ++ record_costing 50000 :: l2))
    /\ (forall x, In x l1 -> cost_le x (record_costing 50000))
    /\ (forall x, In x l2 ->
                  PyNum.lt (cost_key (record_costing 50000)) (cost_key x) = true).
Proof.
  apply (X14_append_keeps_the_order_of_the_file
           (record_costing 50000)
           [record_costing 20000; record_costing 50000; record_costing 70000]
           sorted_file).
  - reflexivity.
  - repeat constructor.
  - reflexivity.
  - intros x [<-|[<-|[<-|[]]]]; reflexivity.
Defined.

End AppendInOrder.

(* ------------------------------------------------------------------ *)
(** ** More on the route enumerator *)

Section EnumerationMore.

Import RoutePlanner Examples MoreExamples Derived.

Variable eligible_countries : list (string * list string).
Variable major_cities : list (string * list string).
Variable easy_visa_countries : list string.
Variable shuffle : nat -> list string -> list string.

Abbreviation the_mapping :=
  (get_continent_city_mapping eligible_countries major_cities easy_visa_countries).
Abbreviation the_cities := (cities_in eligible_countries major_cities easy_visa_countries).
Abbreviation in_data :=
  (stop_in_reference_data eligible_countries major_cities easy_visa_countries).

Lemma inr_eq {A B : Type} (a b : B) : @inr A B a = inr b -> a = b.
Proof. intros H. injection H. auto. Qed.

Lemma lookup_mapping (cont : string) :
  PyList.lookup cont the_mapping
  = option_map (flat_map (cities_of_country major_cities easy_visa_countries))
               (PyList.lookup cont eligible_countries).
Proof.
  unfold get_continent_city_mapping.
  induction eligible_countries as [|[k codes] l IH]; [reflexivity|].
  simpl. destruct (String.eqb cont k); [reflexivity | exact IH].
Qed.

Lemma cities_in_data (cont : string) (c : CityInfo) :
  In c (the_cities cont) -> in_data (stop_of cont c).
Proof.
  unfold cities_in. rewrite lookup_mapping.
  destruct (PyList.lookup cont eligible_countries) as [codes|] eqn:E; [|intros []].
  simpl. intros H. apply in_flat_map in H. destruct H as (cc & Hcc & H).
  unfold cities_of_country in H.
  destruct (PyList.mem cc easy_visa_countries) eqn:M; [|destruct H].
  destruct (PyList.lookup cc major_cities) as [cities|] eqn:L; [|destruct H].
  apply in_map_iff in H. destruct H as (name & <- & Hname).
  unfold stop_in_reference_data, stop_of; simpl.
  split; [reflexivity|]. split; [exact M|].
  split; [exists codes; auto | exists cities; auto].
Qed.

Lemma product_in {A : Type} (ls : list (list A)) :
  forall comb, In comb (PyList.product ls) <-> Forall2 (fun l x => In x l) ls comb.
Proof.
  induction ls as [|l ls IH]; intros comb; simpl.
  - split.
    + intros [<- | []]. constructor.
    + intros H. inversion H. left. reflexivity.
  - rewrite in_flat_map. split.
    + intros (x & Hx & H). apply in_map_iff in H. destruct H as (c & <- & Hc).
      constructor; [exact Hx | apply IH, Hc].
    + intros H. inversion H as [|l' x ls' c Hx Hc]; subst.
      exists x. split; [exact Hx|]. apply in_map. apply IH, Hc.
Qed.

Lemma combination_in_data (keys : list string) :
  forall comb,
    Forall2 (fun l x => In x l) (map the_cities keys) comb ->
    forall s, In s (route_of keys comb) -> in_data s.
Proof.
  induction keys as [|cont keys IH]; intros comb H s Hs.
  - destruct Hs.
  - inversion H as [|l c ls comb' Hc Hrest]; subst.
    destruct Hs as [<- | Hs].
    + apply cities_in_data, Hc.
    + exact (IH comb' Hrest s Hs).
Qed.

Lemma select_city_in (attempt : nat) (c0 : CityInfo) (l : list CityInfo) :
  In c0 l -> In (select_city attempt c0 l) l.
Proof.
  intros H0.
  assert (P : forall (l' : list CityInfo) i,
             (forall x, In x l' -> In x l) -> In (nth i l' c0) l).
  { intros l' i Hsub. destruct (nth_in_or_default i l' c0) as [Hin | ->].
    - apply Hsub, Hin.
    - exact H0. }
  unfold select_city.
  destruct (attempt mod 4) as [|[|[|k]]].
  - apply P. auto.
  - apply P. intros x Hx. apply stable_sort_in in Hx. exact Hx.
  - apply P. intros x Hx. apply stable_sort_in in Hx. exact Hx.
  - destruct (1 <? length l).
    + destruct ((attempt mod 2 =? 0) && (0 <? length l / 2)).
      * apply P. auto.
      * apply P. intros x Hx. destruct (0 <? length l / 2); [|exact Hx].
        rewrite <- (firstn_skipn (length l / 2) l). apply in_or_app. right. exact Hx.
    + apply P. auto.
Qed.

Lemma visit_in_data (attempt : nat) (continents : list string) :
  forall used s,
    In s (visit eligible_countries major_cities easy_visa_countries
                attempt continents used) ->
    in_data s.
Proof.
  induction continents as [|cont rest IH]; intros used s H; simpl in H; [destruct H|].
  destruct (PyList.mem cont used); [exact (IH _ _ H)|].
  destruct (the_cities cont) as [|c0 l] eqn:E; [exact (IH _ _ H)|].
  destruct H as [<- | H]; [|exact (IH _ _ H)].
  apply cities_in_data. rewrite E. apply select_city_in. left. reflexivity.
Qed.

Lemma all_routes_in_data (routes : list Route) :
  generate_all_possible_combinations
    eligible_countries major_cities easy_visa_countries shuffle = inr routes
  \/ generate_optimal_routes
       eligible_countries major_cities easy_visa_countries shuffle = inr routes ->
  forall route s, In route routes -> In s route -> in_data s.
Proof.
  assert (Hopt : generate_optimal_routes
                   eligible_countries major_cities easy_visa_countries shuffle
                 = inr routes ->
                 forall route s, In route routes -> In s route -> in_data s).
  { unfold generate_optimal_routes.
    destruct (length (map fst the_mapping) <? NUM_CONTINENTS); [discriminate|].
    intros H route s Hr Hs. apply inr_eq in H. subst routes.
    apply in_firstn in Hr. unfold sort_by_score in Hr. apply stable_sort_in in Hr.
    apply dedupe_subset in Hr. apply filter_In in Hr. destruct Hr as [Hr _].
    apply in_map_iff in Hr. destruct Hr as (attempt & <- & _).
    exact (visit_in_data _ _ _ _ Hs). }
  intros [H|H]; [|exact (Hopt H)].
  unfold generate_all_possible_combinations in H.
  destruct (length (map fst the_mapping) <? NUM_CONTINENTS); [discriminate|].
  destruct (100000 <? _)%N; [exact (Hopt H)|].
  intros route s Hr Hs. apply inr_eq in H. subst routes.
  unfold sort_by_score in Hr. apply stable_sort_in in Hr.
  apply in_map_iff in Hr. destruct Hr as (comb & <- & Hc).
  apply product_in in Hc.
  exact (combination_in_data _ comb Hc s Hs).
Qed.

End EnumerationMore.

Section EnumeratorExtras.

Import RoutePlanner Examples MoreExamples Derived.

(** X15: every stop of every route either generator returns agrees with the
    reference data: it is flagged visa-easy, its country is in the
    visa-easy set and is listed under the stop's continent, and its city is
    listed under that country. *)
Theorem X15_stops_come_from_the_reference_data :
  forall (eligible_countries major_cities : list (string * list string))
         (easy_visa_countries : list string)
         (shuffle : nat -> list string -> list string) (routes : list Route),
    generate_all_possible_combinations
      eligible_countries major_cities easy_visa_countries shuffle = inr routes
    \/ generate_optimal_routes
         eligible_countries major_cities easy_visa_countries shuffle = inr routes ->
    forall route s,
      In route routes -> In s route ->
      stop_in_reference_data eligible_countries major_cities easy_visa_countries s.
Proof. exact all_routes_in_data. Qed.

Lemma X15_stops_of_the_small_data :
  stop_in_reference_data small_countries Utils.COUNTRY_MAJOR_CITIES
                         Utils.EASY_VISA_COUNTRIES
                         (mkStop "Europe" "GE" "Tbilisi" true).
Proof.
  apply (X15_stops_come_from_the_reference_data
           small_countries Utils.COUNTRY_MAJOR_CITIES Utils.EASY_VISA_COUNTRIES
           reversing_shuffle small_routes)
    with (route := hd [] small_routes).
  - left. vm_compute. reflexivity.
  - vm_compute. left. reflexivity.
  - vm_compute. left. reflexivity.
Defined.

End EnumeratorExtras.

Section EnumerationCount.

Import RoutePlanner Examples MoreExamples Derived.

Lemma fold_mul_acc (l : list N) :
  forall a, fold_left N.mul l a = (a * fold_left N.mul l 1)%N.
Proof.
  induction l as [|x l IH]; intros a; cbn [fold_left].
  - rewrite N.mul_1_r. reflexivity.
  - rewrite (IH (a * x)%N), (IH (1 * x)%N), N.mul_1_l, N.mul_assoc. reflexivity.
Qed.

Lemma flat_map_length_const {A B : Type} (f : A -> list B) (n : nat) (l : list A) :
  (forall x, length (f x) = n) -> length (flat_map f l) = length l * n.
Proof.
  intros H. induction l as [|x l IH]; simpl; [reflexivity|].
  rewrite length_app, H, IH. reflexivity.
Qed.

Lemma product_count {A : Type} (ls : list (list A)) :
  N.of_nat (length (PyList.product ls))
  = fold_left N.mul (map (fun l => N.of_nat (length l)) ls) 1%N.
Proof.
  induction ls as [|l ls IH]; [reflexivity|].
  cbn [PyList.product map fold_left].
  rewrite (flat_map_length_const _ (length (PyList.product ls)))
    by (intros x; apply length_map).
  replace (N.of_nat (length l * length (PyList.product ls)))
    with (N.of_nat (length l) * N.of_nat (length (PyList.product ls)))%N by lia.
  rewrite IH, (fold_mul_acc _ (1 * _)%N), N.mul_1_l. reflexivity.
Qed.

Lemma Forall2_map_left {A B C : Type} (f : A -> B) (R : B -> C -> Prop)
      (l : list A) :
  forall l', Forall2 (fun a c => R (f a) c) l l' -> Forall2 R (map f l) l'.
Proof.
  induction l as [|a l IH]; intros l' H; inversion H; subst; constructor; auto.
Qed.

Lemma mem_in (x : string) (l : list string) : PyList.mem x l = true <-> In x l.
Proof.
  unfold PyList.mem. rewrite existsb_exists. split.
  - intros (y & Hy & E). apply String.eqb_eq in E. subst. exact Hy.
  - intros H. exists x. split; [exact H | apply String.eqb_refl].
Qed.

Variable eligible_countries : list (string * list string).
Variable major_cities : list (string * list string).
Variable easy_visa_countries : list string.
Variable shuffle : nat -> list string -> list string.

Abbreviation keys := (map fst eligible_countries).
Abbreviation cities_of := (cities_in eligible_countries major_cities easy_visa_countries).
Abbreviation all_combinations :=
  (generate_all_possible_combinations
     eligible_countries major_cities easy_visa_countries shuffle).
Abbreviation sampled :=
  (generate_optimal_routes eligible_countries major_cities easy_visa_countries shuffle).

Lemma sampled_returns :
  NUM_CONTINENTS <= length eligible_countries ->
  exists all_routes,
    sampled = inr (firstn MAX_ROUTES (sort_by_score (dedupe [] all_routes))).
Proof.
  intros H. unfold generate_optimal_routes. cbv zeta.
  rewrite mapping_keys, length_map.
  destruct (length eligible_countries <? NUM_CONTINENTS) eqn:E.
  - apply Nat.ltb_lt in E. lia.
  - eexists. reflexivity.
Qed.

Lemma all_combinations_returns :
  NUM_CONTINENTS <= length eligible_countries ->
  all_combinations = sampled
  \/ all_combinations
     = inr (sort_by_score (map (route_of keys) (PyList.product (map cities_of keys)))).
Proof.
  intros H. unfold generate_all_possible_combinations. cbv zeta.
  rewrite mapping_keys, length_map.
  destruct (length eligible_countries <? NUM_CONTINENTS) eqn:E.
  - apply Nat.ltb_lt in E. lia.
  - destruct (100000 <? _)%N; [left | right]; reflexivity.
Qed.

Lemma all_combinations_small :
  NUM_CONTINENTS <= length eligible_countries ->
  (fold_left N.mul (map (fun c => N.of_nat (length (cities_of c))) keys) 1 <= 100000)%N ->
  all_combinations
  = inr (sort_by_score (map (route_of keys) (PyList.product (map cities_of keys)))).
Proof.
  intros H Hsmall. unfold generate_all_possible_combinations. cbv zeta.
  rewrite mapping_keys, length_map.
  destruct (length eligible_countries <? NUM_CONTINENTS) eqn:E.
  - apply Nat.ltb_lt in E. lia.
  - destruct (100000 <? _)%N eqn:E2; [|reflexivity].
    apply N.ltb_lt in E2. lia.
Qed.

Lemma too_few_continents :
  length eligible_countries < NUM_CONTINENTS ->
  all_combinations = inl (ValueError (missing_continents keys))
  /\ sampled = inl (ValueError (missing_continents keys)).
Proof.
  intros H. apply Nat.ltb_lt in H.
  unfold generate_all_possible_combinations, generate_optimal_routes. cbv zeta.
  rewrite mapping_keys, length_map, H. split; reflexivity.
Qed.

Lemma missing_continents_spec (available : list string) (c : string) :
  In c (missing_continents available)
  <-> In c Utils.REQUIRED_CONTINENTS /\ ~ In c available.
Proof.
  unfold missing_continents. rewrite filter_In.
  rewrite <- (mem_in c available).
  destruct (PyList.mem c available); simpl; intuition congruence.
Qed.

Lemma required_continents_distinct : NoDup Utils.REQUIRED_CONTINENTS.
Proof.
  unfold Utils.REQUIRED_CONTINENTS.
  repeat (constructor; [simpl; intuition discriminate|]). constructor.
Qed.

Lemma missing_continents_nonempty (available : list string) :
  length available < NUM_CONTINENTS -> missing_continents available <> [].
Proof.
  intros H Hnone.
  assert (Hincl : incl Utils.REQUIRED_CONTINENTS available).
  { intros c Hc. destruct (in_dec string_dec c available) as [Hin|Hout]; [exact Hin|].
    assert (Hm : In c (missing_continents available))
      by (apply missing_continents_spec; split; assumption).
    rewrite Hnone in Hm. destruct Hm. }
  apply (NoDup_incl_length required_continents_distinct) in Hincl.
  change (length Utils.REQUIRED_CONTINENTS) with 6 in Hincl.
  unfold NUM_CONTINENTS in H. lia.
Qed.

End EnumerationCount.

Section ScoreOrder.

Import RoutePlanner Examples MoreExamples Derived.

Abbreviation score_order :=
  (fun a b : Route => calculate_route_score b <= calculate_route_score a).

Lemma sort_by_score_sorted (routes : list Route) :
  StronglySorted score_order (sort_by_score routes).
Proof.
  unfold sort_by_score.
  set (before := fun a b : Route => calculate_route_score b <? calculate_route_score a).
  assert (Hs : Sorted (PyList.in_order before) (PyList.stable_sort before routes)).
  { apply stable_sort_sorted. intros a b H. unfold before in *.
    apply Nat.ltb_lt in H. apply Nat.ltb_ge. lia. }
  apply Sorted_StronglySorted in Hs.
  - induction Hs as [|a l _ IH Hall]; constructor; [exact IH|].
    eapply Forall_impl; [|exact Hall].
    intros b Hb. unfold PyList.in_order, before in Hb. apply Nat.ltb_ge in Hb. exact Hb.
  - intros a b c Hab Hbc. unfold PyList.in_order, before in *.
    apply Nat.ltb_ge in Hab, Hbc. apply Nat.ltb_ge. lia.
Qed.

Lemma strongly_sorted_firstn {A : Type} (R : A -> A -> Prop) (l : list A) :
  StronglySorted R l -> forall n, StronglySorted R (firstn n l).
Proof.
  induction 1 as [|a l _ IH Hall]; intros [|n]; simpl; try constructor.
  - apply IH.
  - apply Forall_forall. intros x Hx. apply in_firstn in Hx.
    exact (proj1 (Forall_forall _ _) Hall x Hx).
Qed.

Lemma triple_eqb_refl (a : string * string * string) : PyList.triple_eqb a a = true.
Proof.
  destruct a as [[a1 a2] a3]. unfold PyList.triple_eqb.
  rewrite !String.eqb_refl. reflexivity.
Qed.

Lemma route_sig_eqb_refl (x : list (string * string * string)) :
  RoutePlanner.sig_eqb x x = true.
Proof.
  unfold RoutePlanner.sig_eqb.
  induction x as [|a x IH]; simpl; [reflexivity|].
  rewrite triple_eqb_refl, IH. reflexivity.
Qed.

Lemma dedupe_fresh (routes : list Route) :
  forall seen r, In r (dedupe seen routes) -> ~ In (route_sig r) seen.
Proof.
  induction routes as [|r0 rest IH]; intros seen r H; simpl in H; [destruct H|].
  destruct (existsb (RoutePlanner.sig_eqb (route_sig r0)) seen) eqn:E.
  - exact (IH _ _ H).
  - destruct H as [-> | H].
    + intros Hin.
      assert (Ht : existsb (RoutePlanner.sig_eqb (route_sig r)) seen = true).
      { apply existsb_exists. exists (route_sig r). split; [exact Hin|].
        apply route_sig_eqb_refl. }
      congruence.
    + intros Hin. apply (IH _ _ H). right. exact Hin.
Qed.

Lemma dedupe_nodup (routes : list Route) :
  forall seen, NoDup (map route_sig (dedupe seen routes)).
Proof.
  induction routes as [|r0 rest IH]; intros seen; simpl; [constructor|].
  destruct (existsb (RoutePlanner.sig_eqb (route_sig r0)) seen); [apply IH|].
  simpl. constructor; [|apply IH].
  intros Hin. apply in_map_iff in Hin. destruct Hin as (r & Hr & Hin).
  apply dedupe_fresh in Hin. apply Hin. left. symmetry. exact Hr.
Qed.

Lemma nodup_firstn {A : Type} (n : nat) (l : list A) : NoDup l -> NoDup (firstn n l).
Proof.
  intros H. rewrite <- (firstn_skipn n l) in H.
  exact (NoDup_app_remove_r _ _ H).
Qed.

Lemma sample_nodup (all_routes : list Route) :
  NoDup (map route_sig (firstn MAX_ROUTES (sort_by_score (dedupe [] all_routes)))).
Proof.
  rewrite <- firstn_map. apply nodup_firstn.
  apply (Permutation_NoDup (l := map route_sig (dedupe [] all_routes))).
  - apply Permutation_map, Permutation_sym. unfold sort_by_score. apply stable_sort_perm.
  - apply dedupe_nodup.
Qed.

Lemma route_sig_of_permutation (r1 r2 : Route) :
  Permutation r1 r2 -> route_sig r1 = route_sig r2.
Proof.
  intros H. unfold route_sig.
  apply stable_sort_permutation.
  - exact triple_ltb_trans.
  - exact triple_ltb_asym.
  - exact triple_ltb_total.
  - apply Permutation_map. exact H.
Qed.

Lemma all_flagged_score (route : Route) :
  (forall s, In s route -> easy_visa s = true) ->
  calculate_route_score route
  = length route * EASY_VISA_WEIGHT
    + (if length (PyList.distinct (map country_code route)) <? length route
       then 5 else 0).
Proof.
  intros H. unfold calculate_route_score. cbv zeta.
  assert (E : filter easy_visa route = route).
  { induction route as [|s route IH]; [reflexivity|]. simpl.
    rewrite (H s (or_introl eq_refl)). f_equal. apply IH.
    intros s' Hs'. apply H. right. exact Hs'. }
  rewrite E. destruct (_ <? _); lia.
Qed.

End ScoreOrder.

Section EnumeratorExtrasMore.

Import RoutePlanner Examples MoreExamples Derived.

(** X16: when the reference data has at least six continents and the
    product of the continents' city counts is at most 100000,
    [generate_all_possible_combinations] returns a list with exactly that
    many routes, and the list holds the route of every choice of one city
    per continent, the stops in the order of the continents in the data. *)
Theorem X16_all_combinations_are_enumerated :
  forall (eligible_countries major_cities : list (string * list string))
         (easy_visa_countries : list string)
         (shuffle : nat -> list string -> list string),
    NUM_CONTINENTS <= length eligible_countries ->
    (fold_left N.mul
       (map (fun c => N.of_nat (length (cities_in eligible_countries major_cities
                                                  easy_visa_countries c)))
            (map fst eligible_countries)) 1 <= 100000)%N ->
    exists routes,
      generate_all_possible_combinations
        eligible_countries major_cities easy_visa_countries shuffle = inr routes
      /\ N.of_nat (length routes)
         = fold_left N.mul
             (map (fun c => N.of_nat (length (cities_in eligible_countries major_cities
                                                        easy_visa_countries c)))
                  (map fst eligible_countries)) 1%N
      /\ forall combination,
          Forall2 (fun cont c => In c (cities_in eligible_countries major_cities
                                                 easy_visa_countries cont))
                  (map fst eligible_countries) combination ->
          In (route_of (map fst eligible_countries) combination) routes.
Proof.
  intros eligible major easy shuffle H6 Hsmall.
  eexists. split; [exact (all_combinations_small _ _ _ _ H6 Hsmall)|]. split.
  - unfold sort_by_score. rewrite stable_sort_length, length_map, product_count, map_map.
    reflexivity.
  - intros comb Hc.
    apply (Permutation_in _ (Permutation_sym (stable_sort_perm _ _))).
    apply in_map. apply product_in. apply Forall2_map_left. exact Hc.
Qed.

Lemma X16_small_data_gives_twelve_routes :
  exists routes,
    generate_all_possible_combinations
      small_countries Utils.COUNTRY_MAJOR_CITIES Utils.EASY_VISA_COUNTRIES
      reversing_shuffle = inr routes
    /\ N.of_nat (length routes) = 12%N
    /\ forall combination,
        Forall2 (fun cont c => In c (cities_in small_countries Utils.COUNTRY_MAJOR_CITIES
                                               Utils.EASY_VISA_COUNTRIES cont))
                (map fst small_countries) combination ->
        In (route_of (map fst small_countries) combination) routes.
Proof.
  apply (X16_all_combinations_are_enumerated
           small_countries Utils.COUNTRY_MAJOR_CITIES Utils.EASY_VISA_COUNTRIES
           reversing_shuffle).
  - vm_compute. lia.
  - vm_compute. discriminate.
Defined.

(** X17: when the reference data has at least six continents, both
    generators return a list ordered by score, highest first: no route is
    followed, anywhere later in the list, by a route with a higher score. *)
Theorem X17_routes_are_ordered_by_score :
  forall (eligible_countries major_cities : list (string * list string))
         (easy_visa_countries : list string)
         (shuffle : nat -> list string -> list string),
    NUM_CONTINENTS <= length eligible_countries ->
    exists all_routes sample,
      generate_all_possible_combinations
        eligible_countries major_cities easy_visa_countries shuffle = inr all_routes
      /\ generate_optimal_routes
           eligible_countries major_cities easy_visa_countries shuffle = inr sample
      /\ StronglySorted
           (fun a b => calculate_route_score b <= calculate_route_score a) all_routes
      /\ StronglySorted
           (fun a b => calculate_route_score b <= calculate_route_score a) sample.
Proof.
  intros eligible major easy shuffle H6.
  destruct (sampled_returns eligible major easy shuffle H6) as (attempts & Hs).
  assert (Hsorted : StronglySorted
                      (fun a b => calculate_route_score b <= calculate_route_score a)
                      (firstn MAX_ROUTES (sort_by_score (dedupe [] attempts))))
    by (apply strongly_sorted_firstn, sort_by_score_sorted).
  destruct (all_combinations_returns eligible major easy shuffle H6) as [Ha | Ha].
  - rewrite Ha, Hs. do 2 eexists. repeat split; try reflexivity; exact Hsorted.
  - rewrite Ha, Hs. do 2 eexists. repeat split; try reflexivity.
    + apply sort_by_score_sorted.
    + exact Hsorted.
Qed.

Lemma X17_small_data_ordered :
  exists all_routes sample,
    generate_all_possible_combinations
      small_countries Utils.COUNTRY_MAJOR_CITIES Utils.EASY_VISA_COUNTRIES
      reversing_shuffle = inr all_routes
    /\ generate_optimal_routes
         small_countries Utils.COUNTRY_MAJOR_CITIES Utils.EASY_VISA_COUNTRIES
         reversing_shuffle = inr sample
    /\ StronglySorted
         (fun a b => calculate_route_score b <= calculate_route_score a) all_routes
    /\ StronglySorted
         (fun a b => calculate_route_score b <= calculate_route_score a) sample.
Proof.
  apply (X17_routes_are_ordered_by_score
           small_countries Utils.COUNTRY_MAJOR_CITIES Utils.EASY_VISA_COUNTRIES
           reversing_shuffle).
  vm_compute. lia.
Defined.

(** X18: when the reference data has at least six continents, the sampling
    generator returns at most [MAX_ROUTES] routes, and no two entries of the
    returned list consist of the same stops: two entries that are
    rearrangements of one another are the same entry. *)
Theorem X18_sample_is_capped_and_free_of_rearrangements :
  forall (eligible_countries major_cities : list (string * list string))
         (easy_visa_countries : list string)
         (shuffle : nat -> list string -> list string),
    NUM_CONTINENTS <= length eligible_countries ->
    exists sample,
      generate_optimal_routes
        eligible_countries major_cities easy_visa_countries shuffle = inr sample
      /\ length sample <= MAX_ROUTES
      /\ forall i j r1 r2,
          nth_error sample i = Some r1 ->
          nth_error sample j = Some r2 ->
          Permutation r1 r2 ->
          i = j.
Proof.
  intros eligible major easy shuffle H6.
  destruct (sampled_returns eligible major easy shuffle H6) as (attempts & Hs).
  rewrite Hs. eexists. split; [reflexivity|]. split.
  - apply firstn_le_length.
  - intros i j r1 r2 H1 H2 Hperm.
    pose proof (sample_nodup attempts) as Hnd.
    apply (proj1 (NoDup_nth_error _) Hnd).
    + rewrite length_map. apply nth_error_Some. congruence.
    + rewrite !nth_error_map, H1, H2. simpl. f_equal.
      apply route_sig_of_permutation. exact Hperm.
Qed.

Lemma X18_small_data_sample :
  exists sample,
    generate_optimal_routes
      small_countries Utils.COUNTRY_MAJOR_CITIES Utils.EASY_VISA_COUNTRIES
      reversing_shuffle = inr sample
    /\ length sample <= MAX_ROUTES
    /\ forall i j r1 r2,
        nth_error sample i = Some r1 ->
        nth_error sample j = Some r2 ->
        Permutation r1 r2 ->
        i = j.
Proof.
  apply (X18_sample_is_capped_and_free_of_rearrangements
           small_countries Utils.COUNTRY_MAJOR_CITIES Utils.EASY_VISA_COUNTRIES
           reversing_shuffle).
  vm_compute. lia.
Defined.

(** X19: when the reference data has fewer than six continents, both
    generators raise [ValueError]; the continents the message lists are
    exactly the required continents that are not keys of the data, and at
    least one continent is listed. *)
Theorem X19_too_few_continents_raise :
  forall (eligible_countries major_cities : list (string * list string))
         (easy_visa_countries : list string)
         (shuffle : nat -> list string -> list string),
    length eligible_countries < NUM_CONTINENTS ->
    exists missing,
      generate_all_possible_combinations
        eligible_countries major_cities easy_visa_countries shuffle
      = inl (ValueError missing)
      /\ generate_optimal_routes
           eligible_countries major_cities easy_visa_countries shuffle
         = inl (ValueError missing)
      /\ missing <> []
      /\ forall c, In c missing
                   <-> In c Utils.REQUIRED_CONTINENTS
                       /\ ~ In c (map fst eligible_countries).
Proof.
  intros eligible major easy shuffle H.
  destruct (too_few_continents eligible major easy shuffle H) as [Ha Hs].
  exists (missing_continents (map fst eligible)).
  split; [exact Ha|]. split; [exact Hs|]. split.
  - apply missing_continents_nonempty. rewrite length_map. exact H.
  - intros c. apply missing_continents_spec.
Qed.

Lemma X19_five_continents :
  exists missing,
    generate_all_possible_combinations
      five_continents Utils.COUNTRY_MAJOR_CITIES Utils.EASY_VISA_COUNTRIES
      reversing_shuffle
    = inl (ValueError missing)
    /\ generate_optimal_routes
         five_continents Utils.COUNTRY_MAJOR_CITIES Utils.EASY_VISA_COUNTRIES
         reversing_shuffle
       = inl (ValueError missing)
    /\ missing <> []
    /\ forall c, In c missing
                 <-> In c Utils.REQUIRED_CONTINENTS
                     /\ ~ In c (map fst five_continents).
Proof.
  apply (X19_too_few_continents_raise
           five_continents Utils.COUNTRY_MAJOR_CITIES Utils.EASY_VISA_COUNTRIES
           reversing_shuffle).
  vm_compute. lia.
Defined.

(** X20: the visa term of the score never separates two returned routes:
    every stop of a returned route is flagged visa-easy, so a returned
    route scores ten points per stop, plus five when two of its stops are
    in the same country. *)
Theorem X20_score_of_a_returned_route :
  forall (eligible_countries major_cities : list (string * list string))
         (easy_visa_countries : list string)
         (shuffle : nat -> list string -> list string) (routes : list Route),
    generate_all_possible_combinations
      eligible_countries major_cities easy_visa_countries shuffle = inr routes
    \/ generate_optimal_routes
         eligible_countries major_cities easy_visa_countries shuffle = inr routes ->
    forall route,
      In route routes ->
      calculate_route_score route
      = length route * EASY_VISA_WEIGHT
        + (if length (PyList.distinct (map country_code route)) <? length route
           then 5 else 0).
Proof.
  intros eligible major easy shuffle routes H route Hr.
  apply all_flagged_score. intros s Hs.
  exact (proj1 (all_routes_in_data eligible major easy shuffle routes H route s Hr Hs)).
Qed.

Lemma X20_score_of_a_route_of_the_small_data :
  calculate_route_score (hd [] small_routes)
  = length (hd [] small_routes) * EASY_VISA_WEIGHT
    + (if length (PyList.distinct (map country_code (hd [] small_routes)))
          <? length (hd [] small_routes)
       then 5 else 0).
Proof.
  apply (X20_score_of_a_returned_route
           small_countries Utils.COUNTRY_MAJOR_CITIES Utils.EASY_VISA_COUNTRIES
           reversing_shuffle small_routes).
  - left. vm_compute. reflexivity.
  - vm_compute. left. reflexivity.
Defined.

End EnumeratorExtrasMore.

(* ------------------------------------------------------------------ *)
(** ** The scraper and the search loop together *)

Section ScraperFacts.

Import PyStr PyNum RoutePlanner FlightSearch GoogleFlights Examples MoreExamples.

Lemma built_offer (airline_filter : option string) (node : ResultNode) (fl : Flight) :
  process_result airline_filter node = Built fl ->
  exists airline,
    n_airline node = Some airline
    /\ f_airline fl = Val airline
    /\ filtered_out airline_filter airline = false.
Proof.
  unfold process_result.
  destruct (n_main node); simpl; [|discriminate].
  destruct (n_airline node) as [airline|]; [|discriminate].
  destruct (filtered_out airline_filter airline) eqn:E; [discriminate|].
  destruct (n_duration node), (n_stops node), (n_emissions node), (n_price node),
    (n_airports_raw node); try discriminate.
  intros H. injection H as <-. exists airline. auto.
Qed.

Lemma process_results_built (airline_filter : option string) (results : list ResultNode) :
  forall offers,
    process_results airline_filter results = Some offers ->
    forall fl, In fl offers ->
               exists node, In node results /\ process_result airline_filter node = Built fl.
Proof.
  induction results as [|node rest IH]; intros offers H fl Hfl; simpl in H.
  - injection H as <-. destruct Hfl.
  - destruct (process_result airline_filter node) as [| |built] eqn:E.
    + destruct (IH _ H fl Hfl) as (n & Hn & Hb).
      exists n. split; [right; exact Hn | exact Hb].
    + discriminate.
    + destruct (process_results airline_filter rest) as [category_data|]; [|discriminate].
      injection H as <-. destruct Hfl as [<- | Hfl].
      * exists node. split; [left; reflexivity | exact E].
      * destruct (IH _ eq_refl fl Hfl) as (n & Hn & Hb).
        exists n. split; [right; exact Hn | exact Hb].
Qed.

Lemma process_results_failed (airline_filter : option string) (results : list ResultNode) :
  forall node,
    In node results -> process_result airline_filter node = Failed ->
    process_results airline_filter results = None.
Proof.
  induction results as [|n rest IH]; intros node Hin Hf; [destruct Hin|].
  simpl. destruct Hin as [-> | Hin].
  - rewrite Hf. reflexivity.
  - rewrite (IH node Hin Hf). destruct (process_result airline_filter n); reflexivity.
Qed.

Lemma turkish_filter_passes (airline : string) :
  filtered_out TURKISH_FILTER airline = false ->
  is_turkish airline = true /\ airline <> "".
Proof.
  unfold filtered_out, TURKISH_FILTER.
  change (String.eqb "Turkish Airlines" "") with false.
  change (lower "Turkish Airlines") with "turkish airlines". cbv iota.
  intros H. apply negb_false_iff in H. split.
  - apply (is_turkish_of_alias airline "turkish airlines" "t" "urkish airlines");
      try reflexivity; [left; reflexivity | exact H].
  - intros ->. vm_compute in H. discriminate.
Qed.

Lemma lookup_in {V : Type} (k : string) (d : list (string * V)) (v : V) :
  PyList.lookup k d = Some v -> In (k, v) d.
Proof.
  induction d as [|[k' v'] d IH]; simpl; [discriminate|].
  destruct (String.eqb k k') eqn:E.
  - apply String.eqb_eq in E. subst. intros H. injection H as ->. left. reflexivity.
  - intros H. right. exact (IH H).
Qed.

Lemma gather_in (flight_results : list (string * list Flight)) (fl : Flight) :
  In fl (gather_flights flight_results) ->
  exists key offers, In (key, offers) flight_results /\ In fl offers.
Proof.
  unfold gather_flights.
  set (all_flights := flat_map _ _).
  assert (Hall : In fl all_flights ->
                 exists key offers, In (key, offers) flight_results /\ In fl offers).
  { unfold all_flights. intros H. apply in_flat_map in H. destruct H as (key & _ & H).
    destruct (PyList.lookup key flight_results) as [offers|] eqn:E; [|destruct H].
    exists key, offers. split; [exact (lookup_in _ _ _ E) | exact H]. }
  destruct all_flights as [|a l] eqn:E.
  - intros H. apply in_flat_map in H. destruct H as ([key offers] & Hin & H).
    exists key, offers. auto.
  - exact Hall.
Qed.

Lemma gather_single (key : string) (offers : list Flight) :
  gather_flights [(key, offers)] = offers.
Proof.
  unfold gather_flights. cbn [flat_map PyList.lookup snd].
  destruct (String.eqb "top_flights" key) eqn:E1;
    destruct (String.eqb "all_flights" key) eqn:E2.
  - apply String.eqb_eq in E1, E2. subst. discriminate.
  - rewrite !app_nil_r. destruct offers; reflexivity.
  - cbn [app]. rewrite !app_nil_r. destruct offers; reflexivity.
  - cbn [app]. rewrite app_nil_r. reflexivity.
Qed.


Lemma pending_length (routes : list Route) (st : State) :
  length (pending_routes routes st) <= max_routes_to_search st.
Proof.
  unfold pending_routes. cbv zeta.
  eapply Nat.le_trans; [apply filter_length_le|].
  rewrite length_combine, length_seq, Nat.min_id.
  apply firstn_le_length.
Qed.

End ScraperFacts.

Section ScraperExtras.

Import PyStr PyNum RoutePlanner FlightSearch GoogleFlights Report Examples MoreExamples.

(** X21: the client is created with the filter "Turkish Airlines", and every
    offer it returns has passed that filter.  So each offer the search loop
    gathers from an answer of the client has an airline text that the name
    check of [filter_turkish_airlines_flights] accepts; the validator keeps
    such an offer exactly when its airline text carries no codeshare marker
    and the hub check finds Istanbul. *)
Theorem X21_offers_of_the_filtered_client_pass_the_name_check :
  forall (html : option Page) (flight_results : list (string * list Flight))
         (fl : Flight),
    search TURKISH_FILTER html = Returns flight_results ->
    In fl (gather_flights flight_results) ->
    exists airline,
      f_airline fl = Val airline
      /\ is_turkish airline = true
      /\ valid_flight fl = negb (is_codeshare airline) && has_ist fl.
Proof.
  intros html flight_results fl Hs Hin.
  apply gather_in in Hin. destruct Hin as (key & offers & Hk & Hfl).
  unfold search in Hs. destruct html as [page|].
  - unfold _process in Hs.
    destruct (p_category_result page) as [results|]; [|discriminate].
    destruct (process_results TURKISH_FILTER results) as [category_data|] eqn:E;
      [|discriminate].
    injection Hs as <-.
    destruct (p_category page) as [heading|]; [|destruct Hk].
    destruct Hk as [Hk | []]. injection Hk as _ <-.
    destruct (process_results_built _ _ _ E fl Hfl) as (node & _ & Hb).
    destruct (built_offer _ _ _ Hb) as (airline & _ & Ha & Hf).
    destruct (turkish_filter_passes airline Hf) as [Ht Hne].
    exists airline. split; [exact Ha|]. split; [exact Ht|].
    unfold valid_flight. rewrite (airline_of_val fl airline Ha Hne), Ht.
    destruct (is_codeshare airline), (has_ist fl); reflexivity.
  - injection Hs as <-. destruct Hk.
Qed.

Lemma X21_offer_of_a_result_page :
  exists airline,
    f_airline tk_offer = Val airline
    /\ is_turkish airline = true
    /\ valid_flight tk_offer = negb (is_codeshare airline) && has_ist tk_offer.
Proof.
  apply (X21_offers_of_the_filtered_client_pass_the_name_check
           (Some tk_page) [("top_flights", [tk_offer])] tk_offer).
  - vm_compute. reflexivity.
  - vm_compute. left. reflexivity.
Defined.

(** X22: [search] answers the empty dict when there is no page, and
    [_process] stores the offers only under the text of the category
    heading, so a page without that heading yields the empty dict as well
    (or the call raises): whatever results the page lists, the search loop
    finds no usable offer in the answer. *)
Theorem X22_page_without_heading_gives_no_offer :
  forall (airline_filter : option string) (html : option Page),
    html = None \/ (exists page, html = Some page /\ p_category page = None) ->
    (search airline_filter html = Returns [] \/ search airline_filter html = Raises)
    /\ usable (search airline_filter html) = false.
Proof.
  intros airline_filter html [-> | (page & -> & Hc)].
  - split; [left|]; reflexivity.
  - unfold search, _process. rewrite Hc.
    destruct (p_category_result page) as [results|]; [|split; [right|]; reflexivity].
    destruct (process_results airline_filter results);
      split; try reflexivity; [left | right]; reflexivity.
Qed.

Lemma X22_results_without_heading :
  (search TURKISH_FILTER (Some headless_page) = Returns []
   \/ search TURKISH_FILTER (Some headless_page) = Raises)
  /\ usable (search TURKISH_FILTER (Some headless_page)) = false.
Proof.
  apply (X22_page_without_heading_gives_no_offer TURKISH_FILTER (Some headless_page)).
  right. exists headless_page. split; reflexivity.
Defined.

(** X23: a page with a category heading yields a dict with that one
    category, and the search loop gathers from it exactly the offers built
    from the page, each once, whatever the text of the heading is. *)
Theorem X23_offers_of_the_one_category_are_gathered :
  forall (airline_filter : option string) (page : Page) (heading : string)
         (flight_results : list (string * list Flight)),
    p_category page = Some heading ->
    search airline_filter (Some page) = Returns flight_results ->
    exists results offers,
      p_category_result page = Some results
      /\ process_results airline_filter results = Some offers
      /\ flight_results = [(replace " " "_" (lower heading), offers)]
      /\ gather_flights flight_results = offers.
Proof.
  intros airline_filter page heading flight_results Hc Hs.
  unfold search, _process in Hs. rewrite Hc in Hs.
  destruct (p_category_result page) as [results|]; [|discriminate].
  destruct (process_results airline_filter results) as [offers|] eqn:E; [|discriminate].
  injection Hs as <-. exists results, offers.
  split; [reflexivity|]. split; [exact E|]. split; [reflexivity|].
  apply gather_single.
Qed.

Lemma X23_offers_of_a_result_page :
  exists results offers,
    p_category_result tk_page = Some results
    /\ process_results TURKISH_FILTER results = Some offers
    /\ [("top_flights", [tk_offer])] = [(replace " " "_" (lower "Top flights"), offers)]
    /\ gather_flights [("top_flights", [tk_offer])] = offers.
Proof.
  apply (X23_offers_of_the_one_category_are_gathered
           TURKISH_FILTER tk_page "Top flights" [("top_flights", [tk_offer])]).
  - reflexivity.
  - vm_compute. reflexivity.
Defined.

(** X24: [_process] has no handler of its own: when one listed result
    element lacks the airline, duration, stops, emissions or price text or
    the airport list, the call raises and the offers of every other element
    of the page are lost with it; the search loop gets no usable answer. *)
Theorem X24_one_malformed_result_loses_the_page :
  forall (airline_filter : option string) (page : Page)
         (results : list ResultNode) (node : ResultNode),
    p_category_result page = Some results ->
    In node results ->
    process_result airline_filter node = Failed ->
    search airline_filter (Some page) = Raises
    /\ usable (search airline_filter (Some page)) = false.
Proof.
  intros airline_filter page results node Hr Hin Hf.
  assert (H : search airline_filter (Some page) = Raises).
  { unfold search, _process. rewrite Hr.
    rewrite (process_results_failed airline_filter results node Hin Hf). reflexivity. }
  rewrite H. split; reflexivity.
Qed.

Lemma X24_result_without_airline_text :
  search TURKISH_FILTER (Some (mkPage (Some "Top flights") (Some [tk_node; broken_node])))
  = Raises
  /\ usable (search TURKISH_FILTER
                    (Some (mkPage (Some "Top flights") (Some [tk_node; broken_node]))))
     = false.
Proof.
  apply (X24_one_malformed_result_loses_the_page
           TURKISH_FILTER (mkPage (Some "Top flights") (Some [tk_node; broken_node]))
           [tk_node; broken_node] broken_node).
  - reflexivity.
  - right. left. reflexivity.
  - reflexivity.
Defined.



(** X26: one invocation of the program handles exactly the routes that are
    pending when it starts, each counted once as completed, discarded or
    failed; that is at most the batch size chosen in [main], which is never
    above the number of routes nor above 10000. *)
Theorem X26_a_run_handles_its_pending_routes :
  forall (env : nat -> Scraper) (routes : list Route)
         (pf : file ProgressData) (rf : file results_json),
    let batch := main_max_routes (length routes) in
    let st' := fst (run env routes pf rf) in
    total_processed st' = length (pending_routes routes (new_optimizer batch pf rf))
    /\ total_processed st' <= batch
    /\ batch <= length routes
    /\ (N.of_nat batch <= 10000)%N.
Proof.
  intros env routes pf rf batch st'.
  assert (Ht : total_processed st'
               = length (pending_routes routes (new_optimizer batch pf rf))).
  { unfold st', run, search_all_routes_parallel. fold batch.
    destruct (pending_routes routes (new_optimizer batch pf rf)) as [|p pending] eqn:E;
      [reflexivity|].
    pose proof (run_workers_processed env (p :: pending) [] (new_optimizer batch pf rf))
      as Hrun.
    destruct (run_workers env (p :: pending) [] (new_optimizer batch pf rf))
      as [st1 results].
    cbn [fst] in *. exact Hrun. }
  split; [exact Ht|]. split.
  - rewrite Ht. exact (pending_length routes (new_optimizer batch pf rf)).
  - unfold batch, main_max_routes.
    destruct (40000 <? N.of_nat (length routes))%N eqn:E1;
      [|destruct (10000 <? N.of_nat (length routes))%N eqn:E2].
    + split; [apply Nat.le_min_r|].
      apply N.le_trans with (N.of_nat 20); [|vm_compute; discriminate].
      pose proof (Nat.le_min_l 20 (length routes)). lia.
    + split; [apply Nat.le_min_r|].
      apply N.le_trans with (N.of_nat 1000); [|vm_compute; discriminate].
      pose proof (Nat.le_min_l 1000 (length routes)). lia.
    + split; [apply le_n|]. apply N.ltb_ge in E2. exact E2.
Qed.

End ScraperExtras.

(* ------------------------------------------------------------------ *)
(** ** Price texts *)

Section PriceText.

Import PyStr PyNum FlightSearch Derived.

Lemma rne_one (x : Z) : rne x 1 = x.
Proof.
  unfold rne. rewrite Z.mod_1_r, Z.div_1_r. reflexivity.
Qed.

Lemma Qred_inject_Z (n : Z) : Qred (inject_Z n) = inject_Z n.
Proof.
  unfold Qred, inject_Z.
  pose proof (Z.ggcd_gcd n 1) as Hg.
  pose proof (Z.ggcd_correct_divisors n 1) as Hd.
  destruct (Z.ggcd n 1) as [g [a b]]. simpl in *.
  rewrite Z.gcd_1_r in Hg. subst g. destruct Hd as [Ha Hb].
  rewrite Z.mul_1_l in Ha, Hb. subst. reflexivity.
Qed.

Lemma round64_pos_exact (n : Z) :
  (0 < n < 2 ^ 53)%Z -> round64_pos n 1 = PyFloat (inject_Z n).
Proof.
  intros [Hpos Hlt]. unfold round64_pos.
  change (Z.log2 1) with 0%Z. rewrite Z.sub_0_r.
  set (L := Z.log2 n).
  assert (HL : (0 <= L < 53)%Z).
  { split; [apply Z.log2_nonneg | apply Z.log2_lt_pow2; lia]. }
  assert (Hpow : (2 ^ L <= n)%Z) by (apply Z.log2_spec; lia).
  cbv zeta.
  rewrite (Z.max_l 0 (- L)) by lia. rewrite (Z.max_r 0 L) by lia.
  rewrite Z.pow_0_r, Z.mul_1_r, Z.mul_1_l.
  destruct (n <? 2 ^ L)%Z eqn:E; [apply Z.ltb_lt in E; lia|].
  rewrite (Z.max_l (L - 52) (-1074)) by lia.
  rewrite (Z.max_r 0 (- (L - 52))) by lia.
  rewrite (Z.max_l 0 (L - 52)) by lia.
  rewrite Z.pow_0_r, Z.mul_1_r, rne_one.
  destruct (0 <=? L - 52)%Z eqn:E0.
  - apply Z.leb_le in E0. assert (L = 52%Z) by lia.
    replace (- (L - 52))%Z with 0%Z by lia. replace (L - 52)%Z with 0%Z by lia.
    rewrite Z.pow_0_r, !Z.mul_1_r.
    destruct (2 ^ 1024 <=? n)%Z eqn:E1; [|reflexivity].
    apply Z.leb_le in E1.
    assert (2 ^ 53 < 2 ^ 1024)%Z by (apply Z.pow_lt_mono_r; lia). lia.
  - f_equal. rewrite <- (Qred_inject_Z n). apply Qred_complete.
    unfold Qeq, inject_Z. simpl Qnum. simpl Qden.
    rewrite Z2Pos.id by (apply Z.pow_pos_nonneg; lia). lia.
Qed.

Lemma round64_exact (n : Z) :
  (0 <= n < 2 ^ 53)%Z -> round64 (inject_Z n) = PyFloat (inject_Z n).
Proof.
  intros H. destruct n as [|p|p]; [reflexivity| |lia].
  apply (round64_pos_exact (Z.pos p)). lia.
Qed.

Lemma digit_char (c : ascii) (d : Z) :
  digit_of c = Some d ->
  (c = "0" \/ c = "1" \/ c = "2" \/ c = "3" \/ c = "4" \/ c = "5" \/ c = "6" \/ c = "7"
   \/ c = "8" \/ c = "9")%char.
Proof.
  destruct c as [[] [] [] [] [] [] [] []]; vm_compute; intros H; try discriminate;
    repeat (try (left; reflexivity); right); reflexivity.
Qed.

Ltac digit_cases H :=
  apply digit_char in H;
  repeat (destruct H as [H | H]); subst.

Lemma digit_not_space (c : ascii) (d : Z) : digit_of c = Some d -> is_space c = false.
Proof. intros H. digit_cases H; reflexivity. Qed.

Lemma digit_not_comma (c : ascii) (d : Z) : digit_of c = Some d -> Ascii.eqb c "," = false.
Proof. intros H. digit_cases H; reflexivity. Qed.

Lemma rstrip_digits (s : string) : all_digits s = true -> rstrip s = s.
Proof.
  induction s as [|c s IH]; [reflexivity|]. simpl.
  destruct (digit_of c) as [d|] eqn:E; [|discriminate].
  intros H. rewrite (IH H). destruct s; [|reflexivity].
  rewrite (digit_not_space c d E). reflexivity.
Qed.

Lemma strip_digits (c : ascii) (s : string) :
  all_digits (String c s) = true -> strip (String c s) = String c s.
Proof.
  intros H. unfold strip.
  assert (E : lstrip (String c s) = String c s).
  { simpl in H. destruct (digit_of c) as [d|] eqn:E; [|discriminate].
    simpl. rewrite (digit_not_space c d E). reflexivity. }
  rewrite E. apply rstrip_digits. exact H.
Qed.

Lemma digit_range (c : ascii) (d : Z) : digit_of c = Some d -> (0 <= d <= 9)%Z.
Proof.
  unfold digit_of. cbv zeta.
  destruct ((48 <=? code c)%N && (code c <=? 57)%N) eqn:E; [|discriminate].
  intros H. injection H as <-.
  apply andb_true_iff in E. destruct E as [E1 E2].
  apply N.leb_le in E1, E2. lia.
Qed.

Lemma digits_value_nonneg (s : string) :
  forall acc n, (0 <= acc)%Z -> digits_value acc s = Some n -> (0 <= n)%Z.
Proof.
  induction s as [|c s IH]; intros acc n Ha H; simpl in H.
  - injection H as <-. exact Ha.
  - destruct (Ascii.eqb c ","); [exact (IH _ _ Ha H)|].
    destruct (digit_of c) as [d|] eqn:E; [|discriminate].
    apply digit_range in E. apply (IH (10 * acc + d)%Z); [lia | exact H].
Qed.

Lemma comma_prefix (c : ascii) (s : string) :
  String.prefix "," (String c s) = Ascii.eqb c ",".
Proof.
  destruct (String.prefix "," (String c s)) eqn:P.
  - apply prefix_cons in P. destruct P as [<- _]. reflexivity.
  - destruct (Ascii.eqb c ",") eqn:E; [|reflexivity].
    apply Ascii.eqb_eq in E. subst c.
    assert (T : String.prefix "," (String "," s) = true)
      by (apply prefix_cons; split; [reflexivity | apply prefix_empty]).
    congruence.
Qed.

Lemma remove_commas (s : string) :
  forall acc n,
    digits_value acc s = Some n ->
    all_digits (replace "," "" s) = true
    /\ forall cnt, exists k, digits_tail acc cnt (replace "," "" s) = (n, k, "").
Proof.
  unfold replace.
  induction s as [|c s IH]; intros acc n H; simpl in H.
  - injection H as <-. split; [reflexivity|]. intros cnt. exists cnt. reflexivity.
  - cbn [replace_from]. rewrite comma_prefix.
    destruct (Ascii.eqb c ",") eqn:E.
    + exact (IH acc n H).
    + destruct (digit_of c) as [d|] eqn:Ed; [|discriminate].
      destruct (IH _ _ H) as [H1 H2]. split.
      * cbn [all_digits]. rewrite Ed. exact H1.
      * intros cnt. cbn [digits_tail]. rewrite Ed. apply H2.
Qed.

Lemma no_rupee (s : string) :
  forall acc n, digits_value acc s = Some n -> replace rupee "" s = s.
Proof.
  unfold replace.
  induction s as [|c s IH]; intros acc n H; [reflexivity|].
  cbn [replace_from]. simpl in H.
  assert (Hp : String.prefix rupee (String c s) = false).
  { destruct (String.prefix rupee (String c s)) eqn:P; [|reflexivity].
    unfold rupee in P. apply prefix_cons in P. destruct P as [<- _].
    vm_compute in H. discriminate. }
  rewrite Hp. f_equal.
  destruct (Ascii.eqb c ","); [exact (IH _ _ H)|].
  destruct (digit_of c); [exact (IH _ _ H) | discriminate].
Qed.

Lemma digit_no_keyword (c : ascii) (d : Z) (r : string) :
  digit_of c = Some d ->
  String.eqb (lower (String c r)) "inf" || String.eqb (lower (String c r)) "infinity"
  = false
  /\ String.eqb (lower (String c r)) "nan" = false.
Proof. intros H. digit_cases H; split; reflexivity. Qed.

Lemma abs_float_digits (c : ascii) (ds : string) (d n : Z) (k : nat) :
  digit_of c = Some d ->
  digits_tail (10 * 0 + d) 1 ds = (n, k, "") ->
  abs_float (String c ds) = Some (round64 (inject_Z n)).
Proof.
  intros Hd Ht. unfold abs_float. cbv zeta.
  destruct (digit_no_keyword c d ds Hd) as [K1 K2]. rewrite K1, K2.
  unfold number, digitpart. rewrite Hd, Ht. cbv beta iota.
  unfold exponent.
  change (0 - Z.of_nat 0)%Z with 0%Z. change (0 <=? 0)%Z with true. cbv iota.
  rewrite Z.pow_0_r, Z.mul_1_r. reflexivity.
Qed.

Lemma py_float_digits (c : ascii) (ds : string) (d : Z) :
  digit_of c = Some d ->
  all_digits ds = true ->
  py_float (String c ds) = abs_float (String c ds).
Proof.
  intros Hd Ha. unfold py_float.
  rewrite strip_digits by (cbn [all_digits]; rewrite Hd; exact Ha).
  digit_cases Hd; reflexivity.
Qed.

(** X27: a price text made of the rupee sign, a digit, and then digits and
    thousands separators, parses to the number its digits write, exactly,
    as long as that number is below 2^53: the sign and the separators are
    removed and [float] reads the remaining digits without rounding. *)
Theorem X27_rupee_price_parses_to_its_digits :
  forall (c : ascii) (rest : string) (d n : Z),
    digit_of c = Some d ->
    digits_value 0 (String c rest) = Some n ->
    (n < 2 ^ 53)%Z ->
    parse_price (Some (rupee ++ String c rest)%string) = PyFloat (inject_Z n).
Proof.
  intros c rest d n Hd Hv Hn.
  assert (Hpos : (0 <= n)%Z) by (apply (digits_value_nonneg _ 0 n) in Hv; lia).
  unfold parse_price.
  change (String.eqb (rupee ++ String c rest)%string ""
          || String.eqb (rupee ++ String c rest)%string "N/A")
    with false.
  cbv iota. unfold cleaned.
  change (replace rupee "" (rupee ++ String c rest)%string)
    with (replace rupee "" (String c rest)).
  rewrite (no_rupee _ _ _ Hv).
  pose proof (digit_not_comma c d Hd) as Hc.
  simpl in Hv. rewrite Hc, Hd in Hv.
  destruct (remove_commas rest _ _ Hv) as [Ha Ht].
  destruct (Ht 1) as (k & Hk).
  assert (E : replace "," "" (String c rest) = String c (replace "," "" rest)).
  { unfold replace. cbn [replace_from]. rewrite comma_prefix, Hc. reflexivity. }
  rewrite E.
  rewrite strip_digits by (cbn [all_digits]; rewrite Hd; exact Ha).
  rewrite (py_float_digits c _ d Hd Ha).
  rewrite (abs_float_digits c _ d n k Hd Hk).
  apply round64_exact. lia.
Qed.

Lemma X27_price_of_the_example_offer :
  parse_price (Some (rupee ++ "45,230")%string) = PyFloat (inject_Z 45230).
Proof.
  apply (X27_rupee_price_parses_to_its_digits "4" "5,230" 4 45230).
  - reflexivity.
  - reflexivity.
  - vm_compute. reflexivity.
Defined.

End PriceText.
